(** * Lotus Notebook: the embedded Python executor

    A shallow embedding of [src/pythonexecutor.cpp] (class [PythonExecutor])
    and of [VariableInspector::parsePythonValue] from
    [src/variableinspector.cpp], with the properties that the design
    specification states about them.

    Conventions.
    - A [QString] is a [string]; each [ascii] stands for one [QChar] of the
      Latin-1 range, which is all that the source's literals use.
    - A [QByteArray] is a [list Byte.byte].
    - CPython and Qt are libraries, not code of the repository.  The
      executor is parameterised by what it asks of them: the machine
      ([Host]), the evaluation of a snippet ([PyRun_StringFlags]), the JSON
      reader ([fromJson]) and the base64 decoder ([fromBase64]).  Reference
      instances, used to run the scenarios, are [QJson], [Base64] and
      [Scenario].
    - A snippet is seen through what it does: the text it writes, the names
      it binds, the figure it draws, the time it takes, and how it ends.
    - A timeout leaves the evaluation by [longjmp]; the runtime is then
      marked [unwound].  CPython gives no guarantee for such a runtime: what
      an evaluation does on it is up to [PyRun_StringFlags], like every
      other evaluation.  An evaluation that takes the process down is
      outside the model.
    - A call that never returns is [None]. *)

From Stdlib Require Import ZArith String Ascii List Lia Bool.
From stdpp Require Import gmap strings list fin_maps pretty.

Open Scope string_scope.
Set Warnings "-register-all".

(** ** QString operations used by the executor *)

Module QString.

(** [QChar::isSpace] on the Latin-1 range: the ASCII controls 9..13, the
    space, NEL (0x85) and the no-break space (0xA0). *)
Definition isSpace (c : ascii) : bool :=
  let n := N_of_ascii c in
  ((9 <=? n) && (n <=? 13) || (n =? 32) || (n =? 133) || (n =? 160))%N.

Definition isEmpty (s : string) : bool :=
  match s with EmptyString => true | String _ _ => false end.

(** [s.startsWith(p)] *)
Definition startsWith (s p : string) : bool := String.prefix p s.

(** [s.mid(n)]: everything from position [n] on. *)
Fixpoint mid (s : string) (n : nat) : string :=
  match n, s with
  | O, _ => s
  | S _, EmptyString => EmptyString
  | S n', String _ rest => mid rest n'
  end.

(** [s.left(n)]: the first [n] characters, all of [s] when it is shorter. *)
Fixpoint left (s : string) (n : nat) : string :=
  match n, s with
  | O, _ => EmptyString
  | S _, EmptyString => EmptyString
  | S n', String c rest => String c (left rest n')
  end.

Fixpoint trimmed_front (s : string) : string :=
  match s with
  | EmptyString => EmptyString
  | String c rest => if isSpace c then trimmed_front rest else s
  end.

Fixpoint trimmed_back (s : string) : string :=
  match s with
  | EmptyString => EmptyString
  | String c rest =>
      match trimmed_back rest with
      | EmptyString => if isSpace c then EmptyString else String c EmptyString
      | kept => String c kept
      end
  end.

(** [s.trimmed()]: white space removed from both ends. *)
Definition trimmed (s : string) : string := trimmed_back (trimmed_front s).

(** [s.split(sep)] with the default [Qt::KeepEmptyParts]: the fields
    between separators, so that the empty string has the one field [""]. *)
Fixpoint split (sep : ascii) (s : string) : list string :=
  match s with
  | EmptyString => [EmptyString]
  | String c rest =>
      if Ascii.eqb c sep then EmptyString :: split sep rest
      else match split sep rest with
           | [] => [String c EmptyString]
           | field :: fields => String c field :: fields
           end
  end.

End QString.

Definition newline : ascii := ascii_of_nat 10.
Definition nl : string := String newline EmptyString.
Definition dquote : string := String (ascii_of_nat 34) EmptyString.

Definition QByteArray : Type := list Byte.byte.

(** ** JSON documents, as [QJsonDocument::fromJson] delivers them *)

Inductive QJsonValue : Type :=
| JNull
| JBool (b : bool)
| JNumber (literal : string)
| JString (s : string)
| JArray (items : list QJsonValue)
| JObject (members : gmap string QJsonValue).

(** [doc.object()]: the members of an object document, and the empty object
    for a document that is an array. *)
Definition object (doc : QJsonValue) : gmap string QJsonValue :=
  match doc with
  | JObject members => members
  | _ => ∅
  end.

(** [json[key].toString()]: the string stored under [key], and the empty
    string when the key is missing or holds something else. *)
Definition toString (json : gmap string QJsonValue) (key : string) : string :=
  match json !! key with
  | Some (JString s) => s
  | _ => EmptyString
  end.

(** ** Results of a run ([pythonexecutor.h]) *)

Inductive OutputType : Type :=
| Text | Error | Html | Table | Image | Markdown | Rich.

Record Output : Type := mkOutput {
  type : OutputType;
  content : string;        (* text, error, html, table, markdown, rich *)
  imageData : QByteArray   (* image outputs *)
}.

Record ExecutionResult : Type := mkResult {
  success : bool;
  textOutput : string;
  error : string;
  plotData : QByteArray;
  outputs : list Output
}.

Inductive Signal : Type :=
| executionStarted
| executionFinished (ok : bool)
| plotGenerated (data : QByteArray).

(** ** The rich output protocol *)

Definition QList_isEmpty {A : Type} (l : list A) : bool :=
  match l with [] => true | _ :: _ => false end.

Definition SENTINEL : string := "LOTUS_OUTPUT:".

Section RichOutputs.

(** [QJsonDocument::fromJson(text.toUtf8(), &error)]: the document when
    [error.error == NoError], [None] otherwise. *)
Variable fromJson : string -> option QJsonValue.
(** [QByteArray::fromBase64(text.toUtf8())] *)
Variable fromBase64 : string -> QByteArray.

(** The if-else chain on [type]; [None] when no branch appends. *)
Definition output_of_json (json : gmap string QJsonValue) : option Output :=
  let type := toString json "type" in
  let content := toString json "content" in
  if String.eqb type "text" then Some (mkOutput Text content [])
  else if String.eqb type "html" then Some (mkOutput Html content [])
  else if String.eqb type "table" then Some (mkOutput Table content [])
  else if String.eqb type "image" then
    Some (mkOutput Image EmptyString (fromBase64 content))
  else if String.eqb type "error" then Some (mkOutput Error content [])
  else if String.eqb type "rich" then Some (mkOutput Rich content [])
  else if String.eqb type "markdown" then Some (mkOutput Markdown content [])
  else None.

(** One turn of the loop of [parseRichOutputs]. *)
Definition parse_line (outputs : list Output) (line : string) : list Output :=
  if QString.startsWith line SENTINEL then
    let jsonStr := QString.trimmed (QString.mid line (String.length SENTINEL)) in
    match fromJson jsonStr with
    | Some doc =>
        match output_of_json (object doc) with
        | Some output => (outputs ++ [output])%list
        | None => outputs
        end
    | None => outputs
    end
  else outputs.

Definition parseRichOutputs (stdoutText : string) : list Output :=
  fold_left parse_line (QString.split newline stdoutText) [].

(** The loop of [execute] that gathers the plain text: it stops at the
    first sentinel line. *)
Fixpoint plain_text_loop (lines : list string) (plainText : string) : string :=
  match lines with
  | [] => plainText
  | line :: rest =>
      if QString.startsWith line SENTINEL then plainText
      else plain_text_loop rest (plainText ++ line ++ nl)
  end.

(** The block "Combine output and error" that ends [execute]. *)
Definition combine (result : ExecutionResult) (stdoutText stderrText : string)
  : ExecutionResult :=
  let result :=
    if QString.isEmpty stdoutText then result
    else
      let outputs := parseRichOutputs stdoutText in
      let plainText := plain_text_loop (QString.split newline stdoutText) "" in
      let textOutput := QString.trimmed plainText in
      let outputs :=
        if QString.isEmpty textOutput && QList_isEmpty outputs
        then (outputs ++ [mkOutput Text stdoutText []])%list
        else outputs in
      mkResult (success result) textOutput (error result) (plotData result) outputs in
  if QString.isEmpty stderrText then result
  else
    let error :=
      if QString.isEmpty (error result) then stderrText
      else stderrText ++ nl ++ error result in
    mkResult (success result) (textOutput result) error (plotData result)
             (outputs result).

End RichOutputs.

(** ** The embedded runtime, as the executor observes it *)

(** A Python object, as far as [getVariables] looks at it: the [__name__] of
    its type and its [repr()], which is [None] when [PyObject_Repr] fails. *)
Record PyValue : Type := mkValue {
  type_name : string;
  repr : option string
}.

(** The live runtime between [Py_Initialize] and [Py_Finalize]. *)
Record Interp : Type := mkInterp {
  pGlobals : gmap string PyValue;  (* the dictionary of [__main__] *)
  pStdout : string;                (* [sys.stdout.output] *)
  pStderr : string;                (* [sys.stderr.output] *)
  canvas : string;                 (* what [plt.savefig] would write now, in base64 *)
  unwound : bool                   (* a [longjmp] has left [PyRun_StringFlags] *)
}.

Inductive Stream : Type := Stdout | Stderr.

(** What a snippet does while it runs, in order. *)
Inductive PyEvent : Type :=
| Write (to : Stream) (text : string)      (* [LotusStdoutCapture.write] *)
| Bind (name : string) (value : PyValue)   (* a top-level binding *)
| Unbind (name : string)                   (* [del name] *)
| Draw (rendering : string)                (* pyplot calls that change the figure *)
| Elapse (ms : N).                         (* time spent computing *)

(** How [PyRun_StringFlags] ends: a non-NULL result, NULL with the fetched
    exception ([str(pValue)] and the joined [format_tb], each where
    available), or never. *)
Inductive Ending : Type :=
| Returns
| Raises (value traceback : option string)
| Diverges.

Record Evaluation : Type := mkEvaluation {
  steps : list PyEvent;
  ending : Ending
}.

(** The machine the process runs on. *)
Record Host : Type := mkHost {
  Py_IsInitialized : bool;                 (* after [Py_Initialize()] *)
  main_dict : gmap string PyValue;         (* [__main__.__dict__] of a fresh runtime *)
  stdlib_module : string -> PyValue;       (* the module object an import binds *)
  matplotlib : option (PyValue * PyValue); (* [matplotlib] and its [pyplot], when installed *)
  blank_canvas : string;                   (* [savefig] of an empty figure, in base64 *)
  helper_repr : string                     (* [repr(lotus_plot_capture)] *)
}.

Definition write (py : Interp) (to : Stream) (text : string) : Interp :=
  match to with
  | Stdout =>
      mkInterp (pGlobals py) (pStdout py ++ text) (pStderr py) (canvas py)
        (unwound py)
  | Stderr =>
      mkInterp (pGlobals py) (pStdout py) (pStderr py ++ text) (canvas py)
        (unwound py)
  end.

Definition set_globals (py : Interp) (g : gmap string PyValue) : Interp :=
  mkInterp g (pStdout py) (pStderr py) (canvas py) (unwound py).

Definition set_canvas (py : Interp) (rendering : string) : Interp :=
  mkInterp (pGlobals py) (pStdout py) (pStderr py) rendering (unwound py).

(** [longjmp(jumpBuffer, 1)] in [timeoutHandler]: the evaluation is left
    where the signal found it.  Namespace, sinks and figure are as they
    were; the frames of the evaluation are dropped without CPython's own
    clean-up. *)
Definition longjmp (py : Interp) : Interp :=
  mkInterp (pGlobals py) (pStdout py) (pStderr py) (canvas py) true.

Definition apply_event (py : Interp) (e : PyEvent) : Interp :=
  match e with
  | Write to text => write py to text
  | Bind name value => set_globals py (<[name := value]> (pGlobals py))
  | Unbind name => set_globals py (delete name (pGlobals py))
  | Draw rendering => set_canvas py rendering
  | Elapse _ => py
  end.

(** ** The timeout guard *)

(** [alarm(executionTimeout / 1000)]: the division is C++ integer division
    and the argument an [unsigned int]; [alarm(0)] arms nothing.  The result
    is the deadline in milliseconds, when one is armed. *)
Definition alarm (executionTimeout : Z) : option Z :=
  let seconds := ((Z.quot executionTimeout 1000) mod 2 ^ 32)%Z in
  if (seconds =? 0)%Z then None else Some (seconds * 1000)%Z.

(** What the [setjmp] region comes to. *)
Inductive Run : Type :=
| Done (py : Interp) (raised : option (option string * option string))
    (* [PyRun_StringFlags] came back; [raised = None] is a non-NULL result *)
| Alarm (py : Interp)
    (* SIGALRM arrived first: [timeoutHandler] jumps out of the evaluation *)
| Forever.
    (* nothing armed and the snippet does not end *)

(** The evaluation under a deadline.  The snippet is cut off when the time
    it has spent reaches the deadline before it has ended; what it did until
    then stays done. *)
Fixpoint run_steps (deadline : option Z) (clock : Z) (py : Interp)
    (steps : list PyEvent) (ending : Ending) : Run :=
  match steps with
  | [] =>
      match ending with
      | Returns => Done py None
      | Raises value traceback => Done py (Some (value, traceback))
      | Diverges =>
          match deadline with Some _ => Alarm (longjmp py) | None => Forever end
      end
  | Elapse ms :: rest =>
      let clock' := (clock + Z.of_N ms)%Z in
      match deadline with
      | Some d =>
          if (d <=? clock')%Z then Alarm (longjmp py)
          else run_steps deadline clock' py rest ending
      | None => run_steps deadline clock' py rest ending
      end
  | e :: rest => run_steps deadline clock (apply_event py e) rest ending
  end.

(** ** The executor *)

(** The fields of [PythonExecutor].  The flag [initialized] and the runtime
    pointers ([pMainModule], [pGlobals], [pStdout], [pStderr]) are the one
    field [python]: it is [Some] exactly while the flag is set, and every use
    of the pointers in the source is behind the flag.  [pPlotCaptureModule]
    is [true] when the pointer is not null.  [emitted] lists the Qt signals
    emitted so far. *)
Record PythonExecutor : Type := mkExecutor {
  python : option Interp;
  lastErrorMessage : string;
  executionTimeout : Z;
  memoryLimit : Z;
  plotCaptureEnabled : bool;
  plotFormat : string;
  executionInterrupted : bool;
  pPlotCaptureModule : bool;
  emitted : list Signal
}.

Definition initialized (s : PythonExecutor) : bool :=
  match python s with Some _ => true | None => false end.

(** The constructor. *)
Definition PythonExecutor_new : PythonExecutor :=
  mkExecutor None "" 10000 0 true "PNG" false false [].

Definition set_python (s : PythonExecutor) (p : option Interp) : PythonExecutor :=
  mkExecutor p (lastErrorMessage s) (executionTimeout s) (memoryLimit s)
    (plotCaptureEnabled s) (plotFormat s) (executionInterrupted s)
    (pPlotCaptureModule s) (emitted s).

Definition set_lastErrorMessage (s : PythonExecutor) (m : string) : PythonExecutor :=
  mkExecutor (python s) m (executionTimeout s) (memoryLimit s)
    (plotCaptureEnabled s) (plotFormat s) (executionInterrupted s)
    (pPlotCaptureModule s) (emitted s).

Definition set_executionInterrupted (s : PythonExecutor) (b : bool) : PythonExecutor :=
  mkExecutor (python s) (lastErrorMessage s) (executionTimeout s) (memoryLimit s)
    (plotCaptureEnabled s) (plotFormat s) b (pPlotCaptureModule s) (emitted s).

Definition set_pPlotCaptureModule (s : PythonExecutor) (b : bool) : PythonExecutor :=
  mkExecutor (python s) (lastErrorMessage s) (executionTimeout s) (memoryLimit s)
    (plotCaptureEnabled s) (plotFormat s) (executionInterrupted s) b (emitted s).

Definition emit (s : PythonExecutor) (sig : Signal) : PythonExecutor :=
  mkExecutor (python s) (lastErrorMessage s) (executionTimeout s) (memoryLimit s)
    (plotCaptureEnabled s) (plotFormat s) (executionInterrupted s)
    (pPlotCaptureModule s) (emitted s ++ [sig])%list.

Definition setExecutionTimeout (s : PythonExecutor) (milliseconds : Z) : PythonExecutor :=
  mkExecutor (python s) (lastErrorMessage s) milliseconds (memoryLimit s)
    (plotCaptureEnabled s) (plotFormat s) (executionInterrupted s)
    (pPlotCaptureModule s) (emitted s).

Definition setMemoryLimit (s : PythonExecutor) (bytes : Z) : PythonExecutor :=
  mkExecutor (python s) (lastErrorMessage s) (executionTimeout s) bytes
    (plotCaptureEnabled s) (plotFormat s) (executionInterrupted s)
    (pPlotCaptureModule s) (emitted s).

Definition enablePlotCapture (s : PythonExecutor) (enable : bool) : PythonExecutor :=
  mkExecutor (python s) (lastErrorMessage s) (executionTimeout s) (memoryLimit s)
    enable (plotFormat s) (executionInterrupted s)
    (pPlotCaptureModule s) (emitted s).

Definition setPlotFormat (s : PythonExecutor) (format : string) : PythonExecutor :=
  mkExecutor (python s) (lastErrorMessage s) (executionTimeout s) (memoryLimit s)
    (plotCaptureEnabled s) format (executionInterrupted s)
    (pPlotCaptureModule s) (emitted s).

Definition interrupt (s : PythonExecutor) : PythonExecutor :=
  set_executionInterrupted s true.

Definition set_success (r : ExecutionResult) (b : bool) : ExecutionResult :=
  mkResult b (textOutput r) (error r) (plotData r) (outputs r).

Definition set_error (r : ExecutionResult) (e : string) : ExecutionResult :=
  mkResult (success r) (textOutput r) e (plotData r) (outputs r).

(** The result as [execute] declares it. *)
Definition result0 : ExecutionResult := mkResult false "" "" [] [].

(** How far a call to [execute] got before the block that combines output
    and error. *)
Inductive Stage : Type :=
| Early (result : ExecutionResult) (s : PythonExecutor)
    (* one of the two [return result] before the evaluation *)
| Collected (result : ExecutionResult) (stdoutText stderrText : string)
    (s : PythonExecutor).
    (* the [setjmp] region is over, with these locals *)

(** The entry of the variable snapshot for one name: the keys ["type"] and
    ["value"] of the JSON object. *)
Record VarInfo : Type := mkVarInfo {
  var_type : string;
  var_value : string
}.

Section Executor.

Variable host : Host.
(** [PyRun_StringFlags(code, Py_file_input, pGlobals, pGlobals, NULL)] *)
Variable PyRun_StringFlags : string -> Interp -> Evaluation.
Variable fromJson : string -> option QJsonValue.
Variable fromBase64 : string -> QByteArray.

Definition bind_all (bindings : list (string * PyValue))
    (g : gmap string PyValue) : gmap string PyValue :=
  fold_left (fun g b => <[fst b := snd b]> g) bindings g.

Definition class_object (name : string) : PyValue :=
  mkValue "type" (Some ("<class '__main__." ++ name ++ "'>")).

Definition import (name : string) : string * PyValue :=
  (name, stdlib_module host name).

(** The Python text of [setupStdoutRedirection], run in [__main__]: two
    imports, the class, and two fresh sinks. *)
Definition setupStdoutRedirection (py : Interp) : Interp :=
  mkInterp
    (bind_all [import "sys"; import "io";
               ("LotusStdoutCapture", class_object "LotusStdoutCapture")]
              (pGlobals py))
    "" "" (canvas py) (unwound py).

(** The Python text of [setupPlotCapture], run in [__main__]. *)
Definition setupPlotCapture (py : Interp) : Interp :=
  set_globals py
    (bind_all [import "sys"; import "io"; import "base64";
               ("PlotCapture", class_object "PlotCapture");
               ("lotus_plot_capture",
                mkValue "PlotCapture" (Some (helper_repr host)))]
              (pGlobals py)).

(** [initialize].  The Python text of the set-up consists of imports from
    the standard library, two class definitions and assignments; it is taken
    to run without error, so that of the early returns only the one for a
    runtime that does not start is left. *)
Definition initialize (s : PythonExecutor) : bool * PythonExecutor :=
  if initialized s then (true, s)
  else if negb (Py_IsInitialized host) then
    (false, set_lastErrorMessage s "Failed to initialize Python interpreter")
  else
    let py := mkInterp (main_dict host) "" "" (blank_canvas host) false in
    let py := setupStdoutRedirection py in
    let py := if plotCaptureEnabled s then setupPlotCapture py else py in
    let s := if plotCaptureEnabled s then set_pPlotCaptureModule s true else s in
    (* Import common modules *)
    let py := set_globals py
        (bind_all [import "sys"; import "io"; import "base64"; import "signal"]
                  (pGlobals py)) in
    (* numpy is imported and dropped; matplotlib, when there, is set up *)
    let py :=
      match matplotlib host with
      | Some (module, pyplot) =>
          set_globals py
            (bind_all [("matplotlib", module); ("plt", pyplot);
                       import "io"; import "base64"] (pGlobals py))
      | None => py
      end in
    (true, set_python s (Some py)).

Definition cleanup (s : PythonExecutor) : PythonExecutor :=
  if negb (initialized s) then s
  else set_python (set_pPlotCaptureModule s false) None.

Definition restart (s : PythonExecutor) : PythonExecutor :=
  snd (initialize (cleanup s)).

(** [PlotCapture.capture_current_plot]: the figure in base64, and Python's
    [None] when pyplot cannot be imported. *)
Definition capture_current_plot (py : Interp) : option string :=
  match matplotlib host with
  | Some _ => Some (canvas py)
  | None => None
  end.

(** [PlotCapture.clear_plots] *)
Definition clear_plots (py : Interp) : Interp :=
  match matplotlib host with
  | Some _ => set_canvas py (blank_canvas host)
  | None => py
  end.

Definition capturePlot (s : PythonExecutor) (py : Interp) : PythonExecutor :=
  if negb (pPlotCaptureModule s) then s
  else match capture_current_plot py with
       | Some base64Data => emit s (plotGenerated (fromBase64 base64Data))
       | None => s
       end.

(** The head of [execute]: the interrupt flag is reset and a session that
    is not initialized is initialized. *)
Definition prologue (s : PythonExecutor) : PythonExecutor :=
  let s := set_executionInterrupted s false in
  if initialized s then s else snd (initialize s).

(** "Clear previous plot" *)
Definition plots_cleared (s : PythonExecutor) (py : Interp) : Interp :=
  if pPlotCaptureModule s then clear_plots py else py.

(** The [setjmp] region: the alarm is armed and the code evaluated. *)
Definition guarded_run (s : PythonExecutor) (py : Interp) (code : string) : Run :=
  let evaluation := PyRun_StringFlags code py in
  run_steps (alarm (executionTimeout s)) 0 py
    (steps evaluation) (ending evaluation).

Definition timeout_message (s : PythonExecutor) : string :=
  "Execution timed out after "
  ++ pretty (Z.quot (executionTimeout s) 1000) ++ " seconds".

(** The rendering of a fetched exception: [str(pValue)] with the joined
    [format_tb] put in front. *)
Definition errorMsg (value traceback : option string) : string :=
  default "" traceback ++ default "" value.

(** The sinks after "Get stdout and stderr": both read and set to [""]. *)
Definition sinks_cleared (py : Interp) : Interp :=
  mkInterp (pGlobals py) "" "" (canvas py) (unwound py).

(** [execute], up to the line [sigaction(SIGALRM, &oldSa, nullptr)]. *)
Definition attempt (s : PythonExecutor) (code : string) : option Stage :=
  let result := result0 in
  let s := prologue s in
  match python s with
  | None => Some (Early (set_error result (lastErrorMessage s)) s)
  | Some py =>
      if executionInterrupted s then
        Some (Early (set_error result "Execution interrupted by user") s)
      else
        let py := plots_cleared s py in
        let s := emit s executionStarted in
        match guarded_run s py code with
        | Forever => None
        | Alarm py =>
            (* Timeout occurred *)
            let result := set_error result (timeout_message s) in
            Some (Collected result "" "" (set_python s (Some py)))
        | Done py None =>
            let result := set_success result true in
            let s := if plotCaptureEnabled s then capturePlot s py else s in
            Some (Collected result (pStdout py) (pStderr py)
                    (set_python s (Some (sinks_cleared py))))
        | Done py (Some (value, traceback)) =>
            let result := set_error result (errorMsg value traceback) in
            Some (Collected result (pStdout py) (pStderr py)
                    (set_python s (Some (sinks_cleared py))))
        end
  end.

(** What the [setjmp] region of [execute s code] comes to, when the call
    gets that far. *)
Definition evaluation (s : PythonExecutor) (code : string) : option Run :=
  let s := prologue s in
  match python s with
  | None => None
  | Some py =>
      if executionInterrupted s then None
      else Some (guarded_run s (plots_cleared s py) code)
  end.

Definition execute (s : PythonExecutor) (code : string)
  : option (ExecutionResult * PythonExecutor) :=
  match attempt s code with
  | None => None
  | Some (Early result s) => Some (result, s)
  | Some (Collected result stdoutText stderrText s) =>
      let result := combine fromJson fromBase64 result stdoutText stderrText in
      Some (result, emit s (executionFinished (success result)))
  end.

(** *** Variable inspection *)

Definition internal_names : list string :=
  ["In"; "Out"; "exit"; "quit"; "get_ipython"; "open"; "quit"; "exit";
   "__name__"; "__builtins__"; "__doc__"; "__loader__"; "__spec__";
   "__package__"].

(** The two [continue] tests at the head of the loop of [getVariables]. *)
Definition skipped (name : string) : bool :=
  (QString.startsWith name "_" && negb (QString.startsWith name "__"))
  || existsb (String.eqb name) internal_names.

Definition variable_info (value : PyValue) : VarInfo :=
  mkVarInfo (type_name value) (default "" (repr value)).

(** One turn of the loop over the keys of [pGlobals]. *)
Definition record_variable (name : string) (value : PyValue)
    (variables : gmap string VarInfo) : gmap string VarInfo :=
  if skipped name then variables
  else <[name := variable_info value]> variables.

Definition getVariables (s : PythonExecutor) : gmap string VarInfo :=
  match python s with
  | None => ∅
  | Some py => map_fold record_variable ∅ (pGlobals py)
  end.

Definition getVariableType (s : PythonExecutor) (name : string) : string :=
  match python s with
  | None => ""
  | Some py => default "" (type_name <$> pGlobals py !! name)
  end.

Definition getVariableRepr (s : PythonExecutor) (name : string) : string :=
  match python s with
  | None => ""
  | Some py => default "" (pGlobals py !! name ≫= repr)
  end.

End Executor.

(** [VariableInspector::parsePythonValue] *)
Definition parsePythonValue (repr : string) : string :=
  let maxLength := 100 in
  if Nat.leb (String.length repr) maxLength then repr
  else QString.left repr maxLength ++ "...".

(** ** Reference instances of the libraries *)

(** A JSON reader after RFC 8259 for the documents of the protocol: objects,
    arrays, strings with their escapes (code points up to 255), numbers and
    the three literals.  Like [QJsonDocument::fromJson] it wants an object or
    an array at the top and nothing but white space after it; a repeated key
    keeps its last value. *)
Module QJson.

Definition is_ws (c : ascii) : bool :=
  let n := N_of_ascii c in
  ((n =? 32) || (n =? 9) || (n =? 10) || (n =? 13))%N.

Definition is_digit (c : ascii) : bool :=
  let n := N_of_ascii c in ((48 <=? n) && (n <=? 57))%N.

Fixpoint skip_ws (s : string) : string :=
  match s with
  | String c rest => if is_ws c then skip_ws rest else s
  | EmptyString => s
  end.

(** The longest run of digits at the head, and what follows it. *)
Fixpoint digits (s : string) : string * string :=
  match s with
  | String c rest =>
      if is_digit c then let (d, r) := digits rest in (String c d, r)
      else (EmptyString, s)
  | EmptyString => (EmptyString, s)
  end.

Definition hex_digit (c : ascii) : option N :=
  let n := N_of_ascii c in
  if ((48 <=? n) && (n <=? 57))%N then Some (n - 48)%N
  else if ((65 <=? n) && (n <=? 70))%N then Some (n - 55)%N
  else if ((97 <=? n) && (n <=? 102))%N then Some (n - 87)%N
  else None.

Definition hex4 (a b c d : ascii) : option ascii :=
  match hex_digit a, hex_digit b, hex_digit c, hex_digit d with
  | Some x, Some y, Some z, Some w =>
      let code := (((x * 16 + y) * 16 + z) * 16 + w)%N in
      if (code <? 256)%N then Some (ascii_of_N code) else None
  | _, _, _, _ => None
  end.

Definition escape (c : ascii) : option ascii :=
  match c with
  | "034"%char => Some "034"%char
  | "092"%char => Some "092"%char
  | "/"%char => Some "/"%char
  | "b"%char => Some "008"%char
  | "f"%char => Some "012"%char
  | "n"%char => Some "010"%char
  | "r"%char => Some "013"%char
  | "t"%char => Some "009"%char
  | _ => None
  end.

(** The text of a string after its opening quote, up to the closing one. *)
Fixpoint string_body (s : string) : option (string * string) :=
  match s with
  | EmptyString => None
  | String "034"%char rest => Some (EmptyString, rest)
  | String "092"%char (String "u"%char (String a (String b (String c (String d rest))))) =>
      match hex4 a b c d, string_body rest with
      | Some ch, Some (str, r) => Some (String ch str, r)
      | _, _ => None
      end
  | String "092"%char (String e rest) =>
      match escape e, string_body rest with
      | Some ch, Some (str, r) => Some (String ch str, r)
      | _, _ => None
      end
  | String "092"%char EmptyString => None
  | String c rest =>
      if (N_of_ascii c <? 32)%N then None
      else match string_body rest with
           | Some (str, r) => Some (String c str, r)
           | None => None
           end
  end.

Definition fraction (s : string) : option (string * string) :=
  match s with
  | String "."%char rest =>
      let (d, r) := digits rest in
      if QString.isEmpty d then None else Some ("." ++ d, r)
  | _ => Some (EmptyString, s)
  end.

Definition exponent (s : string) : option (string * string) :=
  match s with
  | String e rest =>
      if Ascii.eqb e "e" || Ascii.eqb e "E" then
        let (sign, rest) :=
          match rest with
          | String "+"%char r => ("+", r)
          | String "-"%char r => ("-", r)
          | _ => (EmptyString, rest)
          end in
        let (d, r) := digits rest in
        if QString.isEmpty d then None
        else Some (String e sign ++ d, r)
      else Some (EmptyString, s)
  | EmptyString => Some (EmptyString, s)
  end.

Definition number (s : string) : option (string * string) :=
  let (sign, s) :=
    match s with
    | String "-"%char r => ("-", r)
    | _ => (EmptyString, s)
    end in
  let (int, s) := digits s in
  match int with
  | EmptyString => None
  | String "0"%char (String _ _) => None
  | _ =>
      match fraction s with
      | Some (frac, s) =>
          match exponent s with
          | Some (exp, s) => Some (sign ++ int ++ frac ++ exp, s)
          | None => None
          end
      | None => None
      end
  end.

Definition literal (word : string) (v : QJsonValue) (s : string)
  : option (QJsonValue * string) :=
  if String.prefix word s then Some (v, QString.mid s (String.length word))
  else None.

Fixpoint value (fuel : nat) (s : string) : option (QJsonValue * string) :=
  match fuel with
  | O => None
  | S fuel =>
      match skip_ws s with
      | String "{"%char rest =>
          match skip_ws rest with
          | String "}"%char r => Some (JObject ∅, r)
          | r => members fuel r ∅
          end
      | String "["%char rest =>
          match skip_ws rest with
          | String "]"%char r => Some (JArray [], r)
          | r => elements fuel r []
          end
      | String "034"%char rest =>
          match string_body rest with
          | Some (str, r) => Some (JString str, r)
          | None => None
          end
      | String "t"%char _ as w => literal "true" (JBool true) w
      | String "f"%char _ as w => literal "false" (JBool false) w
      | String "n"%char _ as w => literal "null" JNull w
      | w =>
          match number w with
          | Some (lit, r) => Some (JNumber lit, r)
          | None => None
          end
      end
  end
with members (fuel : nat) (s : string) (acc : gmap string QJsonValue)
  : option (QJsonValue * string) :=
  match fuel with
  | O => None
  | S fuel =>
      match skip_ws s with
      | String "034"%char rest =>
          match string_body rest with
          | Some (key, r) =>
              match skip_ws r with
              | String ":"%char r =>
                  match value fuel r with
                  | Some (v, r) =>
                      match skip_ws r with
                      | String ","%char r => members fuel r (<[key := v]> acc)
                      | String "}"%char r => Some (JObject (<[key := v]> acc), r)
                      | _ => None
                      end
                  | None => None
                  end
              | _ => None
              end
          | None => None
          end
      | _ => None
      end
  end
with elements (fuel : nat) (s : string) (acc : list QJsonValue)
  : option (QJsonValue * string) :=
  match fuel with
  | O => None
  | S fuel =>
      match value fuel s with
      | Some (v, r) =>
          match skip_ws r with
          | String ","%char r => elements fuel r (acc ++ [v])%list
          | String "]"%char r => Some (JArray (acc ++ [v])%list, r)
          | _ => None
          end
      | None => None
      end
  end.

Definition fromJson (text : string) : option QJsonValue :=
  match value (S (String.length text)) text with
  | Some (JObject m, rest) =>
      if QString.isEmpty (skip_ws rest) then Some (JObject m) else None
  | Some (JArray l, rest) =>
      if QString.isEmpty (skip_ws rest) then Some (JArray l) else None
  | _ => None
  end.

End QJson.

(** [QByteArray::fromBase64] with its default options: characters outside
    the alphabet, the padding among them, are passed over. *)
Module Base64.

Definition digit (c : ascii) : option N :=
  let n := N_of_ascii c in
  if ((65 <=? n) && (n <=? 90))%N then Some (n - 65)%N
  else if ((97 <=? n) && (n <=? 122))%N then Some (n - 97 + 26)%N
  else if ((48 <=? n) && (n <=? 57))%N then Some (n - 48 + 52)%N
  else if (n =? 43)%N then Some 62%N
  else if (n =? 47)%N then Some 63%N
  else None.

Definition byte_of (n : N) : Byte.byte :=
  default Byte.x00 (Byte.of_N (n mod 256)).

Fixpoint loop (input : string) (buf nbits : N) : QByteArray :=
  match input with
  | EmptyString => []
  | String ch rest =>
      match digit ch with
      | None => loop rest buf nbits
      | Some d =>
          let buf := N.lor (N.shiftl buf 6) d in
          let nbits := (nbits + 6)%N in
          if (8 <=? nbits)%N then
            let nbits := (nbits - 8)%N in
            byte_of (N.shiftr buf nbits)
              :: loop rest (N.land buf (2 ^ nbits - 1)) nbits
          else loop rest buf nbits
      end
  end.

Definition fromBase64 (text : string) : QByteArray := loop text 0 0.

End Base64.

(** ** Notions of the specification *)

(** [s.contains(sub)] *)
Fixpoint contains (s sub : string) : bool :=
  String.prefix sub s
  || match s with
     | EmptyString => false
     | String _ rest => contains rest sub
     end.

Definition is_sentinel_line (line : string) : bool :=
  QString.startsWith line SENTINEL.

(** The lines strictly before the first sentinel line. *)
Fixpoint lines_before_first_sentinel (lines : list string) : list string :=
  match lines with
  | [] => []
  | line :: rest =>
      if is_sentinel_line line then []
      else line :: lines_before_first_sentinel rest
  end.

(** The specification's [textOutput]: the lines before the first sentinel
    line, each with its line end, in one string, trimmed. *)
Definition unlines (lines : list string) : string :=
  fold_right (fun line text => line ++ nl ++ text) "" lines.

Definition text_before_first_sentinel (stream : string) : string :=
  QString.trimmed
    (unlines (lines_before_first_sentinel (QString.split newline stream))).

(** The values of [type] that the protocol knows. *)
Definition recognized_types : list string :=
  ["text"; "html"; "table"; "image"; "error"; "rich"; "markdown"].

(** The payload of a sentinel line. *)
Definition payload (line : string) : string :=
  QString.trimmed (QString.mid line (String.length SENTINEL)).

(** The text that a run of steps writes to one sink. *)
Fixpoint written (to : Stream) (steps : list PyEvent) : string :=
  match steps with
  | [] => ""
  | Write Stdout text :: rest =>
      match to with Stdout => text ++ written to rest | Stderr => written to rest end
  | Write Stderr text :: rest =>
      match to with Stderr => text ++ written to rest | Stdout => written to rest end
  | _ :: rest => written to rest
  end.

(** The time a snippet needs to end, in milliseconds; [None] when it never
    does. *)
Definition elapsed (steps : list PyEvent) : Z :=
  fold_right (fun e t => match e with Elapse ms => Z.of_N ms + t | _ => t end)%Z
             0%Z steps.

Definition duration (e : Evaluation) : option Z :=
  match ending e with
  | Diverges => None
  | _ => Some (elapsed (steps e))
  end.

(** [exceeds e limit]: the evaluation is still running after [limit] ms. *)
Definition exceeds (e : Evaluation) (limit : Z) : Prop :=
  match duration e with
  | None => True
  | Some t => (limit < t)%Z
  end.

(** ** The scenarios of the specification, on a reference host *)

Module Scenario.

Definition module_object (name : string) : PyValue :=
  mkValue "module" (Some ("<module '" ++ name ++ "'>")).

Definition none : PyValue := mkValue "NoneType" (Some "None").

(** The dictionary of a fresh [__main__]. *)
Definition fresh_main : gmap string PyValue :=
  list_to_map
    [("__name__", mkValue "str" (Some "'__main__'"));
     ("__doc__", none);
     ("__package__", none);
     ("__loader__", mkValue "type" (Some "<class '_frozen_importlib.BuiltinImporter'>"));
     ("__spec__", none);
     ("__annotations__", mkValue "dict" (Some "{}"));
     ("__builtins__", module_object "builtins")].

(** A machine with Python and matplotlib. *)
Definition host : Host :=
  mkHost true fresh_main module_object
    (Some (module_object "matplotlib", module_object "matplotlib.pyplot"))
    "iVBORw0KGgo="
    "<__main__.PlotCapture object at 0x7f3a5c1d2e50>".

(** A machine without matplotlib. *)
Definition bare_host : Host :=
  mkHost true fresh_main module_object None ""
    "<__main__.PlotCapture object at 0x7f3a5c1d2e50>".

Definition spin : string := "while True: pass".
Definition assign_x : string := "x = 1".
Definition assign_then_spin : string := "y = 2" ++ nl ++ spin.
Definition print_hello : string := "print('hello')".
Definition print_then_spin : string := "print('leak')" ++ nl ++ spin.
Definition print_second : string := "print('second')".
Definition print_blank : string := "print()".
Definition warn : string :=
  "import sys" ++ nl ++ "print('careful', file=sys.stderr)".
Definition warn_then_spin : string :=
  "import sys" ++ nl ++ "print('careful', file=sys.stderr)" ++ nl ++ spin.
Definition warn_then_raise : string :=
  "import sys" ++ nl ++ "print('careful', file=sys.stderr)" ++ nl
  ++ "raise ValueError('bad')".
Definition plot : string :=
  "import matplotlib.pyplot as plt" ++ nl ++ "plt.plot([1, 2, 3])".
Definition long_value : string := "s = 'a' * 120".
Definition sleep : string := "import time" ++ nl ++ "time.sleep(1.5)".

Definition hi_json : string :=
  "{" ++ dquote ++ "type" ++ dquote ++ ":" ++ dquote ++ "text" ++ dquote ++ ","
  ++ dquote ++ "content" ++ dquote ++ ":" ++ dquote ++ "hi" ++ dquote ++ "}".
Definition hi_line : string := SENTINEL ++ hi_json.
Definition emit_hi : string := "print('" ++ hi_line ++ "')".
Definition broken_line : string := SENTINEL ++ "{oops".
Definition emit_broken : string :=
  "print('before')" ++ nl ++ "print('" ++ broken_line ++ "')" ++ nl
  ++ "print('after')".

Definition a120 : string := string_of_list_ascii (repeat "a"%char 120).
Definition figure : string := "iVBORw0KGgoAAAANSUhEUgAAAAEAAAABCAYAAAAfFcSJ".

(** [print(x)] writes [str(x)] and then the line end. *)
Definition print (to : Stream) (text : string) : list PyEvent :=
  [Write to text; Write to nl].

(** What CPython does with each snippet above. *)
Definition behaviours : list (string * Evaluation) :=
  [(spin, mkEvaluation [] Diverges);
   (assign_x, mkEvaluation [Bind "x" (mkValue "int" (Some "1"))] Returns);
   (assign_then_spin, mkEvaluation [Bind "y" (mkValue "int" (Some "2"))] Diverges);
   (print_hello, mkEvaluation (print Stdout "hello") Returns);
   (print_then_spin, mkEvaluation (print Stdout "leak") Diverges);
   (print_second, mkEvaluation (print Stdout "second") Returns);
   (print_blank, mkEvaluation (print Stdout "") Returns);
   (warn, mkEvaluation (Bind "sys" (module_object "sys") :: print Stderr "careful")
            Returns);
   (warn_then_spin,
    mkEvaluation (Bind "sys" (module_object "sys") :: print Stderr "careful")
      Diverges);
   (warn_then_raise,
    mkEvaluation (Bind "sys" (module_object "sys") :: print Stderr "careful")
      (Raises (Some "bad")
         (Some ("  File " ++ dquote ++ "<string>" ++ dquote
                ++ ", line 3, in <module>" ++ nl))));
   (plot, mkEvaluation [Bind "plt" (module_object "matplotlib.pyplot"); Draw figure]
            Returns);
   (long_value,
    mkEvaluation [Bind "s" (mkValue "str" (Some ("'" ++ a120 ++ "'")))] Returns);
   (sleep, mkEvaluation [Bind "time" (module_object "time"); Elapse 1500] Returns);
   (emit_hi, mkEvaluation (print Stdout hi_line) Returns);
   (emit_broken,
    mkEvaluation (print Stdout "before" ++ print Stdout broken_line
                  ++ print Stdout "after")%list Returns)].

Fixpoint behaviour_of (code : string) (table : list (string * Evaluation))
  : Evaluation :=
  match table with
  | [] => mkEvaluation [] (Raises (Some "invalid syntax (<string>, line 1)") None)
  | (source, e) :: rest =>
      if String.eqb code source then e else behaviour_of code rest
  end.

(** CPython gives no guarantee for a runtime whose evaluation was left by
    [longjmp].  On the reference machine the next evaluation fails with
    SystemError [unknown opcode] before the first statement of the snippet. *)
Definition unknown_opcode : Evaluation :=
  mkEvaluation [] (Raises (Some "unknown opcode") None).

Definition PyRun_StringFlags (code : string) (py : Interp) : Evaluation :=
  if unwound py then unknown_opcode else behaviour_of code behaviours.

Definition execute := execute host PyRun_StringFlags QJson.fromJson Base64.fromBase64.
Definition attempt := attempt host PyRun_StringFlags Base64.fromBase64.
Definition evaluation := evaluation host PyRun_StringFlags.
Definition restart := restart host.
(** The session as the main window creates it. *)
Definition s0 : PythonExecutor := PythonExecutor_new.

End Scenario.

(** ** The namespace, the cells and the variable inspector *)

(** The namespace that a run of steps leaves. *)
Definition bound (steps : list PyEvent) (g : gmap string PyValue)
  : gmap string PyValue :=
  fold_left
    (fun g e =>
       match e with
       | Bind name value => <[name := value]> g
       | Unbind name => delete name g
       | _ => g
       end)
    steps g.

(** The names that the set-up code of [initialize] binds in [__main__]. *)
Definition bootstrap_names : list string :=
  ["sys"; "io"; "LotusStdoutCapture"; "base64"; "PlotCapture";
   "lotus_plot_capture"; "signal"; "matplotlib"; "plt"].

(** [QString::toLower] on the ASCII letters, which is what the
    case-insensitive searches of [updateTree] come to for their ASCII
    patterns. *)
Definition toLower_char (c : ascii) : ascii :=
  let n := N_of_ascii c in
  if ((65 <=? n) && (n <=? 90))%N then ascii_of_N (n + 32) else c.

Fixpoint toLower (s : string) : string :=
  match s with
  | EmptyString => EmptyString
  | String c rest => String (toLower_char c) (toLower rest)
  end.

(** [s.contains(sub, Qt::CaseInsensitive)] *)
Definition icontains (s sub : string) : bool :=
  contains (toLower s) (toLower sub).

(** The output area of a cell ([src/cellwidget.cpp]).  A label is kept with
    the text it was given; the style sheets are left out. *)
Module CellWidget.

Inductive CellType : Type := CodeCell | MarkdownCell.

Inductive OutputType : Type :=
| TextOutput | ErrorOutput | HtmlOutput | ImageOutput | TableOutput | RichOutput.

Inductive Widget : Type :=
| OutputLabel (text : string) (kind : OutputType)  (* [addOutput] *)
| HtmlLabel (html : string)                        (* [addHtmlOutput] *)
| TableLabel (htmlTable : string)                   (* [setTableOutput] *)
| PlotLabel (imageData : QByteArray).               (* [addPlot] *)

Record t : Type := mk {
  cellType : CellType;
  editor : string;                 (* [editor->toPlainText()] *)
  executing : bool;
  executionCount : Z;
  outputWidgets : list Widget;
  outputVisible : bool             (* [outputContainer->isVisible()] *)
}.

Definition getType (cell : t) : CellType := cellType cell.

Definition getCode (cell : t) : string :=
  match cellType cell with
  | CodeCell => editor cell
  | MarkdownCell => EmptyString
  end.

Definition setExecuting (cell : t) (exec : bool) : t :=
  mk (cellType cell) (editor cell) exec (executionCount cell)
     (outputWidgets cell) (outputVisible cell).

Definition setExecutionCount (cell : t) (count : Z) : t :=
  mk (cellType cell) (editor cell) (executing cell) count
     (outputWidgets cell) (outputVisible cell).

Definition clearOutput (cell : t) : t :=
  mk (cellType cell) (editor cell) (executing cell) (executionCount cell)
     [] false.

Definition add (cell : t) (w : Widget) : t :=
  mk (cellType cell) (editor cell) (executing cell) (executionCount cell)
     (outputWidgets cell ++ [w])%list true.

(** [addOutput]: the label gets the text in every case of the switch but
    [ImageOutput]. *)
Definition addOutput (cell : t) (text : string) (type : OutputType) : t :=
  match type with
  | ImageOutput => add cell (OutputLabel EmptyString type)
  | _ => add cell (OutputLabel text type)
  end.

Definition setOutput (cell : t) (text : string) (type : OutputType) : t :=
  addOutput (clearOutput cell) text type.

Definition addHtmlOutput (cell : t) (html : string) : t :=
  add cell (HtmlLabel html).

Definition setTableOutput (cell : t) (htmlTable : string) : t :=
  add (clearOutput cell) (TableLabel htmlTable).

Definition addPlot (cell : t) (imageData : QByteArray) : t :=
  add cell (PlotLabel imageData).

End CellWidget.

(** The variable inspector ([src/variableinspector.cpp]): the stored
    variables, the tree (one item per name; the widget keeps it sorted by
    name), and the two labels. *)
Module VariableInspector.

Inductive Icon : Type :=
| intIcon | floatIcon | strIcon | listIcon | dictIcon | tupleIcon
| boolIcon | noneIcon | arrayIcon | dataFrameIcon.

Record Item : Type := mkItem {
  item_type : string;        (* column 1 *)
  item_value : string;       (* column 2 *)
  item_icon : option Icon;
  item_expandable : bool     (* [ShowIndicator] *)
}.

Record t : Type := mk {
  m_variables : gmap string VarInfo;
  m_treeWidget : gmap string Item;
  m_statusLabel : string;
  m_countLabel : string;
  m_isConnected : bool;
  m_kernelBusy : bool
}.

(** The chain "Set icon based on type" of [updateTree]. *)
Definition icon_of (type : string) : option Icon :=
  if icontains type "int" then Some intIcon
  else if icontains type "float" || icontains type "double" then Some floatIcon
  else if icontains type "str" || String.eqb type "bytes" then Some strIcon
  else if icontains type "list" then Some listIcon
  else if icontains type "dict" then Some dictIcon
  else if icontains type "tuple" then Some tupleIcon
  else if String.eqb type "bool" || String.eqb type "True"
          || String.eqb type "False" then Some boolIcon
  else if contains type "NoneType" || String.eqb type "None" then Some noneIcon
  else if icontains type "ndarray" || icontains type "array" then Some arrayIcon
  else if icontains type "DataFrame" || icontains type "Series"
  then Some dataFrameIcon
  else None.

(** "Make items expandable for complex types" *)
Definition expandable (type : string) : bool :=
  icontains type "dict" || icontains type "list" || icontains type "tuple".

Definition item_of (info : VarInfo) : Item :=
  mkItem (var_type info) (var_value info) (icon_of (var_type info))
         (expandable (var_type info)).

Definition count_text (n : nat) : string :=
  pretty (Z.of_nat n) ++ " variables".

Definition updateTree (vi : t) : t :=
  mk (m_variables vi) (item_of <$> m_variables vi) (m_statusLabel vi)
     (count_text (size (m_variables vi))) (m_isConnected vi) (m_kernelBusy vi).

Definition updateStatus (vi : t) : t :=
  mk (m_variables vi) (m_treeWidget vi)
     (if negb (m_isConnected vi) then "Not connected"
      else if m_kernelBusy vi then "Kernel busy..."
      else "Connected")
     (m_countLabel vi) (m_isConnected vi) (m_kernelBusy vi).

(** The constructor, after [setupUi]. *)
Definition new : t := mk ∅ ∅ "Not connected" "0 variables" false false.

Definition clear (vi : t) : t :=
  updateStatus
    (mk ∅ ∅ (m_statusLabel vi) "0 variables" (m_isConnected vi) (m_kernelBusy vi)).

(** [setVariable(name, varInfo)]; the overload with type and value builds
    the same object. *)
Definition setVariable (vi : t) (name : string) (varInfo : VarInfo) : t :=
  updateTree
    (mk (<[name := varInfo]> (m_variables vi)) (m_treeWidget vi)
        (m_statusLabel vi) (m_countLabel vi) (m_isConnected vi) (m_kernelBusy vi)).

Definition removeVariable (vi : t) (name : string) : t :=
  updateTree
    (mk (delete name (m_variables vi)) (m_treeWidget vi)
        (m_statusLabel vi) (m_countLabel vi) (m_isConnected vi) (m_kernelBusy vi)).

Definition setConnected (vi : t) (connected : bool) : t :=
  updateStatus
    (mk (m_variables vi) (m_treeWidget vi) (m_statusLabel vi) (m_countLabel vi)
        connected (m_kernelBusy vi)).

Definition setKernelBusy (vi : t) (busy : bool) : t :=
  updateStatus
    (mk (m_variables vi) (m_treeWidget vi) (m_statusLabel vi) (m_countLabel vi)
        (m_isConnected vi) busy).

End VariableInspector.

(** The part of the main window that runs cells ([src/mainwindow.cpp]):
    the cells by position, the executor, the inspector, the execution
    counter and the busy flag.  A cell is named by its position in [cells];
    a position outside stands for the null pointer.  The look of the status
    bar and the signal [cellExecuted] are left out; [executionCounter] is an
    [int] that the source increments without a bound, an integer here. *)
Module MainWindow.

Record t : Type := mk {
  cells : list CellWidget.t;
  currentCell : option nat;
  executionCounter : Z;
  kernelBusy : bool;
  pythonExecutor : option PythonExecutor;
  variableInspector : option VariableInspector.t;
  statusMessage : string           (* [statusBar->showMessage] *)
}.

Definition set_cell (w : t) (i : nat) (cell : CellWidget.t) : t :=
  mk (<[i := cell]> (cells w)) (currentCell w) (executionCounter w)
     (kernelBusy w) (pythonExecutor w) (variableInspector w) (statusMessage w).

Definition set_cells (w : t) (cs : list CellWidget.t) : t :=
  mk cs (currentCell w) (executionCounter w)
     (kernelBusy w) (pythonExecutor w) (variableInspector w) (statusMessage w).

Definition set_executionCounter (w : t) (n : Z) : t :=
  mk (cells w) (currentCell w) n
     (kernelBusy w) (pythonExecutor w) (variableInspector w) (statusMessage w).

Definition set_kernelBusy (w : t) (b : bool) : t :=
  mk (cells w) (currentCell w) (executionCounter w)
     b (pythonExecutor w) (variableInspector w) (statusMessage w).

Definition set_pythonExecutor (w : t) (ex : PythonExecutor) : t :=
  mk (cells w) (currentCell w) (executionCounter w)
     (kernelBusy w) (Some ex) (variableInspector w) (statusMessage w).

Definition set_variableInspector (w : t) (vi : VariableInspector.t) : t :=
  mk (cells w) (currentCell w) (executionCounter w)
     (kernelBusy w) (pythonExecutor w) (Some vi) (statusMessage w).

Definition showMessage (w : t) (text : string) : t :=
  mk (cells w) (currentCell w) (executionCounter w)
     (kernelBusy w) (pythonExecutor w) (variableInspector w) text.

(** One turn of the loop "Display all rich outputs" of [executeCell]. *)
Definition show_output (cell : CellWidget.t) (output : Output) : CellWidget.t :=
  match type output with
  | Text => CellWidget.addOutput cell (content output) CellWidget.TextOutput
  | Html => CellWidget.addHtmlOutput cell (content output)
  | Table => CellWidget.setTableOutput cell (content output)
  | Image => CellWidget.addPlot cell (imageData output)
  | Error => CellWidget.addHtmlOutput cell (content output)
  | Rich => CellWidget.addHtmlOutput cell (content output)
  | Markdown => CellWidget.addHtmlOutput cell (content output)
  end.

(** "Display output" of [executeCell]. *)
Definition show_result (cell : CellWidget.t) (result : ExecutionResult)
  : CellWidget.t :=
  let cell := CellWidget.clearOutput cell in
  if success result then
    let cell :=
      if negb (QString.isEmpty (textOutput result))
      then CellWidget.addOutput cell (textOutput result) CellWidget.TextOutput
      else cell in
    let cell := fold_left show_output (outputs result) cell in
    if negb (QList_isEmpty (plotData result))
    then CellWidget.addPlot cell (plotData result)
    else cell
  else CellWidget.setOutput cell (error result) CellWidget.ErrorOutput.

(** The label that the loop of [executeCell] makes for one output. *)
Definition widget_of (output : Output) : CellWidget.Widget :=
  match type output with
  | Text => CellWidget.OutputLabel (content output) CellWidget.TextOutput
  | Table => CellWidget.TableLabel (content output)
  | Image => CellWidget.PlotLabel (imageData output)
  | Html | Error | Rich | Markdown => CellWidget.HtmlLabel (content output)
  end.

Definition is_table (output : Output) : bool :=
  match type output with Table => true | _ => false end.

(** A cell that [executeCell] runs: a code cell whose text is more than
    white space. *)
Definition runnable (cell : CellWidget.t) : bool :=
  match CellWidget.cellType cell with
  | CellWidget.CodeCell =>
      negb (QString.isEmpty (QString.trimmed (CellWidget.editor cell)))
  | CellWidget.MarkdownCell => false
  end.

(** Nothing is marked as running. *)
Definition idle (w : t) : Prop :=
  kernelBusy w = false
  /\ Forall (fun cell => CellWidget.executing cell = false) (cells w).

(** [onRefreshVariables] *)
Definition onRefreshVariables (w : t) : t :=
  match pythonExecutor w, variableInspector w with
  | Some ex, Some vi =>
      if negb (initialized ex) then w
      else
        let variables := getVariables ex in
        let vi := VariableInspector.clear vi in
        set_variableInspector w
          (map_fold (fun name info vi => VariableInspector.setVariable vi name info)
                    vi variables)
  | _, _ => w
  end.

Section Run.

Variable host : Host.
Variable PyRun_StringFlags : string -> Interp -> Evaluation.
Variable fromJson : string -> option QJsonValue.
Variable fromBase64 : string -> QByteArray.

(** [executeCell]; [None] when the call to [execute] never returns. *)
Definition executeCell (w : t) (i : nat) : option t :=
  match cells w !! i with
  | None => Some w
  | Some cell =>
      match CellWidget.getType cell with
      | CellWidget.MarkdownCell => Some w
      | CellWidget.CodeCell =>
          match pythonExecutor w with
          | None =>
              Some (set_cell w i
                      (CellWidget.setOutput cell
                         "Error: Python executor not initialized"
                         CellWidget.ErrorOutput))
          | Some ex =>
              let code := CellWidget.getCode cell in
              if QString.isEmpty (QString.trimmed code) then Some w
              else
                (* Set kernel busy state *)
                let w := set_kernelBusy w true in
                let cell := CellWidget.setExecuting cell true in
                match execute host PyRun_StringFlags fromJson fromBase64 ex code with
                | None => None
                | Some (result, ex) =>
                    let w := set_pythonExecutor w ex in
                    (* Clear busy state *)
                    let w := set_kernelBusy w false in
                    let cell := CellWidget.setExecuting cell false in
                    let w := set_executionCounter w (executionCounter w + 1) in
                    let cell := CellWidget.setExecutionCount cell (executionCounter w) in
                    let cell := show_result cell result in
                    let w := set_cell w i cell in
                    if success result
                       && match variableInspector w with Some _ => true | None => false end
                    then Some (onRefreshVariables w)
                    else Some w
                end
          end
      end
  end.

(** [onActionRunCell] *)
Definition onActionRunCell (w : t) : option t :=
  match currentCell w with
  | Some i => executeCell w i
  | None =>
      match cells w with
      | [] => Some w
      | _ :: _ => executeCell w 0
      end
  end.

(** One turn of the loop of [onActionRunAll], on the cell at position [i]. *)
Definition run_turn (w : option t) (i : nat) : option t :=
  match w with
  | None => None
  | Some w =>
      match cells w !! i with
      | Some cell =>
          match CellWidget.getType cell with
          | CellWidget.CodeCell => executeCell w i
          | CellWidget.MarkdownCell => Some w
          end
      | None => Some w
      end
  end.

Definition onActionRunAll (w : t) : option t :=
  fold_left run_turn (seq 0 (length (cells w))) (Some w).

(** [onActionInterruptKernel] *)
Definition onActionInterruptKernel (w : t) : t :=
  match pythonExecutor w with
  | Some ex =>
      if kernelBusy w then
        let w := set_pythonExecutor w (interrupt ex) in
        let w := set_kernelBusy w false in
        let w :=
          set_cells w
            (map (fun cell =>
                    if CellWidget.executing cell
                    then CellWidget.setExecuting cell false else cell)
                 (cells w)) in
        showMessage w "Kernel interrupted"
      else w
  | None => w
  end.

(** [onActionRestartKernel]; [confirmed] is the answer to the question
    box. *)
Definition onActionRestartKernel (w : t) (confirmed : bool) : t :=
  if confirmed then
    let w :=
      match pythonExecutor w with
      | Some ex => set_pythonExecutor w (restart host ex)
      | None => w
      end in
    let w := set_cells w (map CellWidget.clearOutput (cells w)) in
    showMessage w "Kernel restarted"
  else w.

(** The signal [refreshRequested] of the inspector has two direct
    connections, in this order: the inspector's own [fetchVariables]
    (made in its constructor) and [MainWindow::onRefreshVariables];
    [fetchVariables] does nothing but emit the signal.  [depth] bounds the
    nesting of calls; [None] is a stack that did not suffice. *)
Fixpoint refreshRequested (depth : nat) (w : t) : option t :=
  match depth with
  | O => None
  | S depth =>
      match refreshRequested depth w with   (* [fetchVariables] emits again *)
      | None => None
      | Some w => Some (onRefreshVariables w)
      end
  end.

Definition fetchVariables (depth : nat) (w : t) : option t :=
  refreshRequested depth w.

(** [VariableInspector::onRefreshClicked] and [refresh] *)
Definition onRefreshClicked (depth : nat) (w : t) : option t :=
  fetchVariables depth w.

(** [VariableInspector::onTimeout] *)
Definition onTimeout (depth : nat) (w : t) : option t :=
  match variableInspector w with
  | Some vi =>
      if VariableInspector.m_kernelBusy vi then Some w
      else fetchVariables depth w
  | None => Some w
  end.

End Run.

(** The window as its constructor leaves it, with these cells. *)
Definition new (cs : list CellWidget.t) : t :=
  mk cs None 0 false (Some PythonExecutor_new)
     (Some (VariableInspector.setConnected VariableInspector.new true)) "Ready".

End MainWindow.

(** A notebook for the scenarios. *)
Module Notebook.

Definition code_cell (text : string) : CellWidget.t :=
  CellWidget.mk CellWidget.CodeCell text false (-1) [] false.

Definition markdown_cell (text : string) : CellWidget.t :=
  CellWidget.mk CellWidget.MarkdownCell text false (-1) [] false.

Definition table_json : string :=
  "{" ++ dquote ++ "type" ++ dquote ++ ":" ++ dquote ++ "table" ++ dquote ++ ","
  ++ dquote ++ "content" ++ dquote ++ ":" ++ dquote ++ "<table></table>" ++ dquote
  ++ "}".

Definition table_line : string := SENTINEL ++ table_json.

(** A snippet that prints a line of text, a text output, a table and
    another text output. *)
Definition show_table : string :=
  "print('total')" ++ nl ++ "print('" ++ Scenario.hi_line ++ "')" ++ nl
  ++ "print('" ++ table_line ++ "')" ++ nl
  ++ "print('" ++ Scenario.hi_line ++ "')".

(** A snippet that prints a line of text and a text output. *)
Definition show_text : string :=
  "print('total')" ++ nl ++ "print('" ++ Scenario.hi_line ++ "')".

(** What CPython does with the snippets of the notebook. *)
Definition PyRun_StringFlags (code : string) (py : Interp) : Evaluation :=
  if unwound py then Scenario.unknown_opcode
  else if String.eqb code show_table then
    mkEvaluation
      (Scenario.print Stdout "total" ++ Scenario.print Stdout Scenario.hi_line
       ++ Scenario.print Stdout table_line
       ++ Scenario.print Stdout Scenario.hi_line)%list
      Returns
  else if String.eqb code show_text then
    mkEvaluation
      (Scenario.print Stdout "total" ++ Scenario.print Stdout Scenario.hi_line)%list
      Returns
  else Scenario.PyRun_StringFlags code py.

(** A machine on which the runtime does not start. *)
Definition dead_host : Host :=
  mkHost false ∅ Scenario.module_object None "" "".

(** A session whose first call has bound [x]. *)
Definition after_assign_x : PythonExecutor :=
  match Scenario.execute Scenario.s0 Scenario.assign_x with
  | Some (_, s) => s
  | None => Scenario.s0
  end.

(** Six cells: a heading, an assignment, a blank code cell, a cell that
    warns and raises, a cell with a table, a cell with text and an
    output. *)
Definition window : MainWindow.t :=
  MainWindow.new
    [markdown_cell "# Title"; code_cell Scenario.assign_x;
     code_cell ("   " ++ nl); code_cell Scenario.warn_then_raise;
     code_cell show_table; code_cell show_text].

(** The window with a session in which [x] is bound. *)
Definition window_with_x : MainWindow.t :=
  MainWindow.set_pythonExecutor window after_assign_x.

End Notebook.

(** * Properties *)

(** ** Strings and lines *)

Lemma append_nil_l (s : string) : "" ++ s = s.
Proof. reflexivity. Qed.

Lemma append_cons (c : ascii) (s t : string) : String c s ++ t = String c (s ++ t).
Proof. reflexivity. Qed.

Lemma append_nil_r (s : string) : s ++ "" = s.
Proof.
  induction s as [|c s IH]; [reflexivity | now rewrite append_cons, IH].
Qed.

Lemma append_assoc (a b c : string) : (a ++ b) ++ c = a ++ (b ++ c).
Proof.
  induction a as [|x a IH]; [reflexivity | now rewrite !append_cons, IH].
Qed.

Lemma isEmpty_true (s : string) : QString.isEmpty s = true <-> s = "".
Proof. destruct s; simpl; split; congruence. Qed.

Lemma isEmpty_false (s : string) : QString.isEmpty s = false <-> s <> "".
Proof. destruct s; simpl; split; congruence. Qed.

Lemma split_not_nil (sep : ascii) (s : string) : QString.split sep s <> [].
Proof.
  induction s as [|c s IH]; simpl; [discriminate|].
  destruct (Ascii.eqb c sep); [discriminate|].
  destruct (QString.split sep s); discriminate.
Qed.

(** Splitting distributes over a separator. *)
Lemma split_app (sep : ascii) (a b : string) :
  QString.split sep (a ++ String sep b)
  = (QString.split sep a ++ QString.split sep b)%list.
Proof.
  induction a as [|c a IH]; [rewrite append_nil_l | rewrite append_cons]; simpl.
  - now rewrite Ascii.eqb_refl.
  - destruct (Ascii.eqb c sep); [now rewrite IH|].
    rewrite IH. pose proof (split_not_nil sep a) as Hne.
    destruct (QString.split sep a); [congruence | reflexivity].
Qed.

(** The lines of a stream in which [line] stands between two line ends. *)
Lemma split_around_line (line before after : string) :
  QString.split newline line = [line] ->
  QString.split newline (before ++ nl ++ line ++ nl ++ after)
  = (QString.split newline before ++ line :: QString.split newline after)%list.
Proof.
  intros Hline. unfold nl. rewrite !append_cons, !append_nil_l, split_app.
  f_equal. rewrite split_app, Hline. reflexivity.
Qed.

Lemma split_around_nothing (before after : string) :
  QString.split newline (before ++ nl ++ after)
  = (QString.split newline before ++ QString.split newline after)%list.
Proof. unfold nl. rewrite append_cons, append_nil_l. apply split_app. Qed.

(** ** The rich output protocol *)

Section Protocol.

Variable fromJson : string -> option QJsonValue.
Variable fromBase64 : string -> QByteArray.

Local Abbreviation parse := (parse_line fromJson fromBase64).
Local Abbreviation rich := (parseRichOutputs fromJson fromBase64).
Local Abbreviation combined := (combine fromJson fromBase64).

(** A turn of the loop only appends. *)
Lemma parse_line_appends (outputs : list Output) (line : string) :
  parse outputs line = (outputs ++ parse [] line)%list.
Proof.
  unfold parse_line.
  destruct (QString.startsWith line SENTINEL); [|now rewrite app_nil_r].
  destruct (fromJson _) as [doc|]; [|now rewrite app_nil_r].
  destruct (output_of_json _ _) as [o|]; [reflexivity | now rewrite app_nil_r].
Qed.

Lemma fold_parse_line (lines : list string) (outputs : list Output) :
  fold_left parse lines outputs
  = (outputs ++ fold_left parse lines [])%list.
Proof.
  revert outputs. induction lines as [|line lines IH]; intros outputs; simpl.
  - now rewrite app_nil_r.
  - rewrite IH, (IH (parse [] line)), parse_line_appends.
    now rewrite app_assoc.
Qed.

(** The outputs of a stream are those of its lines, in their order. *)
Lemma fold_parse_line_app (l1 l2 : list string) :
  fold_left parse (l1 ++ l2) []
  = (fold_left parse l1 [] ++ fold_left parse l2 [])%list.
Proof. rewrite fold_left_app. apply fold_parse_line. Qed.

(** The types that the if-else chain of [parseRichOutputs] lets through
    are the recognized ones. *)
Lemma output_of_json_unrecognized (json : gmap string QJsonValue) :
  ~ In (toString json "type") recognized_types ->
  output_of_json fromBase64 json = None.
Proof.
  intros Hnot. unfold output_of_json.
  repeat match goal with
  | |- context [String.eqb ?a ?b] =>
      destruct (String.eqb_spec a b) as [Heq|_];
      [exfalso; apply Hnot; rewrite Heq; simpl; tauto|]
  end.
  reflexivity.
Qed.

Lemma output_of_json_text (json : gmap string QJsonValue) :
  toString json "type" = "text" ->
  output_of_json fromBase64 json
  = Some (mkOutput Text (toString json "content") []).
Proof. intros H. unfold output_of_json. now rewrite H. Qed.

(** The loop turn for a malformed sentinel line changes nothing. *)
Lemma parse_line_malformed (line : string) (outputs : list Output) :
  is_sentinel_line line = true ->
  (fromJson (payload line) = None
   \/ exists doc,
        fromJson (payload line) = Some doc
        /\ ~ In (toString (object doc) "type") recognized_types) ->
  parse outputs line = outputs.
Proof.
  intros Hsentinel Hbad. unfold parse_line.
  unfold is_sentinel_line in Hsentinel. rewrite Hsentinel.
  fold (payload line).
  destruct Hbad as [-> | (doc & -> & Htype)]; [reflexivity|].
  now rewrite output_of_json_unrecognized.
Qed.

(** A malformed sentinel line between two line ends can be taken out of the
    stream without a change to the outputs. *)
Lemma rich_without_malformed_line (line before after : string) :
  QString.split newline line = [line] ->
  is_sentinel_line line = true ->
  (fromJson (payload line) = None
   \/ exists doc,
        fromJson (payload line) = Some doc
        /\ ~ In (toString (object doc) "type") recognized_types) ->
  rich (before ++ nl ++ line ++ nl ++ after) = rich (before ++ nl ++ after).
Proof.
  intros Hline Hsentinel Hbad. unfold parseRichOutputs.
  rewrite split_around_line by exact Hline.
  rewrite split_around_nothing, !fold_left_app. simpl.
  now rewrite parse_line_malformed.
Qed.

(** The lines of a stream, each with its line end, are the stream and one
    more line end; so the lines before the first sentinel line, put
    together, are the head of the stream itself. *)
Lemma unlines_split (stream : string) :
  unlines (QString.split newline stream) = stream ++ nl.
Proof.
  induction stream as [|c stream IH]; [reflexivity|]. simpl.
  destruct (Ascii.eqb_spec c newline) as [->|Hc].
  - simpl. rewrite IH. reflexivity.
  - pose proof (split_not_nil newline stream) as Hne.
    destruct (QString.split newline stream) as [|field fields]; [congruence|].
    simpl in IH |- *. rewrite !append_cons. now rewrite IH.
Qed.

Lemma lines_before_first_sentinel_head (lines : list string) :
  exists rest,
    unlines lines = unlines (lines_before_first_sentinel lines) ++ rest.
Proof.
  induction lines as [|line lines [rest IH]]; simpl.
  - exists "". reflexivity.
  - destruct (is_sentinel_line line); simpl.
    + eexists. reflexivity.
    + exists rest. rewrite IH. now rewrite !append_assoc.
Qed.

Lemma text_before_first_sentinel_head (stream : string) :
  exists plain rest,
    text_before_first_sentinel stream = QString.trimmed plain
    /\ stream ++ nl = plain ++ rest.
Proof.
  destruct (lines_before_first_sentinel_head (QString.split newline stream))
    as [rest Hrest].
  rewrite unlines_split in Hrest. eexists _, rest. split; [reflexivity|exact Hrest].
Qed.

(** The gathering loop of [execute] against the specification's lines. *)
Lemma plain_text_loop_spec (lines : list string) (plainText : string) :
  plain_text_loop lines plainText
  = plainText ++ unlines (lines_before_first_sentinel lines).
Proof.
  revert plainText. induction lines as [|line lines IH]; intros plainText; simpl.
  - now rewrite append_nil_r.
  - unfold is_sentinel_line.
    destruct (QString.startsWith line SENTINEL); simpl.
    + now rewrite append_nil_r.
    + rewrite IH. now rewrite !append_assoc.
Qed.

Lemma text_before_first_sentinel_empty : text_before_first_sentinel "" = "".
Proof. reflexivity. Qed.

(** What [combine] leaves in each field. *)
Lemma combine_success r out err : success (combined r out err) = success r.
Proof.
  unfold combine.
  destruct (QString.isEmpty out), (QString.isEmpty err); reflexivity.
Qed.

Lemma combine_plotData r out err : plotData (combined r out err) = plotData r.
Proof.
  unfold combine.
  destruct (QString.isEmpty out), (QString.isEmpty err); reflexivity.
Qed.

Lemma combine_error r out err :
  error (combined r out err)
  = if QString.isEmpty err then error r
    else if QString.isEmpty (error r) then err
    else err ++ nl ++ error r.
Proof.
  unfold combine.
  destruct (QString.isEmpty out), (QString.isEmpty err); reflexivity.
Qed.

Lemma combine_textOutput r out err :
  textOutput r = "" ->
  textOutput (combined r out err) = text_before_first_sentinel out.
Proof.
  intros Hr. unfold combine.
  destruct (QString.isEmpty out) eqn:Hout.
  - apply isEmpty_true in Hout. subst out.
    destruct (QString.isEmpty err); simpl; now rewrite Hr.
  - unfold text_before_first_sentinel.
    destruct (QString.isEmpty err); simpl; now rewrite plain_text_loop_spec.
Qed.

Lemma combine_outputs r out err :
  out <> "" ->
  outputs (combined r out err)
  = if QString.isEmpty (text_before_first_sentinel out)
       && QList_isEmpty (rich out)
    then (rich out ++ [mkOutput Text out []])%list
    else rich out.
Proof.
  intros Hout. apply isEmpty_false in Hout.
  unfold combine. rewrite Hout.
  unfold text_before_first_sentinel.
  destruct (QString.isEmpty err); simpl; now rewrite plain_text_loop_spec.
Qed.

End Protocol.

(** ** The timeout guard *)

Lemma alarm_armed (t : Z) :
  (1000 <= t < 2 ^ 31)%Z ->
  exists d, alarm t = Some d /\ (0 < d <= t)%Z.
Proof.
  intros Ht. unfold alarm.
  assert (Hq : (1 <= Z.quot t 1000 < 2 ^ 32)%Z).
  { rewrite Z.quot_div_nonneg by lia. split.
    - apply Z.div_le_lower_bound; lia.
    - apply Z.div_lt_upper_bound; lia. }
  rewrite Z.mod_small by lia.
  destruct (Z.eqb_spec (Z.quot t 1000) 0) as [H0|_]; [lia|].
  eexists; split; [reflexivity|]. split; [lia|].
  rewrite Z.quot_div_nonneg by lia.
  rewrite Z.mul_comm. apply Z.mul_div_le. lia.
Qed.

(** A timeout of less than a second arms nothing: the division by 1000
    leaves zero seconds. *)
Lemma alarm_below_one_second (t : Z) :
  (-1000 < t < 1000)%Z -> alarm t = None.
Proof.
  intros Ht. unfold alarm.
  assert (Z.quot t 1000 = 0)%Z as ->; [|reflexivity].
  apply Z.quot_small_iff; lia.
Qed.

(** Without an alarm a snippet that does not end is never left. *)
Lemma run_steps_unarmed_diverges (clock : Z) (py : Interp) (steps : list PyEvent) :
  run_steps None clock py steps Diverges = Forever.
Proof.
  revert clock py. induction steps as [|e steps IH]; intros clock py; simpl.
  - reflexivity.
  - destruct e; apply IH.
Qed.

(** With an alarm, a snippet that needs the deadline or more is cut off. *)
Lemma run_steps_armed (d clock : Z) (py : Interp) (steps : list PyEvent)
    (ending : Ending) :
  match ending with
  | Diverges => True
  | _ => (d <= clock + elapsed steps)%Z
  end ->
  (clock < d)%Z ->
  exists py', run_steps (Some d) clock py steps ending = Alarm py'.
Proof.
  revert clock py. induction steps as [|e steps IH]; intros clock py Hlong Hclock.
  - simpl. destruct ending; simpl in Hlong; try lia. eauto.
  - assert (Hother : forall py0,
      match ending with
      | Diverges => True
      | _ => (d <= clock + elapsed steps)%Z
      end ->
      exists py', run_steps (Some d) clock py0 steps ending = Alarm py')
      by (intros py0 H; apply IH; assumption).
    destruct e as [to text|name value|name|rendering|ms]; simpl;
      try (apply Hother; destruct ending; simpl in Hlong; auto).
    destruct (Z.leb_spec d (clock + Z.of_N ms)) as [Hle|Hgt]; [eauto|].
    apply IH; [|lia].
    destruct ending; simpl in Hlong |- *; auto; lia.
Qed.

(** What a snippet that ends has written is in the sinks, after what was
    there. *)
Lemma run_steps_done_written (deadline : option Z) (clock : Z) (py py' : Interp)
    (steps : list PyEvent) (ending : Ending) raised :
  run_steps deadline clock py steps ending = Done py' raised ->
  pStdout py' = pStdout py ++ written Stdout steps
  /\ pStderr py' = pStderr py ++ written Stderr steps.
Proof.
  revert clock py. induction steps as [|e steps IH]; intros clock py Hrun.
  - simpl in Hrun. simpl. rewrite !append_nil_r.
    destruct ending; [| |destruct deadline; discriminate];
      injection Hrun as <- _; auto.
  - destruct e as [to text|name value|name|rendering|ms]; simpl in Hrun.
    + apply IH in Hrun. destruct Hrun as [Hout Herr].
      destruct to; simpl in Hout, Herr |- *;
        rewrite Hout, Herr, ?append_assoc; auto.
    + apply IH in Hrun. exact Hrun.
    + apply IH in Hrun. exact Hrun.
    + apply IH in Hrun. exact Hrun.
    + destruct deadline as [d|].
      * destruct (d <=? clock + Z.of_N ms)%Z; [discriminate|].
        apply IH in Hrun. exact Hrun.
      * apply IH in Hrun. exact Hrun.
Qed.

(** A snippet that is cut off has written a part of what it would have. *)
Lemma run_steps_alarm_written (deadline : option Z) (clock : Z) (py py' : Interp)
    (steps : list PyEvent) (ending : Ending) :
  run_steps deadline clock py steps ending = Alarm py' ->
  exists done_steps rest,
    steps = (done_steps ++ rest)%list
    /\ pStdout py' = pStdout py ++ written Stdout done_steps
    /\ pStderr py' = pStderr py ++ written Stderr done_steps.
Proof.
  revert clock py. induction steps as [|e steps IH]; intros clock py Hrun.
  - exists [], []. simpl in Hrun |- *. rewrite !append_nil_r.
    destruct ending; try discriminate.
    destruct deadline; [|discriminate]. injection Hrun as <-. auto.
  - assert (Hstep : forall py0,
      run_steps deadline clock py0 steps ending = Alarm py' ->
      pStdout py0 = pStdout py ++ written Stdout [e] ->
      pStderr py0 = pStderr py ++ written Stderr [e] ->
      exists done_steps rest,
        e :: steps = (done_steps ++ rest)%list
        /\ pStdout py' = pStdout py ++ written Stdout done_steps
        /\ pStderr py' = pStderr py ++ written Stderr done_steps).
    { intros py0 H Hout Herr.
      destruct (IH _ _ H) as (ds & rest & -> & Hout' & Herr').
      exists (e :: ds), rest. split; [reflexivity|].
      rewrite Hout', Herr', Hout, Herr, !append_assoc.
      destruct e as [[] text| | | |]; simpl; rewrite ?append_nil_r, ?append_nil_l; auto. }
    destruct e as [to text|name value|name|rendering|ms]; simpl in Hrun.
    + apply (Hstep _ Hrun); destruct to; simpl; now rewrite ?append_nil_r.
    + apply (Hstep _ Hrun); simpl; now rewrite append_nil_r.
    + apply (Hstep _ Hrun); simpl; now rewrite append_nil_r.
    + apply (Hstep _ Hrun); simpl; now rewrite append_nil_r.
    + destruct deadline as [d|].
      * destruct (d <=? clock + Z.of_N ms)%Z.
        -- injection Hrun as <-. exists [], (Elapse ms :: steps).
           simpl. now rewrite !append_nil_r.
        -- (* the clock differs, the sinks do not *)
           destruct (IH _ _ Hrun) as (ds & rest & -> & Hout' & Herr').
           exists (Elapse ms :: ds), rest. simpl. auto.
      * destruct (IH _ _ Hrun) as (ds & rest & -> & Hout' & Herr').
        exists (Elapse ms :: ds), rest. simpl. auto.
Qed.

(** What the events of a snippet leave in the sinks. *)
Lemma apply_events_written (py : Interp) (events : list PyEvent) :
  pStdout (fold_left apply_event events py) = pStdout py ++ written Stdout events
  /\ pStderr (fold_left apply_event events py)
     = pStderr py ++ written Stderr events.
Proof.
  revert py. induction events as [|e events IH]; intros py.
  - simpl. now rewrite !append_nil_r.
  - cbn [fold_left]. destruct (IH (apply_event py e)) as [-> ->].
    destruct e as [[] text| | | |]; simpl; rewrite ?append_assoc; auto.
Qed.

(** Where a snippet is cut off.  The alarm arrives while the snippet
    computes or after its last step, when it does not end; the runtime is
    left by [longjmp] with what the steps before that have done. *)
Lemma run_steps_alarm_cut (deadline : option Z) (clock : Z) (py py' : Interp)
    (steps : list PyEvent) (ending : Ending) :
  run_steps deadline clock py steps ending = Alarm py' ->
  exists done_steps rest,
    steps = (done_steps ++ rest)%list
    /\ py' = longjmp (fold_left apply_event done_steps py)
    /\ match rest with
       | [] => ending = Diverges
       | e :: _ => exists ms, e = Elapse ms
       end.
Proof.
  revert clock py. induction steps as [|e steps IH]; intros clock py Hrun.
  - simpl in Hrun. destruct ending; try discriminate.
    destruct deadline; [|discriminate]. injection Hrun as <-.
    exists [], []. auto.
  - assert (Hstep : forall clock0,
      run_steps deadline clock0 (apply_event py e) steps ending = Alarm py' ->
      exists done_steps rest,
        e :: steps = (done_steps ++ rest)%list
        /\ py' = longjmp (fold_left apply_event done_steps py)
        /\ match rest with
           | [] => ending = Diverges
           | e0 :: _ => exists ms, e0 = Elapse ms
           end).
    { intros clock0 H. destruct (IH _ _ H) as (ds & rest & -> & -> & Hcut).
      exists (e :: ds), rest. auto. }
    destruct e as [to text|name value|name|rendering|ms]; simpl in Hrun;
      try (apply (Hstep _ Hrun)).
    destruct deadline as [d|]; [|apply (Hstep _ Hrun)].
    destruct (d <=? clock + Z.of_N ms)%Z; [|apply (Hstep _ Hrun)].
    injection Hrun as <-. exists [], (Elapse ms :: steps). eauto.
Qed.

(** ** The session *)

Section Session.

Variable host : Host.
Variable PyRun_StringFlags : string -> Interp -> Evaluation.
Variable fromJson : string -> option QJsonValue.
Variable fromBase64 : string -> QByteArray.

Local Abbreviation initialize_ := (initialize host).
Local Abbreviation prologue_ := (prologue host).
Local Abbreviation restart_ := (restart host).
Local Abbreviation plots_cleared_ := (plots_cleared host).
Local Abbreviation guarded_run_ := (guarded_run PyRun_StringFlags).
Local Abbreviation evaluation_ := (evaluation host PyRun_StringFlags).
Local Abbreviation attempt_ := (attempt host PyRun_StringFlags fromBase64).
Local Abbreviation execute_ :=
  (execute host PyRun_StringFlags fromJson fromBase64).
Local Abbreviation capturePlot_ := (capturePlot host fromBase64).

(** [initialize] reports [true] exactly when it leaves a runtime. *)
Lemma initialize_reports (s : PythonExecutor) :
  fst (initialize_ s) = initialized (snd (initialize_ s)).
Proof.
  unfold initialize. destruct (initialized s) eqn:Hs; [simpl; congruence|].
  destruct (Py_IsInitialized host); simpl.
  - destruct (plotCaptureEnabled s); reflexivity.
  - unfold initialized in *. simpl. now destruct (python s).
Qed.

Lemma initialize_keeps_flag (s : PythonExecutor) :
  executionInterrupted (snd (initialize_ s)) = executionInterrupted s.
Proof.
  unfold initialize. destruct (initialized s); [reflexivity|].
  destruct (Py_IsInitialized host); simpl; [|reflexivity].
  destruct (plotCaptureEnabled s); reflexivity.
Qed.

Lemma initialize_keeps_timeout (s : PythonExecutor) :
  executionTimeout (snd (initialize_ s)) = executionTimeout s.
Proof.
  unfold initialize. destruct (initialized s); [reflexivity|].
  destruct (Py_IsInitialized host); simpl; [|reflexivity].
  destruct (plotCaptureEnabled s); reflexivity.
Qed.

(** The test "Check for interrupt before starting" never holds: the flag
    was reset a few lines above. *)
Lemma prologue_not_interrupted (s : PythonExecutor) :
  executionInterrupted (prologue_ s) = false.
Proof.
  unfold prologue.
  destruct (initialized (set_executionInterrupted s false)); [reflexivity|].
  now rewrite initialize_keeps_flag.
Qed.

Lemma prologue_timeout (s : PythonExecutor) :
  executionTimeout (prologue_ s) = executionTimeout s.
Proof.
  unfold prologue.
  destruct (initialized (set_executionInterrupted s false)); [reflexivity|].
  now rewrite initialize_keeps_timeout.
Qed.

(** An initialized session enters [execute] with the runtime it has. *)
Lemma prologue_initialized (s : PythonExecutor) (py : Interp) :
  python s = Some py ->
  prologue_ s = set_executionInterrupted s false.
Proof. intros H. unfold prologue, initialized. simpl. now rewrite H. Qed.

(** Emitting a signal does not touch what the evaluation depends on. *)
Lemma guarded_run_emit (s : PythonExecutor) (sig : Signal) (py : Interp)
    (code : string) :
  guarded_run_ (emit s sig) py code = guarded_run_ s py code.
Proof. reflexivity. Qed.

Lemma evaluation_inv (s : PythonExecutor) (code : string) (run : Run) :
  evaluation_ s code = Some run ->
  exists py,
    python (prologue_ s) = Some py
    /\ run = guarded_run_ (prologue_ s) (plots_cleared_ (prologue_ s) py) code.
Proof.
  unfold evaluation. cbv zeta.
  destruct (python (prologue_ s)) as [py|]; [|discriminate].
  rewrite prologue_not_interrupted. intros [= <-]. eauto.
Qed.

(** The three ways in which a call that reaches the evaluation goes on. *)
Lemma attempt_alarm (s : PythonExecutor) (code : string) (py' : Interp) :
  evaluation_ s code = Some (Alarm py') ->
  attempt_ s code
  = Some (Collected (set_error result0 (timeout_message (prologue_ s))) "" ""
            (set_python (emit (prologue_ s) executionStarted) (Some py'))).
Proof.
  intros H. destruct (evaluation_inv _ _ _ H) as (py & Hpy & Hrun).
  unfold attempt. cbv zeta. rewrite Hpy, prologue_not_interrupted.
  now rewrite guarded_run_emit, <- Hrun.
Qed.

Lemma attempt_returned (s : PythonExecutor) (code : string) (py' : Interp) :
  evaluation_ s code = Some (Done py' None) ->
  attempt_ s code
  = Some (Collected (set_success result0 true) (pStdout py') (pStderr py')
            (set_python
               (let s1 := emit (prologue_ s) executionStarted in
                if plotCaptureEnabled s1 then capturePlot_ s1 py' else s1)
               (Some (sinks_cleared py')))).
Proof.
  intros H. destruct (evaluation_inv _ _ _ H) as (py & Hpy & Hrun).
  unfold attempt. cbv zeta. rewrite Hpy, prologue_not_interrupted.
  now rewrite guarded_run_emit, <- Hrun.
Qed.

Lemma attempt_raised (s : PythonExecutor) (code : string) (py' : Interp)
    (value traceback : option string) :
  evaluation_ s code = Some (Done py' (Some (value, traceback))) ->
  attempt_ s code
  = Some (Collected (set_error result0 (errorMsg value traceback))
            (pStdout py') (pStderr py')
            (set_python (emit (prologue_ s) executionStarted)
               (Some (sinks_cleared py')))).
Proof.
  intros H. destruct (evaluation_inv _ _ _ H) as (py & Hpy & Hrun).
  unfold attempt. cbv zeta. rewrite Hpy, prologue_not_interrupted.
  now rewrite guarded_run_emit, <- Hrun.
Qed.

Lemma attempt_forever (s : PythonExecutor) (code : string) :
  evaluation_ s code = Some Forever -> attempt_ s code = None.
Proof.
  intros H. destruct (evaluation_inv _ _ _ H) as (py & Hpy & Hrun).
  unfold attempt. cbv zeta. rewrite Hpy, prologue_not_interrupted.
  now rewrite guarded_run_emit, <- Hrun.
Qed.

(** Every result that leaves the [setjmp] region has the text, the plot
    and the outputs it was declared with. *)
Lemma attempt_collected_fresh (s : PythonExecutor) (code : string)
    r0 out err s1 :
  attempt_ s code = Some (Collected r0 out err s1) ->
  textOutput r0 = "" /\ plotData r0 = [] /\ outputs r0 = [].
Proof.
  unfold attempt. cbv zeta.
  destruct (python (prologue_ s)) as [py|]; [|discriminate].
  destruct (executionInterrupted (prologue_ s)); [discriminate|].
  destruct (guarded_run_ _ _ _) as [py' [[v tb]|]|py'|];
    intros [= <- _ _ _]; auto.
Qed.

Lemma execute_collected (s : PythonExecutor) (code : string) r0 out err s1 :
  attempt_ s code = Some (Collected r0 out err s1) ->
  execute_ s code
  = Some (combine fromJson fromBase64 r0 out err,
          emit s1 (executionFinished (success r0))).
Proof.
  intros H. unfold execute. rewrite H. now rewrite combine_success.
Qed.

(** No path of [execute] stores anything in [plotData]. *)
Lemma execute_plotData_empty (s : PythonExecutor) (code : string) r s1 :
  execute_ s code = Some (r, s1) -> plotData r = [].
Proof.
  unfold execute. destruct (attempt_ s code) as [[r0 s0|r0 out err s0]|] eqn:Hat;
    [| |discriminate].
  - intros [= <- _]. revert Hat. unfold attempt. cbv zeta.
    destruct (python (prologue_ s)) as [py|].
    + destruct (executionInterrupted (prologue_ s)).
      * intros [= <- _]. reflexivity.
      * destruct (guarded_run_ _ _ _) as [py' [[v tb]|]|py'|]; discriminate.
    + intros [= <- _]. reflexivity.
  - intros [= <- _]. rewrite combine_plotData.
    now destruct (attempt_collected_fresh _ _ _ _ _ _ Hat) as (_ & ? & _).
Qed.

End Session.

(** ** What the specification says of [execute] *)

Section Claims.

Variable host : Host.
Variable PyRun_StringFlags : string -> Interp -> Evaluation.
Variable fromJson : string -> option QJsonValue.
Variable fromBase64 : string -> QByteArray.

Local Abbreviation attempt_ := (attempt host PyRun_StringFlags fromBase64).
Local Abbreviation execute_ :=
  (execute host PyRun_StringFlags fromJson fromBase64).
Local Abbreviation parse := (parse_line fromJson fromBase64).
Local Abbreviation rich := (parseRichOutputs fromJson fromBase64).
Local Abbreviation combined := (combine fromJson fromBase64).

(** The sentinel line of the specification's example, alone in the
    stream, gives the one text output. *)
Lemma rich_hi_line (doc : QJsonValue) (out : string) :
  out = Scenario.hi_line \/ out = Scenario.hi_line ++ nl ->
  fromJson Scenario.hi_json = Some doc ->
  toString (object doc) "type" = "text" ->
  toString (object doc) "content" = "hi" ->
  rich out = [mkOutput Text "hi" []].
Proof.
  intros Hout Hdoc Htype Hcontent.
  assert (Hline : parse [] Scenario.hi_line = [mkOutput Text "hi" []]).
  { unfold parse_line.
    replace (QString.startsWith Scenario.hi_line SENTINEL) with true
      by reflexivity.
    replace (QString.trimmed (QString.mid Scenario.hi_line (String.length SENTINEL)))
      with Scenario.hi_json by reflexivity.
    now rewrite Hdoc, output_of_json_text, Hcontent. }
  unfold parseRichOutputs. destruct Hout as [-> | ->].
  - replace (QString.split newline Scenario.hi_line)
      with [Scenario.hi_line] by reflexivity.
    simpl. exact Hline.
  - replace (QString.split newline (Scenario.hi_line ++ nl))
      with [Scenario.hi_line; ""] by reflexivity.
    simpl. rewrite Hline. reflexivity.
Qed.

(** C6.  The text of a result is the text of the captured stream before
    its first sentinel line: those lines, one after the other, trimmed.
    And when the stream is the single line
    [LOTUS_OUTPUT:{"type":"text","content":"hi"}], with or without its line
    end, the result has the one output of type Text with content ["hi"]
    and no text. *)
Theorem C6_text_before_first_sentinel :
  (forall s code r0 out err s1,
      attempt_ s code = Some (Collected r0 out err s1) ->
      exists r s2,
        execute_ s code = Some (r, s2)
        /\ textOutput r = text_before_first_sentinel out)
  /\ (forall s code r0 out err s1 doc,
      attempt_ s code = Some (Collected r0 out err s1) ->
      out = Scenario.hi_line \/ out = Scenario.hi_line ++ nl ->
      fromJson Scenario.hi_json = Some doc ->
      toString (object doc) "type" = "text" ->
      toString (object doc) "content" = "hi" ->
      exists r s2,
        execute_ s code = Some (r, s2)
        /\ outputs r = [mkOutput Text "hi" []]
        /\ textOutput r = "").
Proof.
  split.
  - intros s code r0 out err s1 Hat.
    destruct (attempt_collected_fresh _ _ _ _ _ _ _ _ _ Hat) as (Htext & _ & _).
    eexists _, _. split; [apply execute_collected; exact Hat|].
    now apply combine_textOutput.
  - intros s code r0 out err s1 doc Hat Hout Hdoc Htype Hcontent.
    destruct (attempt_collected_fresh _ _ _ _ _ _ _ _ _ Hat) as (Htext & _ & _).
    eexists _, _. split; [apply execute_collected; exact Hat|].
    assert (Hne : out <> "") by (destruct Hout as [-> | ->]; discriminate).
    assert (Hplain : text_before_first_sentinel out = "")
      by (destruct Hout as [-> | ->]; reflexivity).
    split.
    + rewrite combine_outputs by exact Hne.
      rewrite (rich_hi_line doc out Hout Hdoc Htype Hcontent).
      now rewrite andb_false_r.
    + rewrite combine_textOutput by exact Htext. exact Hplain.
Qed.

(** C7.  A sentinel line whose payload is not valid JSON, or whose type is
    not one of the seven recognized ones, adds no output wherever it stands
    in the stream; and neither the success flag nor the error text of a
    result depends on the captured standard output. *)
Theorem C7_malformed_sentinel_dropped (line : string) :
  is_sentinel_line line = true ->
  (fromJson (payload line) = None
   \/ exists doc,
        fromJson (payload line) = Some doc
        /\ ~ In (toString (object doc) "type") recognized_types) ->
  (forall outputs, parse outputs line = outputs)
  /\ (forall stream before after,
        QString.split newline stream = (before ++ line :: after)%list ->
        rich stream = fold_left parse (before ++ after)%list [])
  /\ (forall r stream err,
        success (combined r stream err) = success r
        /\ error (combined r stream err) = error (combined r "" err)).
Proof.
  intros Hsentinel Hbad.
  assert (Hturn : forall outputs, parse outputs line = outputs)
    by (intros outputs; now apply parse_line_malformed).
  split; [exact Hturn|]. split.
  - intros stream before after Hsplit. unfold parseRichOutputs.
    rewrite Hsplit, !fold_left_app. simpl. now rewrite Hturn.
  - intros r stream err. split; [apply combine_success|].
    now rewrite !combine_error.
Qed.

(** C8.  When the captured stream is not empty and protocol parsing leaves
    neither text nor outputs, the outputs of the result are the single
    output of type Text that holds the whole raw stream. *)
Theorem C8_fallback_wraps_raw_stream s code r0 out err s1 :
  attempt_ s code = Some (Collected r0 out err s1) ->
  out <> "" ->
  text_before_first_sentinel out = "" ->
  rich out = [] ->
  exists r s2,
    execute_ s code = Some (r, s2)
    /\ textOutput r = ""
    /\ outputs r = [mkOutput Text out []].
Proof.
  intros Hat Hne Hplain Hrich.
  destruct (attempt_collected_fresh _ _ _ _ _ _ _ _ _ Hat) as (Htext & _ & _).
  eexists _, _. split; [apply execute_collected; exact Hat|]. split.
  - rewrite combine_textOutput by exact Htext. exact Hplain.
  - rewrite combine_outputs by exact Hne. now rewrite Hplain, Hrich.
Qed.

End Claims.

(** ** Timeouts and the sinks *)

Lemma contains_unfold (s sub : string) :
  contains s sub
  = String.prefix sub s
    || match s with
       | EmptyString => false
       | String _ rest => contains rest sub
       end.
Proof. destruct s; reflexivity. Qed.

Lemma prefix_app (sub rest : string) : String.prefix sub (sub ++ rest) = true.
Proof.
  induction sub as [|c sub IH]; [now destruct rest|].
  rewrite append_cons. simpl. destruct (ascii_dec c c); [exact IH | congruence].
Qed.

Lemma contains_app (before sub rest : string) :
  contains (before ++ sub ++ rest) sub = true.
Proof.
  induction before as [|c before IH].
  - rewrite append_nil_l, contains_unfold, prefix_app. reflexivity.
  - rewrite append_cons, contains_unfold, IH. apply orb_true_r.
Qed.

Section Runs.

Variable host : Host.
Variable PyRun_StringFlags : string -> Interp -> Evaluation.
Variable fromJson : string -> option QJsonValue.
Variable fromBase64 : string -> QByteArray.

Local Abbreviation prologue_ := (prologue host).
Local Abbreviation plots_cleared_ := (plots_cleared host).
Local Abbreviation guarded_run_ := (guarded_run PyRun_StringFlags).
Local Abbreviation evaluation_ := (evaluation host PyRun_StringFlags).
Local Abbreviation attempt_ := (attempt host PyRun_StringFlags fromBase64).
Local Abbreviation execute_ :=
  (execute host PyRun_StringFlags fromJson fromBase64).
Local Abbreviation restart_ := (restart host).

Lemma timeout_message_prologue (s : PythonExecutor) :
  timeout_message (prologue_ s) = timeout_message s.
Proof. unfold timeout_message. now rewrite prologue_timeout. Qed.

Lemma timeout_message_mentions_timeout (s : PythonExecutor) :
  contains (timeout_message s) "timed out" = true.
Proof.
  unfold timeout_message.
  change "Execution timed out after " with ("Execution " ++ "timed out" ++ " after ").
  rewrite !append_assoc. apply contains_app.
Qed.

Lemma plots_cleared_sinks (s : PythonExecutor) (py : Interp) :
  pStdout (plots_cleared_ s py) = pStdout py
  /\ pStderr (plots_cleared_ s py) = pStderr py
  /\ pGlobals (plots_cleared_ s py) = pGlobals py.
Proof.
  unfold plots_cleared, clear_plots.
  destruct (pPlotCaptureModule s), (matplotlib host); auto.
Qed.

(** What a call that ends by timeout returns and leaves. *)
Lemma execute_alarm (s : PythonExecutor) (code : string) (py' : Interp) :
  evaluation_ s code = Some (Alarm py') ->
  execute_ s code
  = Some (set_error result0 (timeout_message s),
          emit (set_python (emit (prologue_ s) executionStarted) (Some py'))
               (executionFinished false)).
Proof.
  intros H. rewrite (execute_collected _ _ _ _ _ _ _ _ _ _ (attempt_alarm _ _ _ _ _ _ H)).
  now rewrite timeout_message_prologue.
Qed.

Lemma plots_cleared_unwound (s : PythonExecutor) (py : Interp) :
  unwound (plots_cleared_ s py) = unwound py.
Proof.
  unfold plots_cleared, clear_plots.
  destruct (pPlotCaptureModule s), (matplotlib host); reflexivity.
Qed.

(** The runtime that a timeout leaves has been left by [longjmp]. *)
Lemma evaluation_alarm_unwound (s : PythonExecutor) (code : string)
    (py' : Interp) :
  evaluation_ s code = Some (Alarm py') -> unwound py' = true.
Proof.
  intros H. destruct (evaluation_inv _ _ _ _ _ H) as (py & _ & Hrun).
  unfold guarded_run in Hrun. symmetry in Hrun.
  destruct (run_steps_alarm_cut _ _ _ _ _ _ Hrun) as (ds & rest & _ & -> & _).
  reflexivity.
Qed.

(** C1.  The code has no quarantine.  A call that ends by timeout returns
    the timeout error and leaves the session initialized, with the runtime
    as [longjmp] left it inside [PyRun_StringFlags]; nothing restarts it.
    The next [execute], whatever its code, is not refused: it gets past the
    two tests at its head and hands its code to [PyRun_StringFlags] on that
    same runtime. *)
Theorem C1_no_quarantine_after_timeout (s : PythonExecutor) (code : string)
    (py' : Interp) :
  evaluation_ s code = Some (Alarm py') ->
  exists r s1,
    execute_ s code = Some (r, s1)
    /\ success r = false
    /\ error r = timeout_message s
    /\ python s1 = Some py'
    /\ unwound py' = true
    /\ forall code2,
         prologue_ s1 = set_executionInterrupted s1 false
         /\ unwound (plots_cleared_ s1 py') = true
         /\ evaluation_ s1 code2
            = Some (guarded_run_ s1 (plots_cleared_ s1 py') code2).
Proof.
  intros H. eexists _, _. split; [apply execute_alarm; exact H|].
  do 3 (split; [reflexivity|]).
  split; [exact (evaluation_alarm_unwound _ _ _ H)|].
  intros code2. split; [apply (prologue_initialized _ _ py'); reflexivity|].
  split; [rewrite plots_cleared_unwound; exact (evaluation_alarm_unwound _ _ _ H)|].
  unfold evaluation. cbv zeta.
  erewrite prologue_initialized by reflexivity. reflexivity.
Qed.

(** From one second on, a snippet that runs longer than the timeout is
    reported as timed out. *)
Lemma timeout_reported_from_one_second (s : PythonExecutor) (code : string)
    (py : Interp) :
  (1000 <= executionTimeout s < 2 ^ 31)%Z ->
  python (prologue_ s) = Some py ->
  exceeds (PyRun_StringFlags code (plots_cleared_ (prologue_ s) py))
          (executionTimeout s) ->
  exists r s1,
    execute_ s code = Some (r, s1)
    /\ success r = false
    /\ error r = timeout_message s
    /\ contains (error r) "timed out" = true.
Proof.
  intros Ht Hpy Hlong.
  destruct (alarm_armed _ Ht) as (d & Hd & Hrange).
  set (e := PyRun_StringFlags code (plots_cleared_ (prologue_ s) py)) in *.
  destruct (run_steps_armed d 0 (plots_cleared_ (prologue_ s) py)
              (steps e) (ending e)) as [py' Hrun].
  { unfold exceeds, duration in Hlong. destruct (ending e); auto; lia. }
  { lia. }
  assert (Hev : evaluation_ s code = Some (Alarm py')).
  { unfold evaluation. cbv zeta. rewrite Hpy, prologue_not_interrupted.
    unfold guarded_run. fold e. now rewrite prologue_timeout, Hd, Hrun. }
  eexists _, _. split; [apply execute_alarm; exact Hev|].
  do 2 (split; [reflexivity|]). apply timeout_message_mentions_timeout.
Qed.

(** Below one second no alarm is armed, and a snippet that does not end
    keeps the call from returning. *)
Lemma short_timeout_never_fires (s : PythonExecutor) (code : string)
    (py : Interp) :
  (-1000 < executionTimeout s < 1000)%Z ->
  python (prologue_ s) = Some py ->
  ending (PyRun_StringFlags code (plots_cleared_ (prologue_ s) py)) = Diverges ->
  execute_ s code = None.
Proof.
  intros Ht Hpy Hend.
  assert (Hev : evaluation_ s code = Some Forever).
  { unfold evaluation. cbv zeta. rewrite Hpy, prologue_not_interrupted.
    unfold guarded_run.
    now rewrite prologue_timeout, alarm_below_one_second, Hend,
      run_steps_unarmed_diverges. }
  unfold execute. now rewrite (attempt_forever _ _ _ _ _ Hev).
Qed.

(** What a call whose evaluation ends leaves: both sinks read and
    emptied. *)
Lemma execute_done (s : PythonExecutor) (code : string) (py' : Interp) raised :
  evaluation_ s code = Some (Done py' raised) ->
  exists r0 s1,
    attempt_ s code = Some (Collected r0 (pStdout py') (pStderr py') s1)
    /\ python s1 = Some (sinks_cleared py')
    /\ success r0 = match raised with Some _ => false | None => true end
    /\ error r0 = match raised with
                  | Some (value, traceback) => errorMsg value traceback
                  | None => ""
                  end.
Proof.
  intros H. destruct raised as [[value traceback]|].
  - eexists _, _. split; [apply attempt_raised; exact H|]. auto.
  - eexists _, _. split; [apply attempt_returned; exact H|]. auto.
Qed.

(** Isolation after a call whose evaluation ended: the streams that the
    next call captures are what its own snippet wrote. *)
Lemma isolation_after_completed_run (s : PythonExecutor) (code1 code2 : string)
    (py1 py2 : Interp) raised1 raised2 r1 s1 :
  evaluation_ s code1 = Some (Done py1 raised1) ->
  execute_ s code1 = Some (r1, s1) ->
  evaluation_ s1 code2 = Some (Done py2 raised2) ->
  let snippet := PyRun_StringFlags code2 (plots_cleared_ s1 (sinks_cleared py1)) in
  exists r0 s2,
    attempt_ s1 code2
    = Some (Collected r0 (written Stdout (steps snippet))
              (written Stderr (steps snippet)) s2).
Proof.
  intros H1 Hex H2 snippet.
  destruct (execute_done _ _ _ _ H1) as (r0 & s1' & Hat & Hpy1 & _).
  rewrite (execute_collected _ _ _ _ _ _ _ _ _ _ Hat) in Hex.
  injection Hex as _ <-.
  destruct (execute_done _ _ _ _ H2) as (r2 & s2 & Hat2 & _).
  destruct (evaluation_inv _ _ _ _ _ H2) as (py & Hpy & Hrun).
  erewrite prologue_initialized in Hpy, Hrun by (simpl; exact Hpy1).
  simpl in Hpy. rewrite Hpy1 in Hpy. injection Hpy as <-.
  unfold guarded_run in Hrun. symmetry in Hrun.
  apply run_steps_done_written in Hrun. destruct Hrun as [Hout Herr].
  destruct (plots_cleared_sinks (set_executionInterrupted (emit s1' (executionFinished (success r0))) false)
              (sinks_cleared py1)) as (Ho & He & _).
  rewrite Ho in Hout. rewrite He in Herr. simpl in Hout, Herr.
  rewrite append_nil_l in Hout, Herr.
  exists r2, s2. rewrite Hat2, Hout, Herr. reflexivity.
Qed.

(** C10 (as amended).  For every call whose evaluation ends, with a result
    or with an exception, what is in the standard error sink (what the
    snippet wrote, after anything that was left there) is copied into the
    error of the result, before a line end and the rendering of the
    exception when there is one; and this also when the evaluation
    succeeded, so that a result with [success = true] can carry an error
    text. *)
Theorem C10_stderr_copied_when_evaluation_ends (s : PythonExecutor) (code : string)
    (py py' : Interp) raised :
  python (prologue_ s) = Some py ->
  evaluation_ s code = Some (Done py' raised) ->
  let snippet := PyRun_StringFlags code (plots_cleared_ (prologue_ s) py) in
  let stderrText := pStderr py ++ written Stderr (steps snippet) in
  let rendering := match raised with
                   | Some (value, traceback) => errorMsg value traceback
                   | None => ""
                   end in
  exists r s1,
    execute_ s code = Some (r, s1)
    /\ success r = match raised with Some _ => false | None => true end
    /\ error r = if QString.isEmpty stderrText then rendering
                 else if QString.isEmpty rendering then stderrText
                 else stderrText ++ nl ++ rendering.
Proof.
  intros Hpy H snippet stderrText rendering.
  destruct (execute_done _ _ _ _ H) as (r0 & s1 & Hat & _ & Hsucc & Herr).
  destruct (evaluation_inv _ _ _ _ _ H) as (py0 & Hpy0 & Hrun).
  rewrite Hpy in Hpy0. injection Hpy0 as <-.
  unfold guarded_run in Hrun. symmetry in Hrun.
  apply run_steps_done_written in Hrun. destruct Hrun as [_ Hwritten].
  destruct (plots_cleared_sinks (prologue_ s) py) as (_ & He & _).
  rewrite He in Hwritten.
  eexists _, _. split; [apply execute_collected; exact Hat|].
  rewrite combine_success, combine_error, Hsucc, Herr, Hwritten.
  split; reflexivity.
Qed.

(** After a call that ends by timeout nothing has been read: what the
    next call captures starts with what the sinks held when the alarm
    arrived. *)
Lemma sinks_unread_after_timeout (s : PythonExecutor) (code1 code2 : string)
    (py1 py2 : Interp) raised2 r1 s1 :
  evaluation_ s code1 = Some (Alarm py1) ->
  execute_ s code1 = Some (r1, s1) ->
  evaluation_ s1 code2 = Some (Done py2 raised2) ->
  let snippet := PyRun_StringFlags code2 (plots_cleared_ s1 py1) in
  exists r0 s2,
    attempt_ s1 code2
    = Some (Collected r0 (pStdout py1 ++ written Stdout (steps snippet))
              (pStderr py1 ++ written Stderr (steps snippet)) s2).
Proof.
  intros H1 Hex H2 snippet.
  rewrite (execute_alarm _ _ _ H1) in Hex. injection Hex as _ <-.
  destruct (execute_done _ _ _ _ H2) as (r2 & s2 & Hat2 & _).
  destruct (evaluation_inv _ _ _ _ _ H2) as (py & Hpy & Hrun).
  erewrite prologue_initialized in Hpy, Hrun by reflexivity.
  simpl in Hpy. injection Hpy as <-.
  unfold guarded_run in Hrun. symmetry in Hrun.
  apply run_steps_done_written in Hrun. destruct Hrun as [Hout Herr].
  match type of Hout with
  | context [plots_cleared_ ?s0 py1] =>
      destruct (plots_cleared_sinks s0 py1) as (Ho & He & _)
  end.
  rewrite Ho in Hout. rewrite He in Herr.
  exists r2, s2. rewrite Hat2, Hout, Herr. reflexivity.
Qed.

(** C2 fails after a timeout.  The block that reads the two sinks and
    empties them is inside the branch [jumpResult == 0]: a call that ends
    by timeout returns no text and leaves in the sinks what its snippet
    wrote before it was cut off.  The next call, however its evaluation
    ends, reads that text with its own: the text of its result is made
    from the stream that starts with what the first call wrote, and its
    error holds what the first call wrote to standard error. *)
Theorem C2_output_of_timed_out_call_leaks (s : PythonExecutor)
    (code1 code2 : string) (py py1 py2 : Interp) raised2 r1 s1 :
  python (prologue_ s) = Some py ->
  evaluation_ s code1 = Some (Alarm py1) ->
  execute_ s code1 = Some (r1, s1) ->
  evaluation_ s1 code2 = Some (Done py2 raised2) ->
  let first := PyRun_StringFlags code1 (plots_cleared_ (prologue_ s) py) in
  let second := PyRun_StringFlags code2 (plots_cleared_ s1 py1) in
  let rendering := match raised2 with
                   | Some (value, traceback) => errorMsg value traceback
                   | None => ""
                   end in
  exists done_steps rest r2 s2,
    steps first = (done_steps ++ rest)%list
    /\ match rest with
       | [] => ending first = Diverges
       | e :: _ => exists ms, e = Elapse ms
       end
    /\ pStdout py1 = pStdout py ++ written Stdout done_steps
    /\ pStderr py1 = pStderr py ++ written Stderr done_steps
    /\ textOutput r1 = ""
    /\ outputs r1 = []
    /\ execute_ s1 code2 = Some (r2, s2)
    /\ success r2 = match raised2 with Some _ => false | None => true end
    /\ textOutput r2
       = text_before_first_sentinel
           (pStdout py1 ++ written Stdout (steps second))
    /\ error r2
       = let stderrText := pStderr py1 ++ written Stderr (steps second) in
         if QString.isEmpty stderrText then rendering
         else if QString.isEmpty rendering then stderrText
         else stderrText ++ nl ++ rendering.
Proof.
  intros Hpy H1 Hex H2 first second rendering.
  destruct (evaluation_inv _ _ _ _ _ H1) as (py0 & Hpy0 & Hrun).
  rewrite Hpy in Hpy0. injection Hpy0 as <-.
  unfold guarded_run in Hrun. symmetry in Hrun.
  destruct (run_steps_alarm_cut _ _ _ _ _ _ Hrun) as (ds & rest & Hsplit & Hleft & Hcut).
  assert (Hsinks : pStdout py1 = pStdout py ++ written Stdout ds
                   /\ pStderr py1 = pStderr py ++ written Stderr ds).
  { rewrite Hleft. cbn [longjmp pStdout pStderr].
    destruct (apply_events_written (plots_cleared_ (prologue_ s) py) ds) as [-> ->].
    destruct (plots_cleared_sinks (prologue_ s) py) as (-> & -> & _). auto. }
  destruct Hsinks as [Hout Herr].
  destruct (sinks_unread_after_timeout s code1 code2 py1 py2 raised2 r1 s1
              H1 Hex H2) as (r0 & s2 & Hat).
  destruct (attempt_collected_fresh _ _ _ _ _ _ _ _ _ Hat) as (Htext & _ & _).
  destruct (execute_done _ _ _ _ H2) as (r0' & s2' & Hat' & _ & Hsucc & Hrend).
  fold second in Hat. rewrite Hat in Hat'. injection Hat' as <- _ _ _.
  rewrite (execute_alarm _ _ _ H1) in Hex. injection Hex as <- _.
  exists ds, rest. eexists _, _.
  split; [exact Hsplit|]. split; [exact Hcut|].
  split; [exact Hout|]. split; [exact Herr|].
  do 2 (split; [reflexivity|]).
  split; [apply execute_collected; exact Hat|].
  split; [rewrite combine_success; exact Hsucc|].
  split.
  - now rewrite combine_textOutput by exact Htext.
  - cbv zeta. rewrite combine_error, Hrend. reflexivity.
Qed.

(** [restart] builds the runtime anew: what it leaves does not depend on
    the runtime there was. *)
Lemma restart_discards (s : PythonExecutor) (p : option Interp) :
  python (restart_ (set_python s p)) = python (restart_ s).
Proof.
  destruct s as [q m t l pc pf ei pm em]. unfold set_python. simpl.
  unfold restart, cleanup, initialized.
  destruct p, q; simpl; unfold initialize, initialized; simpl;
    destruct (Py_IsInitialized host); simpl;
    destruct pc; reflexivity.
Qed.

End Runs.

(** ** The variable snapshot *)

(** The snapshot, name by name: a name that is not skipped comes with the
    type and the whole [repr] of its value. *)
Lemma record_variables_lookup (g : gmap string PyValue) (name : string) :
  map_fold record_variable ∅ g !! name
  = if skipped name then None else variable_info <$> g !! name.
Proof.
  revert name.
  apply (map_fold_weak_ind
           (fun (r : gmap string VarInfo) (m : gmap string PyValue) =>
              forall name, r !! name
                = if skipped name then None else variable_info <$> m !! name)).
  - intros name. rewrite !lookup_empty. now destruct (skipped name).
  - intros i x m r Hfresh IH name. unfold record_variable.
    destruct (decide (i = name)) as [->|Hne].
    + destruct (skipped name) eqn:Hskip.
      * now rewrite IH, Hskip.
      * now rewrite !lookup_insert_eq.
    + destruct (skipped i).
      * rewrite IH. now rewrite lookup_insert_ne.
      * rewrite !lookup_insert_ne by exact Hne. apply IH.
Qed.

Lemma getVariables_lookup (s : PythonExecutor) (py : Interp) (name : string) :
  python s = Some py ->
  getVariables s !! name
  = if skipped name then None else variable_info <$> pGlobals py !! name.
Proof. intros H. unfold getVariables. rewrite H. apply record_variables_lookup. Qed.

Lemma getVariables_uninitialized (s : PythonExecutor) :
  python s = None -> getVariables s = ∅.
Proof. intros H. unfold getVariables. now rewrite H. Qed.

(** [getVariables] records the [repr] as it is, whatever its length. *)
Lemma getVariables_verbatim (s : PythonExecutor) (py : Interp) (name text : string)
    (value : PyValue) :
  python s = Some py ->
  pGlobals py !! name = Some value ->
  repr value = Some text ->
  skipped name = false ->
  getVariables s !! name = Some (mkVarInfo (type_name value) text).
Proof.
  intros Hpy Hname Hrepr Hskip.
  rewrite (getVariables_lookup s py name Hpy), Hskip, Hname.
  simpl. unfold variable_info. now rewrite Hrepr.
Qed.

Lemma length_append (a b : string) :
  String.length (a ++ b) = String.length a + String.length b.
Proof.
  induction a as [|c a IH]; [reflexivity|].
  rewrite append_cons. simpl. now rewrite IH.
Qed.

Lemma length_left (s : string) (n : nat) :
  n <= String.length s -> String.length (QString.left s n) = n.
Proof.
  revert s. induction n as [|n IH]; intros s Hn; [now destruct s|].
  destruct s as [|c s]; simpl in *; [lia|]. rewrite IH; lia.
Qed.

(** [parsePythonValue] caps a text at 100 characters and marks the cut with
    three dots. *)
Lemma parsePythonValue_cap (text : string) :
  (String.length text <= 100 -> parsePythonValue text = text)
  /\ (100 < String.length text ->
      parsePythonValue text = QString.left text 100 ++ "..."
      /\ String.length (parsePythonValue text) = 103).
Proof.
  unfold parsePythonValue. split; intros H.
  - destruct (Nat.leb_spec (String.length text) 100); [reflexivity | lia].
  - destruct (Nat.leb_spec (String.length text) 100); [lia|].
    split; [reflexivity|]. rewrite length_append, length_left by lia. reflexivity.
Qed.

(** C5.  Where Python starts, the variable snapshot taken right after
    [restart()] is not empty: it lists what the set-up code of the session
    itself has bound in [__main__], the class [LotusStdoutCapture] and the
    module [sys] among them. *)
Theorem C5_snapshot_after_restart_lists_bootstrap (host : Host)
    (s : PythonExecutor) :
  Py_IsInitialized host = true ->
  getVariables (restart host s) !! "LotusStdoutCapture"
    = Some (mkVarInfo "type" "<class '__main__.LotusStdoutCapture'>")
  /\ getVariables (restart host s) !! "sys"
     = Some (variable_info (stdlib_module host "sys"))
  /\ getVariables (restart host s) <> ∅.
Proof.
  intros Hstarts.
  assert (Hpy : exists py, python (restart host s) = Some py
      /\ pGlobals py !! "LotusStdoutCapture" = Some (class_object "LotusStdoutCapture")
      /\ pGlobals py !! "sys" = Some (stdlib_module host "sys")).
  { destruct s as [q m t l pc pf ei pm em].
    unfold restart, cleanup, initialized. simpl.
    destruct q; simpl; unfold initialize, initialized; simpl;
      rewrite Hstarts; simpl;
      destruct pc, (matplotlib host) as [[mpl plt]|]; simpl;
      eexists; (split; [reflexivity|]); simpl; unfold import; simpl;
      split; by simplify_map_eq. }
  destruct Hpy as (py & Hpy & Hclass & Hsys).
  assert (Hfirst : getVariables (restart host s) !! "LotusStdoutCapture"
                   = Some (mkVarInfo "type" "<class '__main__.LotusStdoutCapture'>")).
  { rewrite (getVariables_lookup _ py _ Hpy), Hclass. reflexivity. }
  split; [exact Hfirst|]. split.
  - rewrite (getVariables_lookup _ py _ Hpy), Hsys. reflexivity.
  - intros Hempty. rewrite Hempty, lookup_empty in Hfirst. discriminate.
Qed.

(** ** The scenarios, run *)

(** An evaluation that gives a result gives the one read off it. *)
Lemma Some_eta {A : Type} (o : option A) (d : A) :
  match o with Some _ => true | None => false end = true ->
  o = Some (default d o).
Proof. destruct o; [reflexivity|discriminate]. Qed.

Lemma Some_pair_eta {A B : Type} (o : option (A * B)) (a : A) (b : B) :
  match o with Some _ => true | None => false end = true ->
  o = Some (fst (default (a, b) o), snd (default (a, b) o)).
Proof. destruct o as [[x y]|]; [reflexivity|discriminate]. Qed.

Lemma Done_eta (o : option Run) (py0 : Interp) :
  match o with Some (Done _ _) => true | _ => false end = true ->
  o = Some (Done match o with Some (Done py _) => py | _ => py0 end
                 match o with Some (Done _ raised) => raised | _ => None end).
Proof. destruct o as [[py raised|py|]|]; (reflexivity || discriminate). Qed.

Lemma Alarm_eta (o : option Run) (py0 : Interp) :
  match o with Some (Alarm _) => true | _ => false end = true ->
  o = Some (Alarm match o with Some (Alarm py) => py | _ => py0 end).
Proof. destruct o as [[py raised|py|]|]; (reflexivity || discriminate). Qed.


(** Scenario 1 of the specification. *)
Example scenario_print_hello :
  exists s1,
    Scenario.execute Scenario.s0 Scenario.print_hello
    = Some (mkResult true "hello" "" [] [], s1).
Proof. eexists. vm_compute. reflexivity. Qed.

Lemma C1_witness :
  exists py',
    Scenario.evaluation Scenario.s0 Scenario.spin = Some (Alarm py')
    /\ exists r s1,
         Scenario.execute Scenario.s0 Scenario.spin = Some (r, s1)
         /\ success r = false
         /\ error r = timeout_message Scenario.s0
         /\ python s1 = Some py'
         /\ unwound py' = true
         /\ forall code2,
              prologue Scenario.host s1 = set_executionInterrupted s1 false
              /\ unwound (plots_cleared Scenario.host s1 py') = true
              /\ Scenario.evaluation s1 code2
                 = Some (guarded_run Scenario.PyRun_StringFlags s1
                           (plots_cleared Scenario.host s1 py') code2).
Proof.
  eexists. split; [vm_compute; reflexivity|].
  apply (C1_no_quarantine_after_timeout Scenario.host Scenario.PyRun_StringFlags
           QJson.fromJson Base64.fromBase64 Scenario.s0 Scenario.spin).
  vm_compute. reflexivity.
Defined.

(** The first call prints ["leak"] and is cut off; the second call fails
    in the runtime that the jump left, before its snippet writes anything,
    and its result carries the text of the first. *)
Lemma C2_witness :
  exists r1 s1 r2 s2,
    Scenario.execute Scenario.s0 Scenario.print_then_spin = Some (r1, s1)
    /\ success r1 = false
    /\ error r1 = "Execution timed out after 10 seconds"
    /\ textOutput r1 = ""
    /\ Scenario.execute s1 Scenario.print_second = Some (r2, s2)
    /\ success r2 = false
    /\ error r2 = "unknown opcode"
    /\ textOutput r2 = "leak".
Proof.
  assert (Hpy : match python (prologue Scenario.host Scenario.s0) with
                | Some _ => true
                | None => false
                end = true)
    by (vm_compute; reflexivity).
  apply (Some_eta _ (mkInterp ∅ "" "" "" false)) in Hpy.
  assert (H1 : match Scenario.evaluation Scenario.s0 Scenario.print_then_spin with
               | Some (Alarm _) => true
               | _ => false
               end = true)
    by (vm_compute; reflexivity).
  apply (Alarm_eta _ (mkInterp ∅ "" "" "" false)) in H1.
  assert (Hex : match Scenario.execute Scenario.s0 Scenario.print_then_spin with
                | Some _ => true
                | None => false
                end = true)
    by (vm_compute; reflexivity).
  apply (Some_pair_eta _ result0 PythonExecutor_new) in Hex.
  match type of Hex with
  | _ = Some (?r1, ?s1) =>
      assert (H2 : match Scenario.evaluation s1 Scenario.print_second with
                   | Some (Done _ _) => true
                   | _ => false
                   end = true)
        by (vm_compute; reflexivity);
      apply (Done_eta _ (mkInterp ∅ "" "" "" false)) in H2;
      destruct (C2_output_of_timed_out_call_leaks Scenario.host
                  Scenario.PyRun_StringFlags QJson.fromJson Base64.fromBase64
                  Scenario.s0 Scenario.print_then_spin Scenario.print_second
                  _ _ _ _ r1 s1 Hpy H1 Hex H2)
        as (ds & rest & r2 & s2 & _ & _ & _ & _ & Htext1 & _ & Hex2 & Hsucc
            & Htext & Herr);
      exists r1, s1, r2, s2
  end.
  split; [exact Hex|].
  split; [vm_compute; reflexivity|]. split; [vm_compute; reflexivity|].
  split; [exact Htext1|]. split; [exact Hex2|].
  split; [rewrite Hsucc; vm_compute; reflexivity|].
  split; [rewrite Herr; vm_compute; reflexivity|].
  rewrite Htext. vm_compute. reflexivity.
Defined.

(** C3 fails below one second: with the timeout set to 100 ms no alarm is
    armed, and the snippet [while True: pass], which on a runtime that no
    jump has left (as the one of this call is) runs for longer than any
    timeout, keeps [execute] from ever returning. *)
Theorem C3_timeout_below_one_second_never_fires :
  (forall py,
      unwound py = false ->
      exceeds (Scenario.PyRun_StringFlags Scenario.spin py) 100)
  /\ (exists py,
        python (prologue Scenario.host (setExecutionTimeout Scenario.s0 100))
        = Some py
        /\ unwound py = false
        /\ exceeds
             (Scenario.PyRun_StringFlags Scenario.spin
                (plots_cleared Scenario.host
                   (prologue Scenario.host (setExecutionTimeout Scenario.s0 100))
                   py))
             100)
  /\ alarm 100 = None
  /\ Scenario.execute (setExecutionTimeout Scenario.s0 100) Scenario.spin = None.
Proof.
  split.
  { intros py Hpy. unfold Scenario.PyRun_StringFlags. rewrite Hpy. exact I. }
  split.
  { eexists. split; [vm_compute; reflexivity|]. split; [reflexivity|exact I]. }
  split; vm_compute; reflexivity.
Qed.

(** C4 fails: a snippet draws a figure, the helper hands it over in base64
    and [capturePlot] decodes it and emits it in a signal; the result of the
    call is a success with empty [plotData]. *)
Theorem C4_plot_emitted_but_not_attached :
  exists r s1,
    Scenario.execute Scenario.s0 Scenario.plot = Some (r, s1)
    /\ success r = true
    /\ emitted s1 = [executionStarted;
                     plotGenerated (Base64.fromBase64 Scenario.figure);
                     executionFinished true]
    /\ Base64.fromBase64 Scenario.figure <> []
    /\ plotData r = [].
Proof.
  eexists _, _.
  split; [vm_compute; reflexivity|].
  split; [reflexivity|]. split; [vm_compute; reflexivity|].
  split; [vm_compute; discriminate | reflexivity].
Qed.

Lemma C5_witness :
  Py_IsInitialized Scenario.host = true
  /\ getVariables (Scenario.restart Scenario.s0) !! "LotusStdoutCapture"
     = Some (mkVarInfo "type" "<class '__main__.LotusStdoutCapture'>")
  /\ getVariables (Scenario.restart Scenario.s0) !! "sys"
     = Some (variable_info (stdlib_module Scenario.host "sys"))
  /\ getVariables (Scenario.restart Scenario.s0) <> ∅.
Proof.
  split; [reflexivity|].
  apply (C5_snapshot_after_restart_lists_bootstrap Scenario.host Scenario.s0).
  reflexivity.
Defined.

(** The snapshot after [restart], in full, on the reference host. *)
Example scenario_restart_snapshot :
  dom (getVariables (Scenario.restart Scenario.s0))
  = list_to_set ["__annotations__"; "LotusStdoutCapture"; "PlotCapture";
                 "base64"; "io"; "lotus_plot_capture"; "matplotlib"; "plt";
                 "signal"; "sys"].
Proof. vm_compute. reflexivity. Qed.

Lemma C6_witness :
  exists r s2,
    Scenario.execute Scenario.s0 Scenario.emit_hi = Some (r, s2)
    /\ outputs r = [mkOutput Text "hi" []]
    /\ textOutput r = "".
Proof.
  eapply (proj2 (C6_text_before_first_sentinel Scenario.host
                   Scenario.PyRun_StringFlags QJson.fromJson Base64.fromBase64)
            Scenario.s0 Scenario.emit_hi).
  - vm_compute. reflexivity.
  - right. reflexivity.
  - vm_compute. reflexivity.
  - vm_compute. reflexivity.
  - vm_compute. reflexivity.
Defined.

Lemma C7_witness :
  is_sentinel_line Scenario.broken_line = true
  /\ QJson.fromJson (payload Scenario.broken_line) = None
  /\ (forall outputs,
         parse_line QJson.fromJson Base64.fromBase64 outputs Scenario.broken_line
         = outputs)
  /\ (forall stream before after,
         QString.split newline stream
         = (before ++ Scenario.broken_line :: after)%list ->
         parseRichOutputs QJson.fromJson Base64.fromBase64 stream
         = fold_left (parse_line QJson.fromJson Base64.fromBase64)
             (before ++ after)%list [])
  /\ (forall r stream err,
         success (combine QJson.fromJson Base64.fromBase64 r stream err) = success r
         /\ error (combine QJson.fromJson Base64.fromBase64 r stream err)
            = error (combine QJson.fromJson Base64.fromBase64 r "" err)).
Proof.
  split; [reflexivity|]. split; [vm_compute; reflexivity|].
  apply (C7_malformed_sentinel_dropped QJson.fromJson Base64.fromBase64
           Scenario.broken_line).
  - reflexivity.
  - left. vm_compute. reflexivity.
Defined.

(** The malformed line of [C7_witness] inside a run: the line before it
    makes the text, nothing is added to the outputs, the call succeeds. *)
Example scenario_broken_line :
  exists s1,
    Scenario.execute Scenario.s0 Scenario.emit_broken
    = Some (mkResult true "before" "" [] [], s1).
Proof. eexists. vm_compute. reflexivity. Qed.

Lemma C8_witness :
  exists r s2,
    Scenario.execute Scenario.s0 Scenario.print_blank = Some (r, s2)
    /\ textOutput r = ""
    /\ outputs r = [mkOutput Text nl []].
Proof.
  eapply (C8_fallback_wraps_raw_stream Scenario.host Scenario.PyRun_StringFlags
            QJson.fromJson Base64.fromBase64 Scenario.s0 Scenario.print_blank).
  - vm_compute. reflexivity.
  - discriminate.
  - reflexivity.
  - reflexivity.
Defined.

(** C9 fails for the snapshot: the string bound by [s = 'a' * 120] has a
    [repr] of 122 characters, and the snapshot holds all of them;
    [parsePythonValue], which would cut it to 100 characters and three
    dots, is not applied. *)
Theorem C9_snapshot_repr_not_capped :
  exists r s1,
    Scenario.execute Scenario.s0 Scenario.long_value = Some (r, s1)
    /\ getVariables s1 !! "s"
       = Some (mkVarInfo "str" ("'" ++ Scenario.a120 ++ "'"))
    /\ String.length ("'" ++ Scenario.a120 ++ "'") = 122
    /\ String.length (parsePythonValue ("'" ++ Scenario.a120 ++ "'")) = 103.
Proof.
  eexists _, _.
  split; [vm_compute; reflexivity|].
  split; [vm_compute; reflexivity|].
  split; vm_compute; reflexivity.
Qed.

(** C10, for every call, fails after a timeout: the snippet writes
    ["careful"] to standard error and is cut off; the error of the result is
    the timeout message alone, and the text is still in the sink. *)
Lemma C10_counterexample :
  exists r s1 py1,
    Scenario.execute Scenario.s0 Scenario.warn_then_spin = Some (r, s1)
    /\ (forall py,
          unwound py = false ->
          written Stderr
            (steps (Scenario.PyRun_StringFlags Scenario.warn_then_spin py))
          = "careful" ++ nl)
    /\ (exists py,
          python (prologue Scenario.host Scenario.s0) = Some py
          /\ unwound py = false)
    /\ error r = "Execution timed out after 10 seconds"
    /\ contains (error r) "careful" = false
    /\ python s1 = Some py1
    /\ pStderr py1 = "careful" ++ nl.
Proof.
  eexists _, _, _.
  split; [vm_compute; reflexivity|].
  split.
  { intros py Hpy. unfold Scenario.PyRun_StringFlags. rewrite Hpy.
    vm_compute. reflexivity. }
  split; [eexists; split; [vm_compute; reflexivity|reflexivity]|].
  split; [reflexivity|]. split; [vm_compute; reflexivity|].
  split; [reflexivity|]. vm_compute. reflexivity.
Qed.

Lemma C10_witness :
  exists py py',
    python (prologue Scenario.host Scenario.s0) = Some py
    /\ Scenario.evaluation Scenario.s0 Scenario.warn = Some (Done py' None)
    /\ exists r s1,
         Scenario.execute Scenario.s0 Scenario.warn = Some (r, s1)
         /\ success r = true
         /\ error r = "careful" ++ nl.
Proof.
  eassert (Hpy : python (prologue Scenario.host Scenario.s0) = Some _)
    by (vm_compute; reflexivity).
  eassert (Hev : Scenario.evaluation Scenario.s0 Scenario.warn = Some (Done _ None))
    by (vm_compute; reflexivity).
  eexists _, _. split; [exact Hpy|]. split; [exact Hev|].
  exact (C10_stderr_copied_when_evaluation_ends Scenario.host
           Scenario.PyRun_StringFlags QJson.fromJson Base64.fromBase64
           Scenario.s0 Scenario.warn _ _ None Hpy Hev).
Defined.

(** Where the evaluation ends, standard error is copied, also on success. *)
Example scenario_warn :
  exists s1,
    Scenario.execute Scenario.s0 Scenario.warn
    = Some (mkResult true "" ("careful" ++ nl) [] [], s1).
Proof. eexists. vm_compute. reflexivity. Qed.

Example scenario_warn_then_raise :
  exists r s1,
    Scenario.execute Scenario.s0 Scenario.warn_then_raise = Some (r, s1)
    /\ success r = false
    /\ error r = "careful" ++ nl ++ nl ++ "  File " ++ dquote ++ "<string>"
                 ++ dquote ++ ", line 3, in <module>" ++ nl ++ "bad".
Proof.
  eexists _, _. split; [vm_compute; reflexivity|].
  split; [reflexivity|]. vm_compute. reflexivity.
Qed.

(** From one second on the timeout fires: a snippet that sleeps 1.5 s under
    a timeout of 1000 ms. *)
Example scenario_sleep_timed_out :
  exists r s1,
    Scenario.execute (setExecutionTimeout Scenario.s0 1000) Scenario.sleep
    = Some (r, s1)
    /\ success r = false
    /\ error r = "Execution timed out after 1 seconds".
Proof. eexists _, _. split; [vm_compute; reflexivity|]. split; reflexivity. Qed.

(** Without matplotlib the helper answers [None]: no plot signal, and the
    call succeeds all the same. *)
Example scenario_no_matplotlib :
  exists s1,
    execute Scenario.bare_host Scenario.PyRun_StringFlags QJson.fromJson
      Base64.fromBase64 Scenario.s0 Scenario.print_hello
    = Some (mkResult true "hello" "" [] [], s1)
    /\ emitted s1 = [executionStarted; executionFinished true].
Proof. eexists. split; vm_compute; reflexivity. Qed.

(** [interrupt()] before a call changes nothing: [execute] resets the flag
    before it looks at it. *)
Lemma interrupt_is_forgotten (host : Host)
    (PyRun_StringFlags : string -> Interp -> Evaluation)
    (fromJson : string -> option QJsonValue) (fromBase64 : string -> QByteArray)
    (s : PythonExecutor) (code : string) :
  execute host PyRun_StringFlags fromJson fromBase64 (interrupt s) code
  = execute host PyRun_StringFlags fromJson fromBase64 s code.
Proof. destruct s. reflexivity. Qed.

(** * Further properties of the executor *)

(** ** Start, restart and what a call leaves *)


Lemma prologue_keeps (host : Host) (s : PythonExecutor) :
  emitted (prologue host s) = emitted s
  /\ executionTimeout (prologue host s) = executionTimeout s
  /\ memoryLimit (prologue host s) = memoryLimit s
  /\ plotCaptureEnabled (prologue host s) = plotCaptureEnabled s
  /\ plotFormat (prologue host s) = plotFormat s.
Proof.
  destruct s as [q m t l pc pf ei pm em].
  unfold prologue, initialize, initialized. cbn.
  destruct q as [py|]; [cbn; auto|].
  destruct (Py_IsInitialized host); cbn; [destruct pc; cbn; auto | auto].
Qed.

Lemma prologue_python (host : Host) (s : PythonExecutor) :
  Py_IsInitialized host = true -> initialized (prologue host s) = true.
Proof.
  intros Hstart. destruct s as [q m t l pc pf ei pm em].
  unfold prologue, initialize, initialized. cbn.
  destruct q as [py|]; [reflexivity|].
  rewrite Hstart. cbn. destruct pc; reflexivity.
Qed.

Lemma prologue_without_python (host : Host) (s : PythonExecutor) :
  Py_IsInitialized host = false ->
  python s = None ->
  prologue host s
  = set_lastErrorMessage (set_executionInterrupted s false)
      "Failed to initialize Python interpreter".
Proof.
  intros Hstart Hnone. destruct s as [q m t l pc pf ei pm em].
  cbn in Hnone. subst q.
  unfold prologue, initialize, initialized. cbn. rewrite Hstart. reflexivity.
Qed.

(** X2.  Where the runtime does not start, [execute] on a session that is
    not initialized evaluates nothing: it returns a failure whose error is
    the message of [initialize], with no text and no outputs, emits no
    signal, and leaves the session not initialized. *)
Theorem execute_without_python (host : Host)
    (PyRun_StringFlags : string -> Interp -> Evaluation)
    (fromJson : string -> option QJsonValue) (fromBase64 : string -> QByteArray)
    (s : PythonExecutor) (code : string) :
  Py_IsInitialized host = false ->
  python s = None ->
  exists s',
    execute host PyRun_StringFlags fromJson fromBase64 s code
    = Some (mkResult false "" "Failed to initialize Python interpreter" [] [], s')
    /\ python s' = None
    /\ emitted s' = emitted s
    /\ lastErrorMessage s' = "Failed to initialize Python interpreter".
Proof.
  intros Hstart Hnone. eexists. split.
  - unfold execute, attempt. cbv zeta.
    rewrite (prologue_without_python host s Hstart Hnone). cbn.
    rewrite Hnone. reflexivity.
  - cbn. auto.
Qed.

(** A name that the set-up code does not bind is bound after [restart]
    as in a fresh [__main__]. *)
Lemma restart_globals (host : Host) (s : PythonExecutor) (py : Interp)
    (name : string) :
  python (restart host s) = Some py ->
  ~ In name bootstrap_names ->
  pGlobals py !! name = main_dict host !! name.
Proof.
  intros Hpy Hname.
  assert (Hne : forall b, In b bootstrap_names -> b <> name)
    by (intros b Hb ->; exact (Hname Hb)).
  destruct s as [q m t l pc pf ei pm em].
  unfold restart, cleanup, initialized in Hpy.
  destruct q; cbn in Hpy; unfold initialize, initialized in Hpy; cbn in Hpy;
    (destruct (Py_IsInitialized host); [|discriminate]);
    destruct pc, (matplotlib host) as [[mpl plt]|]; cbn in Hpy;
    injection Hpy as <-; cbn;
    unfold import; cbn;
    rewrite !lookup_insert_ne by (apply Hne; cbn; tauto); reflexivity.
Qed.

(** X3.  What [restart] leaves, where the runtime starts: both sinks are
    empty, and a name that the set-up code does not bind is bound as in a
    fresh [__main__]; nothing of the namespace there was before is left. *)
Theorem restart_leaves_fresh_namespace (host : Host) (s : PythonExecutor)
    (py : Interp) (name : string) :
  python (restart host s) = Some py ->
  ~ In name bootstrap_names ->
  pGlobals py !! name = main_dict host !! name
  /\ pStdout py = ""
  /\ pStderr py = "".
Proof.
  intros Hpy Hname.
  split; [exact (restart_globals host s py name Hpy Hname)|].
  destruct s as [q m t l pc pf ei pm em].
  unfold restart, cleanup, initialized in Hpy.
  destruct q; cbn in Hpy; unfold initialize, initialized in Hpy; cbn in Hpy;
    (destruct (Py_IsInitialized host); [|discriminate]);
    destruct pc, (matplotlib host) as [[mpl plt]|]; cbn in Hpy;
    injection Hpy as <-; cbn; split; reflexivity.
Qed.

Section MoreRuns.

Variable host : Host.
Variable PyRun_StringFlags : string -> Interp -> Evaluation.
Variable fromJson : string -> option QJsonValue.
Variable fromBase64 : string -> QByteArray.

Local Abbreviation prologue_ := (prologue host).
Local Abbreviation plots_cleared_ := (plots_cleared host).
Local Abbreviation evaluation_ := (evaluation host PyRun_StringFlags).
Local Abbreviation attempt_ := (attempt host PyRun_StringFlags fromBase64).
Local Abbreviation execute_ :=
  (execute host PyRun_StringFlags fromJson fromBase64).

(** The shapes of a call, by what its evaluation came to. *)
Lemma execute_cases (s : PythonExecutor) (code : string) r s' :
  execute_ s code = Some (r, s') ->
  (python (prologue_ s) = None
   /\ r = set_error result0 (lastErrorMessage (prologue_ s))
   /\ s' = prologue_ s)
  \/ (exists py', evaluation_ s code = Some (Alarm py'))
  \/ (exists py' raised, evaluation_ s code = Some (Done py' raised)).
Proof.
  unfold execute, attempt, evaluation. cbv zeta.
  destruct (python (prologue_ s)) as [py|].
  - rewrite prologue_not_interrupted, guarded_run_emit.
    destruct (guarded_run _ _ _ _) as [py' raised|py'|]; [| |discriminate].
    + intros _. right. right. eauto.
    + intros _. right. left. eauto.
  - intros [= <- <-]. left. auto.
Qed.

Lemma prologue_starts (s : PythonExecutor) :
  initialized (prologue_ s) = initialized s || Py_IsInitialized host.
Proof.
  destruct s as [q m t l pc pf ei pm em].
  unfold prologue, initialize, initialized. cbn.
  destruct q as [py|]; [reflexivity|].
  destruct (Py_IsInitialized host); cbn; [destruct pc; reflexivity|reflexivity].
Qed.

(** X4.  The signals of one call that returns.  On a session that is not
    initialized, where the runtime does not start, the call emits nothing
    and fails.  In every other case it emits [executionStarted] first and
    [executionFinished] with the success flag last, and between them at
    most one [plotGenerated], which only a successful call emits. *)
Theorem execute_signals (s : PythonExecutor) (code : string) r s' :
  execute_ s code = Some (r, s') ->
  if initialized s || Py_IsInitialized host
  then
    emitted s'
    = (emitted s ++ [executionStarted; executionFinished (success r)])%list
    \/ exists data,
         success r = true
         /\ emitted s'
            = (emitted s ++ [executionStarted; plotGenerated data;
                             executionFinished true])%list
  else emitted s' = emitted s /\ success r = false.
Proof.
  intros Hex. destruct (prologue_keeps host s) as (Hem & _).
  rewrite <- prologue_starts.
  destruct (execute_cases s code r s' Hex)
    as [(Hnone & -> & ->) | [[py' Hev] | (py' & raised & Hev)]].
  - unfold initialized. rewrite Hnone. split; [exact Hem|reflexivity].
  - destruct (evaluation_inv _ _ _ _ _ Hev) as (py & Hpy & _).
    unfold initialized. rewrite Hpy.
    rewrite (execute_alarm _ _ _ _ _ _ _ Hev) in Hex. injection Hex as <- <-.
    left. cbn -[prologue]. rewrite Hem, <- app_assoc. reflexivity.
  - destruct (evaluation_inv _ _ _ _ _ Hev) as (py & Hpy & _).
    unfold initialized. rewrite Hpy.
    destruct raised as [[value traceback]|].
    + rewrite (execute_collected _ _ _ _ _ _ _ _ _ _
                 (attempt_raised _ _ _ _ _ _ _ _ Hev)) in Hex.
      injection Hex as <- <-. left.
      rewrite combine_success. cbn -[prologue]. rewrite Hem, <- app_assoc. reflexivity.
    + rewrite (execute_collected _ _ _ _ _ _ _ _ _ _
                 (attempt_returned _ _ _ _ _ _ Hev)) in Hex.
      injection Hex as <- <-. rewrite combine_success. cbn -[prologue capturePlot].
      destruct (plotCaptureEnabled (prologue_ s)).
      * unfold capturePlot. cbn -[prologue capture_current_plot].
        destruct (pPlotCaptureModule (prologue_ s));
          [destruct (capture_current_plot host py') as [b64|]|];
          cbn -[prologue]; rewrite Hem, <- ?app_assoc;
          first [ left; reflexivity
                | right; eexists; split; reflexivity ].
      * left. cbn -[prologue]. rewrite Hem, <- app_assoc. reflexivity.
Qed.

Lemma capturePlot_keeps (host0 : Host) (decode : string -> QByteArray)
    (s0 : PythonExecutor) (py : Interp) :
  executionTimeout (capturePlot host0 decode s0 py) = executionTimeout s0
  /\ memoryLimit (capturePlot host0 decode s0 py) = memoryLimit s0
  /\ plotCaptureEnabled (capturePlot host0 decode s0 py) = plotCaptureEnabled s0
  /\ plotFormat (capturePlot host0 decode s0 py) = plotFormat s0.
Proof.
  unfold capturePlot. destruct (negb _); [auto|].
  destruct (capture_current_plot host0 py); cbn; auto.
Qed.

(** X5.  A call changes nothing of the configuration (timeout, memory
    limit, plot capture, plot format), and where the runtime starts it
    leaves the session initialized, however the call ended. *)
Theorem execute_keeps_configuration (s : PythonExecutor) (code : string) r s' :
  execute_ s code = Some (r, s') ->
  executionTimeout s' = executionTimeout s
  /\ memoryLimit s' = memoryLimit s
  /\ plotCaptureEnabled s' = plotCaptureEnabled s
  /\ plotFormat s' = plotFormat s
  /\ (Py_IsInitialized host = true -> initialized s' = true).
Proof.
  intros Hex. destruct (prologue_keeps host s) as (_ & Ht & Hm & Hp & Hf).
  destruct (execute_cases s code r s' Hex)
    as [(Hnone & _ & ->) | [[py' Hev] | (py' & raised & Hev)]].
  - repeat (split; [assumption|]). intros Hstart.
    apply prologue_python with (s := s) in Hstart.
    unfold initialized in Hstart. now rewrite Hnone in Hstart.
  - rewrite (execute_alarm _ _ _ _ _ _ _ Hev) in Hex. injection Hex as <- <-.
    cbn -[prologue capturePlot capture_current_plot]. auto.
  - destruct (execute_done host PyRun_StringFlags fromBase64 _ _ _ _ Hev)
      as (r0 & s1 & Hat & Hpy & _).
    rewrite (execute_collected _ _ _ _ _ _ _ _ _ _ Hat) in Hex.
    injection Hex as <- <-. cbn -[prologue capturePlot capture_current_plot].
    assert (Hs1 : executionTimeout s1 = executionTimeout s
                  /\ memoryLimit s1 = memoryLimit s
                  /\ plotCaptureEnabled s1 = plotCaptureEnabled s
                  /\ plotFormat s1 = plotFormat s).
    { destruct raised as [[value traceback]|].
      - rewrite (attempt_raised _ _ _ _ _ _ _ _ Hev) in Hat.
        injection Hat as _ <-. cbn -[prologue]. repeat split; congruence.
      - rewrite (attempt_returned _ _ _ _ _ _ Hev) in Hat.
        injection Hat as _ <-. cbv zeta.
        destruct (capturePlot_keeps host fromBase64
                    (emit (prologue_ s) executionStarted) py')
          as (Ht' & Hm' & Hp' & Hf').
        cbn -[prologue capturePlot] in Ht', Hm', Hp', Hf'.
        destruct (plotCaptureEnabled (prologue_ s)) eqn:Hflag;
          cbn -[prologue capturePlot]; rewrite ?Ht', ?Hm', ?Hp', ?Hf';
          cbn -[prologue]; repeat split; congruence. }
    destruct Hs1 as (? & ? & ? & ?). repeat (split; [assumption|]).
    intros _. unfold initialized, emit. cbn [python]. now rewrite Hpy.
Qed.

End MoreRuns.

(** ** Deadlines *)

Lemma elapsed_nonneg (steps : list PyEvent) : (0 <= elapsed steps)%Z.
Proof.
  induction steps as [|e steps IH]; cbn; [lia|].
  destruct e; cbn; try exact IH. fold (elapsed steps). lia.
Qed.

Lemma elapsed_cons (e : PyEvent) (steps : list PyEvent) :
  elapsed (e :: steps)
  = (match e with Elapse ms => Z.of_N ms | _ => 0 end + elapsed steps)%Z.
Proof. destruct e; reflexivity. Qed.

(** A snippet that ends before the deadline is evaluated to its end. *)
Lemma run_steps_in_time (d clock : Z) (py : Interp) (steps : list PyEvent)
    (ending : Ending) :
  ending <> Diverges ->
  (clock + elapsed steps < d)%Z ->
  exists py',
    run_steps (Some d) clock py steps ending
    = Done py' match ending with
               | Raises value traceback => Some (value, traceback)
               | _ => None
               end.
Proof.
  intros Hend. revert clock py.
  induction steps as [|e steps IH]; intros clock py Htime.
  - cbn. destruct ending; [eauto | eauto | congruence].
  - rewrite elapsed_cons in Htime. pose proof (elapsed_nonneg steps) as Hpos.
    destruct e as [to text|name value|name|rendering|ms]; cbn;
      try (apply IH; lia).
    destruct (Z.leb_spec d (clock + Z.of_N ms)); [lia|]. apply IH. lia.
Qed.

Lemma alarm_rounds_down (t : Z) :
  (1000 <= t < 2 ^ 31)%Z -> alarm t = Some (1000 * (t / 1000))%Z.
Proof.
  intros Ht. unfold alarm.
  assert (Hq : (1 <= t / 1000 < 2 ^ 32)%Z).
  { split; [apply Z.div_le_lower_bound; lia | apply Z.div_lt_upper_bound; lia]. }
  rewrite Z.quot_div_nonneg by lia. rewrite Z.mod_small by lia.
  destruct (Z.eqb_spec (t / 1000) 0); [lia|]. f_equal. lia.
Qed.

Section Deadlines.

Variable host : Host.
Variable PyRun_StringFlags : string -> Interp -> Evaluation.
Variable fromJson : string -> option QJsonValue.
Variable fromBase64 : string -> QByteArray.

Local Abbreviation prologue_ := (prologue host).
Local Abbreviation plots_cleared_ := (plots_cleared host).
Local Abbreviation evaluation_ := (evaluation host PyRun_StringFlags).
Local Abbreviation execute_ :=
  (execute host PyRun_StringFlags fromJson fromBase64).

(** X6.  The timeout counts in whole seconds.  With a timeout of [t] ms
    from one second on, the deadline is [t] rounded down to a multiple of
    1000: a snippet that ends before it is evaluated to its end, and one
    that needs as long or longer, or does not end, is reported as timed
    out, also when it would have ended within [t]. *)
Theorem timeout_is_rounded_down_to_seconds (s : PythonExecutor) (code : string)
    (py : Interp) :
  (1000 <= executionTimeout s < 2 ^ 31)%Z ->
  python (prologue_ s) = Some py ->
  let snippet := PyRun_StringFlags code (plots_cleared_ (prologue_ s) py) in
  let deadline := (1000 * (executionTimeout s / 1000))%Z in
  (ending snippet <> Diverges ->
   (elapsed (steps snippet) < deadline)%Z ->
   exists r s',
     execute_ s code = Some (r, s')
     /\ success r = match ending snippet with Returns => true | _ => false end)
  /\ (ending snippet = Diverges \/ (deadline <= elapsed (steps snippet))%Z ->
      exists r s',
        execute_ s code = Some (r, s')
        /\ success r = false
        /\ error r = timeout_message s
        /\ contains (error r) "timed out" = true).
Proof.
  intros Ht Hpy snippet deadline.
  assert (Hev : evaluation_ s code
                = Some (run_steps (Some deadline) 0 (plots_cleared_ (prologue_ s) py)
                          (steps snippet) (ending snippet))).
  { unfold evaluation. cbv zeta. rewrite Hpy, prologue_not_interrupted.
    unfold guarded_run. now rewrite prologue_timeout, alarm_rounds_down. }
  split.
  - intros Hend Htime.
    destruct (run_steps_in_time deadline 0 (plots_cleared_ (prologue_ s) py)
                (steps snippet) (ending snippet) Hend) as [py' Hrun]; [lia|].
    rewrite Hrun in Hev.
    destruct (execute_done host PyRun_StringFlags fromBase64 _ _ _ _ Hev)
      as (r0 & s1 & Hat & _ & Hsucc & _).
    eexists _, _. split; [apply execute_collected; exact Hat|].
    rewrite combine_success, Hsucc. destruct (ending snippet); congruence.
  - intros Hlong.
    destruct (run_steps_armed deadline 0 (plots_cleared_ (prologue_ s) py)
                (steps snippet) (ending snippet)) as [py' Hrun].
    { destruct Hlong as [-> | Hlong]; [exact I|].
      destruct (ending snippet); auto; lia. }
    { unfold deadline. assert (1 <= executionTimeout s / 1000)%Z
        by (apply Z.div_le_lower_bound; lia). lia. }
    rewrite Hrun in Hev.
    eexists _, _. split; [apply execute_alarm; exact Hev|].
    do 2 (split; [reflexivity|]). apply timeout_message_mentions_timeout.
Qed.

Lemma run_steps_unarmed_ends (clock : Z) (py : Interp) (steps : list PyEvent)
    (ending : Ending) :
  ending <> Diverges ->
  exists py',
    run_steps None clock py steps ending
    = Done py' match ending with
               | Raises value traceback => Some (value, traceback)
               | _ => None
               end.
Proof.
  intros Hend. revert clock py.
  induction steps as [|e steps IH]; intros clock py.
  - cbn. destruct ending; [eauto | eauto | congruence].
  - destruct e; cbn; apply IH.
Qed.

(** X7.  A timeout of less than a second is no timeout at all: no alarm is
    armed, so a snippet that ends is evaluated to its end however long it
    takes, and with one that does not end the call never returns. *)
Theorem timeout_below_one_second_is_none (s : PythonExecutor) (code : string)
    (py : Interp) :
  (-1000 < executionTimeout s < 1000)%Z ->
  python (prologue_ s) = Some py ->
  let snippet := PyRun_StringFlags code (plots_cleared_ (prologue_ s) py) in
  (ending snippet <> Diverges ->
   exists r s',
     execute_ s code = Some (r, s')
     /\ success r = match ending snippet with Returns => true | _ => false end)
  /\ (ending snippet = Diverges -> execute_ s code = None).
Proof.
  intros Ht Hpy snippet.
  assert (Hev : evaluation_ s code
                = Some (run_steps None 0 (plots_cleared_ (prologue_ s) py)
                          (steps snippet) (ending snippet))).
  { unfold evaluation. cbv zeta. rewrite Hpy, prologue_not_interrupted.
    unfold guarded_run. now rewrite prologue_timeout, alarm_below_one_second. }
  split.
  - intros Hend.
    destruct (run_steps_unarmed_ends 0 (plots_cleared_ (prologue_ s) py)
                (steps snippet) (ending snippet) Hend) as [py' Hrun].
    rewrite Hrun in Hev.
    destruct (execute_done host PyRun_StringFlags fromBase64 _ _ _ _ Hev)
      as (r0 & s1 & Hat & _ & Hsucc & _).
    eexists _, _. split; [apply execute_collected; exact Hat|].
    rewrite combine_success, Hsucc. destruct (ending snippet); congruence.
  - intros Hend. rewrite Hend, run_steps_unarmed_diverges in Hev.
    unfold execute.
    now rewrite (attempt_forever host PyRun_StringFlags fromBase64 _ _ Hev).
Qed.

(** X8.  Isolation between calls that end.  When the evaluation of a call
    ended, with a result or with an exception, the next call finds both
    sinks empty: if its own evaluation ends too, its result is made of
    what its own snippet wrote and of nothing else. *)
Theorem isolation_between_completed_calls (s : PythonExecutor)
    (code1 code2 : string) (py1 py2 : Interp) raised1 raised2 r1 s1 :
  evaluation_ s code1 = Some (Done py1 raised1) ->
  execute_ s code1 = Some (r1, s1) ->
  evaluation_ s1 code2 = Some (Done py2 raised2) ->
  let snippet := PyRun_StringFlags code2 (plots_cleared_ s1 (sinks_cleared py1)) in
  exists r2 s2,
    execute_ s1 code2 = Some (r2, s2)
    /\ textOutput r2 = text_before_first_sentinel (written Stdout (steps snippet))
    /\ error r2
       = error (combine fromJson fromBase64
                  (set_error result0
                     match raised2 with
                     | Some (value, traceback) => errorMsg value traceback
                     | None => ""
                     end)
                  "" (written Stderr (steps snippet))).
Proof.
  intros H1 Hex H2 snippet.
  destruct (isolation_after_completed_run host PyRun_StringFlags fromJson
              fromBase64 s code1 code2 py1 py2 raised1 raised2 r1 s1 H1 Hex H2)
    as (r0 & s2 & Hat).
  destruct (attempt_collected_fresh _ _ _ _ _ _ _ _ _ Hat) as (Htext & _ & _).
  destruct (execute_done host PyRun_StringFlags fromBase64 _ _ _ _ H2)
    as (r0' & s2' & Hat' & _ & _ & Herr).
  fold snippet in Hat. rewrite Hat in Hat'. injection Hat' as <- _ _ _.
  eexists _, _. split; [apply execute_collected; exact Hat|]. split.
  - now apply combine_textOutput.
  - rewrite !combine_error, Herr. reflexivity.
Qed.

(** ** The namespace across calls *)

Lemma run_steps_done_globals (deadline : option Z) (clock : Z) (py py' : Interp)
    (steps : list PyEvent) (ending : Ending) raised :
  run_steps deadline clock py steps ending = Done py' raised ->
  pGlobals py' = bound steps (pGlobals py).
Proof.
  revert clock py. induction steps as [|e steps IH]; intros clock py Hrun.
  - cbn in Hrun. destruct ending; [| |destruct deadline; discriminate];
      injection Hrun as <- _; reflexivity.
  - destruct e as [to text|name value|name|rendering|ms]; cbn in Hrun.
    + apply IH in Hrun. rewrite Hrun. now destruct to.
    + apply IH in Hrun. exact Hrun.
    + apply IH in Hrun. exact Hrun.
    + apply IH in Hrun. exact Hrun.
    + destruct deadline as [d|].
      * destruct (d <=? clock + Z.of_N ms)%Z; [discriminate|].
        apply IH in Hrun. exact Hrun.
      * apply IH in Hrun. exact Hrun.
Qed.

(** X9.  The namespace persists: after a call whose evaluation ends, with
    a result or with an exception, the namespace of the session is the one
    before the call with the snippet's bindings and deletions applied in
    their order. *)
Theorem bindings_persist (s : PythonExecutor) (code : string) (py py' : Interp)
    raised :
  python (prologue_ s) = Some py ->
  evaluation_ s code = Some (Done py' raised) ->
  exists r s' py'',
    execute_ s code = Some (r, s')
    /\ python s' = Some py''
    /\ pGlobals py''
       = bound (steps (PyRun_StringFlags code (plots_cleared_ (prologue_ s) py)))
               (pGlobals py).
Proof.
  intros Hpy Hev.
  destruct (execute_done host PyRun_StringFlags fromBase64 _ _ _ _ Hev)
    as (r0 & s1 & Hat & Hpy1 & _).
  destruct (evaluation_inv _ _ _ _ _ Hev) as (py0 & Hpy0 & Hrun).
  rewrite Hpy in Hpy0. injection Hpy0 as <-.
  unfold guarded_run in Hrun. symmetry in Hrun.
  apply run_steps_done_globals in Hrun.
  destruct (plots_cleared_sinks host (prologue_ s) py) as (_ & _ & Hg).
  rewrite Hg in Hrun.
  eexists _, _, _. split; [apply execute_collected; exact Hat|].
  split; [unfold emit; cbn [python]; exact Hpy1|]. exact Hrun.
Qed.

End Deadlines.

(** ** The variable snapshot and the single look-ups *)

Lemma skipped_internal (name : string) :
  In name internal_names -> skipped name = true.
Proof.
  intros Hin. unfold skipped. apply orb_true_iff. right.
  apply existsb_exists. exists name. split; [exact Hin | apply String.eqb_refl].
Qed.

Lemma startsWith_underscore (rest : string) :
  QString.startsWith ("_" ++ rest) "_" = true.
Proof.
  unfold QString.startsWith. change ("_" ++ rest) with (String "_" rest).
  cbn. destruct (ascii_dec "_" "_"); [now destruct rest | congruence].
Qed.

Lemma startsWith_dunder (rest : string) :
  QString.startsWith ("_" ++ rest) "__" = QString.startsWith rest "_".
Proof.
  unfold QString.startsWith. change ("_" ++ rest) with (String "_" rest).
  cbn. destruct (ascii_dec "_" "_"); [reflexivity | congruence].
Qed.

(** X10.  What the snapshot lists.  A name is left out when it is one of
    the fixed names or begins with one underscore and not with two; every
    other bound name is listed with the type and the whole [repr] of its
    value, a name with two leading underscores that is not among the fixed
    ones included; and nothing else is listed. *)
Theorem snapshot_lists_what_is_not_skipped (s : PythonExecutor) (py : Interp)
    (name : string) :
  python s = Some py ->
  (In name internal_names -> getVariables s !! name = None)
  /\ (forall rest,
        name = "_" ++ rest -> QString.startsWith rest "_" = false ->
        getVariables s !! name = None)
  /\ (forall rest,
        name = "__" ++ rest -> ~ In name internal_names ->
        getVariables s !! name = variable_info <$> pGlobals py !! name)
  /\ (QString.startsWith name "_" = false -> ~ In name internal_names ->
      getVariables s !! name = variable_info <$> pGlobals py !! name)
  /\ (forall info,
        getVariables s !! name = Some info ->
        exists value,
          pGlobals py !! name = Some value /\ info = variable_info value).
Proof.
  intros Hpy. rewrite (getVariables_lookup s py name Hpy).
  assert (Hlist : ~ In name internal_names ->
                  existsb (String.eqb name) internal_names = false).
  { intros Hnot. destruct (existsb _ _) eqn:Hex; [|reflexivity].
    apply existsb_exists in Hex. destruct Hex as (x & Hx & Heq).
    apply String.eqb_eq in Heq. subst x. contradiction. }
  split; [|split; [|split; [|split]]].
  - intros Hin. now rewrite skipped_internal.
  - intros rest -> Hrest. unfold skipped.
    now rewrite startsWith_underscore, startsWith_dunder, Hrest.
  - intros rest -> Hnot. unfold skipped. rewrite (Hlist Hnot).
    change ("__" ++ rest) with ("_" ++ "_" ++ rest).
    rewrite startsWith_dunder, !startsWith_underscore. reflexivity.
  - intros Hplain Hnot. unfold skipped. now rewrite Hplain, (Hlist Hnot).
  - intros info Hinfo. destruct (skipped name); [discriminate|].
    destruct (pGlobals py !! name) as [value|]; [|discriminate].
    cbn in Hinfo. injection Hinfo as <-. eauto.
Qed.

(** X11.  The single look-ups agree with the snapshot: for a name that the
    snapshot lists, [getVariableType] and [getVariableRepr] return its type
    and its value.  They also answer for the names that the snapshot
    leaves out, and return the empty string for a name that is not
    bound. *)
Theorem lookups_agree_with_snapshot (s : PythonExecutor) (py : Interp)
    (name : string) :
  python s = Some py ->
  (forall info,
      getVariables s !! name = Some info ->
      getVariableType s name = var_type info
      /\ getVariableRepr s name = var_value info)
  /\ (forall value,
        pGlobals py !! name = Some value ->
        getVariableType s name = type_name value
        /\ getVariableRepr s name = default "" (repr value))
  /\ (pGlobals py !! name = None ->
      getVariableType s name = "" /\ getVariableRepr s name = ""
      /\ getVariables s !! name = None).
Proof.
  intros Hpy. unfold getVariableType, getVariableRepr. rewrite Hpy.
  split; [|split].
  - intros info Hinfo. rewrite (getVariables_lookup s py name Hpy) in Hinfo.
    destruct (skipped name); [discriminate|].
    destruct (pGlobals py !! name) as [value|]; [|discriminate].
    cbn in Hinfo. injection Hinfo as <-. cbn. split; reflexivity.
  - intros value ->. cbn. split; reflexivity.
  - intros Hnone. rewrite (getVariables_lookup s py name Hpy), Hnone. cbn.
    destruct (skipped name); auto.
Qed.

(** ** More on the rich output protocol *)

Section MoreProtocol.

Variable fromJson : string -> option QJsonValue.
Variable fromBase64 : string -> QByteArray.

Local Abbreviation parse := (parse_line fromJson fromBase64).
Local Abbreviation rich := (parseRichOutputs fromJson fromBase64).
Local Abbreviation combined := (combine fromJson fromBase64).

(** X12.  The outputs come in the order of their lines: the outputs of a
    stream made of two parts with a line end between them are the outputs
    of the first part followed by those of the second. *)
Theorem rich_outputs_in_stream_order (first second : string) :
  rich (first ++ nl ++ second) = (rich first ++ rich second)%list.
Proof.
  unfold parseRichOutputs. rewrite split_around_nothing.
  apply fold_parse_line_app.
Qed.

Lemma parse_line_plain (outputs : list Output) (line : string) :
  is_sentinel_line line = false -> parse outputs line = outputs.
Proof.
  intros H. unfold parse_line. unfold is_sentinel_line in H. now rewrite H.
Qed.

Lemma parse_line_at_most_one (line : string) :
  length (parse [] line) <= if is_sentinel_line line then 1 else 0.
Proof.
  unfold parse_line, is_sentinel_line.
  destruct (QString.startsWith line SENTINEL); [|cbn; lia].
  destruct (fromJson _) as [doc|]; [|cbn; lia].
  destruct (output_of_json _ _); cbn; lia.
Qed.

(** Only the sentinel lines count for the outputs. *)
Lemma fold_parse_line_filter (lines : list string) :
  fold_left parse lines []
  = fold_left parse (List.filter is_sentinel_line lines) [].
Proof.
  induction lines as [|line lines IH]; [reflexivity|]. cbn.
  destruct (is_sentinel_line line) eqn:Hline; cbn.
  - rewrite (fold_parse_line fromJson fromBase64 lines),
      (fold_parse_line fromJson fromBase64 (List.filter _ _)), IH. reflexivity.
  - rewrite parse_line_plain by exact Hline. exact IH.
Qed.

(** X13.  A stream gives at most one output for each of its sentinel
    lines, and none for the others. *)
Theorem at_most_one_output_per_sentinel_line (stream : string) :
  length (rich stream)
  <= length (List.filter is_sentinel_line (QString.split newline stream)).
Proof.
  unfold parseRichOutputs.
  induction (QString.split newline stream) as [|line lines IH]; [cbn; lia|].
  cbn [fold_left]. rewrite fold_parse_line, length_app. cbn [List.filter].
  pose proof (parse_line_at_most_one line) as Hone.
  destruct (is_sentinel_line line); cbn [length]; lia.
Qed.

Lemma lines_before_first_sentinel_app (before after : list string)
    (line : string) :
  is_sentinel_line line = true ->
  lines_before_first_sentinel (before ++ line :: after)
  = lines_before_first_sentinel before.
Proof.
  intros Hline. induction before as [|b before IH]; cbn.
  - now rewrite Hline.
  - destruct (is_sentinel_line b); [reflexivity | now rewrite IH].
Qed.

Lemma lines_before_first_sentinel_plain (lines : list string) :
  Forall (fun line => is_sentinel_line line = false) lines ->
  lines_before_first_sentinel lines = lines.
Proof.
  induction 1 as [|line lines Hline _ IH]; cbn; [reflexivity|].
  now rewrite Hline, IH.
Qed.

Lemma filter_sentinel_plain (lines : list string) :
  Forall (fun line => is_sentinel_line line = false) lines ->
  List.filter is_sentinel_line lines = [].
Proof.
  induction 1 as [|line lines Hline _ IH]; cbn; [reflexivity|].
  now rewrite Hline.
Qed.

Lemma trimmed_back_nl (text : string) :
  QString.trimmed_back (text ++ nl) = QString.trimmed_back text.
Proof.
  induction text as [|c text IH]; [reflexivity|].
  rewrite append_cons. cbn. now rewrite IH.
Qed.

(** A line end at the end does not change what [trimmed] gives. *)
Lemma trimmed_nl (text : string) :
  QString.trimmed (text ++ nl) = QString.trimmed text.
Proof.
  unfold QString.trimmed. induction text as [|c text IH]; [reflexivity|].
  rewrite append_cons. cbn. destruct (QString.isSpace c); [exact IH|].
  change (String c (text ++ nl)) with (String c text ++ nl).
  apply trimmed_back_nl.
Qed.

(** X14.  A stream without a sentinel line is plain text: the text of the
    result is the whole stream, trimmed, and there are no outputs, unless
    the stream is nothing but white space, which the fallback then
    returns as one text output. *)
Theorem plain_stream_is_text (r : ExecutionResult) (stream err : string) :
  textOutput r = "" ->
  outputs r = [] ->
  Forall (fun line => is_sentinel_line line = false)
         (QString.split newline stream) ->
  textOutput (combined r stream err) = QString.trimmed stream
  /\ outputs (combined r stream err)
     = if QString.isEmpty stream then []
       else if QString.isEmpty (QString.trimmed stream)
            then [mkOutput Text stream []]
            else [].
Proof.
  intros Htext Houts Hplain.
  assert (Htxt : text_before_first_sentinel stream = QString.trimmed stream).
  { unfold text_before_first_sentinel.
    rewrite lines_before_first_sentinel_plain by exact Hplain.
    rewrite unlines_split. apply trimmed_nl. }
  assert (Hrich : rich stream = []).
  { unfold parseRichOutputs.
    rewrite fold_parse_line_filter, filter_sentinel_plain by exact Hplain.
    reflexivity. }
  split.
  - rewrite combine_textOutput by exact Htext. exact Htxt.
  - destruct (QString.isEmpty stream) eqn:Hempty.
    + apply isEmpty_true in Hempty. subst stream.
      unfold combine. cbn. destruct (QString.isEmpty err); exact Houts.
    + apply isEmpty_false in Hempty.
      rewrite combine_outputs by exact Hempty.
      rewrite Htxt, Hrich. now destruct (QString.isEmpty (QString.trimmed stream)).
Qed.

(** X15.  Plain text after the first sentinel line is lost.  Two streams
    that agree up to their first sentinel line and have the same sentinel
    lines after it give the same result, whatever other lines follow, as
    soon as one output is parsed. *)
Theorem text_after_first_sentinel_is_lost (r : ExecutionResult)
    (stream stream' err line : string) (before after after' : list string) :
  is_sentinel_line line = true ->
  QString.split newline stream = (before ++ line :: after)%list ->
  QString.split newline stream' = (before ++ line :: after')%list ->
  List.filter is_sentinel_line after = List.filter is_sentinel_line after' ->
  rich stream <> [] ->
  combined r stream err = combined r stream' err.
Proof.
  intros Hline Hsplit Hsplit' Hsame Hsome.
  assert (Hne : forall text l1 l2,
             QString.split newline text = (l1 ++ line :: l2)%list ->
             QString.isEmpty text = false).
  { intros text l1 l2 H. destruct text; [|reflexivity]. cbn in H.
    destruct l1 as [|x [|y l1]]; cbn in H; try discriminate.
    injection H as <- _. discriminate. }
  assert (Hrich : rich stream' = rich stream).
  { unfold parseRichOutputs.
    rewrite Hsplit, Hsplit', fold_parse_line_filter.
    rewrite (fold_parse_line_filter (before ++ line :: after)).
    rewrite !List.filter_app. cbn. rewrite Hline, Hsame. reflexivity. }
  unfold combine.
  rewrite (Hne _ _ _ Hsplit), (Hne _ _ _ Hsplit'), Hrich.
  rewrite Hsplit, Hsplit', !plain_text_loop_spec,
    !lines_before_first_sentinel_app by exact Hline.
  destruct (rich stream) as [|o os]; [congruence|].
  cbn [QList_isEmpty]. rewrite !andb_false_r. reflexivity.
Qed.

End MoreProtocol.

(** ** The cap of [parsePythonValue] *)

Lemma left_left_app (text tail : string) (n : nat) :
  n <= String.length text ->
  QString.left (QString.left text n ++ tail) n = QString.left text n.
Proof.
  revert text. induction n as [|n IH]; intros text Hn.
  - destruct text; cbn; now destruct tail.
  - destruct text as [|c text]; cbn in *; [lia|].
    rewrite append_cons. cbn. rewrite IH by lia. reflexivity.
Qed.

(** X16.  [parsePythonValue] never returns more than 103 characters (the
    cap of 100 and the three dots), returns a text at the cap or below as
    it is, and is idempotent: what it returns it leaves unchanged. *)
Theorem parsePythonValue_bounded_and_idempotent (text : string) :
  String.length (parsePythonValue text) <= 103
  /\ (String.length text <= 100 -> parsePythonValue text = text)
  /\ parsePythonValue (parsePythonValue text) = parsePythonValue text.
Proof.
  destruct (parsePythonValue_cap text) as [Hshort Hlong].
  destruct (Nat.le_gt_cases (String.length text) 100) as [Hle|Hgt].
  - rewrite (Hshort Hle). split; [lia|]. split; [auto|]. exact (Hshort Hle).
  - destruct (Hlong Hgt) as [Heq Hlen]. split; [lia|]. split; [lia|].
    rewrite Heq at 2. unfold parsePythonValue at 1.
    rewrite Hlen. cbn [Nat.leb]. rewrite Heq.
    rewrite left_left_app by lia. reflexivity.
Qed.

(** X17.  A call to [interrupt()] between two calls has no effect: the
    next [execute] resets the flag before it tests it, so it returns the
    same result and leaves the same session, and the snapshot is the same
    too. *)
Theorem interrupt_has_no_effect (host : Host)
    (PyRun_StringFlags : string -> Interp -> Evaluation)
    (fromJson : string -> option QJsonValue) (fromBase64 : string -> QByteArray)
    (s : PythonExecutor) (code : string) :
  execute host PyRun_StringFlags fromJson fromBase64 (interrupt s) code
  = execute host PyRun_StringFlags fromJson fromBase64 s code
  /\ getVariables (interrupt s) = getVariables s
  /\ restart host (interrupt s)
     = set_executionInterrupted (restart host s) true.
Proof.
  destruct s as [q m t l pc pf ei pm em]. split; [reflexivity|].
  split; [reflexivity|].
  unfold restart, cleanup, initialize, initialized, interrupt. cbn.
  destruct q; cbn; destruct (Py_IsInitialized host); cbn;
    destruct pc; reflexivity.
Qed.

(** * The cells and the inspector *)

(** ** What a cell shows *)

Lemma fold_show_output_frame (outs : list Output) (cell : CellWidget.t) :
  CellWidget.cellType (fold_left MainWindow.show_output outs cell)
  = CellWidget.cellType cell
  /\ CellWidget.editor (fold_left MainWindow.show_output outs cell)
     = CellWidget.editor cell
  /\ CellWidget.executing (fold_left MainWindow.show_output outs cell)
     = CellWidget.executing cell
  /\ CellWidget.executionCount (fold_left MainWindow.show_output outs cell)
     = CellWidget.executionCount cell.
Proof.
  revert cell. induction outs as [|o outs IH]; intros cell; [cbn; auto|].
  cbn [fold_left]. destruct (IH (MainWindow.show_output cell o)) as (-> & -> & -> & ->).
  unfold MainWindow.show_output. destruct (type o); cbn; auto.
Qed.

Lemma show_result_frame (cell : CellWidget.t) (r : ExecutionResult) :
  CellWidget.cellType (MainWindow.show_result cell r) = CellWidget.cellType cell
  /\ CellWidget.editor (MainWindow.show_result cell r) = CellWidget.editor cell
  /\ CellWidget.executing (MainWindow.show_result cell r)
     = CellWidget.executing cell
  /\ CellWidget.executionCount (MainWindow.show_result cell r)
     = CellWidget.executionCount cell.
Proof.
  unfold MainWindow.show_result. destruct (success r); [|cbn; auto].
  destruct (negb (QList_isEmpty (plotData r)));
    destruct (negb (QString.isEmpty (textOutput r)));
    cbn [CellWidget.addPlot CellWidget.add CellWidget.cellType CellWidget.editor
         CellWidget.executing CellWidget.executionCount];
    match goal with
    | |- context [fold_left MainWindow.show_output ?outs ?c] =>
        destruct (fold_show_output_frame outs c) as (-> & -> & -> & ->)
    end; cbn; auto.
Qed.

(** Outputs that are no tables are appended one by one. *)
Lemma fold_show_output_plain (outs : list Output) (cell : CellWidget.t) :
  Forall (fun o => MainWindow.is_table o = false) outs ->
  CellWidget.outputWidgets (fold_left MainWindow.show_output outs cell)
  = (CellWidget.outputWidgets cell ++ map MainWindow.widget_of outs)%list.
Proof.
  intros Hplain. revert cell.
  induction Hplain as [|o outs Ho _ IH]; intros cell.
  - cbn. now rewrite app_nil_r.
  - cbn [fold_left map]. rewrite IH.
    unfold MainWindow.show_output, MainWindow.widget_of, MainWindow.is_table in *.
    destruct (type o); try discriminate; cbn; now rewrite <- app_assoc.
Qed.

(** A table takes the place of everything that was shown. *)
Lemma fold_show_output_table (before after : list Output) (table : Output)
    (cell : CellWidget.t) :
  MainWindow.is_table table = true ->
  Forall (fun o => MainWindow.is_table o = false) after ->
  CellWidget.outputWidgets
    (fold_left MainWindow.show_output (before ++ table :: after) cell)
  = MainWindow.widget_of table :: map MainWindow.widget_of after.
Proof.
  intros Htable Hafter. rewrite fold_left_app. cbn [fold_left].
  rewrite fold_show_output_plain by exact Hafter.
  assert (Hhead : forall c,
    CellWidget.outputWidgets (MainWindow.show_output c table)
    = [MainWindow.widget_of table]).
  { intros c. unfold MainWindow.show_output, MainWindow.widget_of.
    unfold MainWindow.is_table in Htable.
    destruct (type table); try discriminate. reflexivity. }
  rewrite Hhead. reflexivity.
Qed.

(** ** Running a cell *)

Lemma onRefreshVariables_frame (w : MainWindow.t) :
  MainWindow.cells (MainWindow.onRefreshVariables w) = MainWindow.cells w
  /\ MainWindow.executionCounter (MainWindow.onRefreshVariables w)
     = MainWindow.executionCounter w
  /\ MainWindow.kernelBusy (MainWindow.onRefreshVariables w)
     = MainWindow.kernelBusy w
  /\ MainWindow.pythonExecutor (MainWindow.onRefreshVariables w)
     = MainWindow.pythonExecutor w.
Proof.
  unfold MainWindow.onRefreshVariables.
  destruct (MainWindow.pythonExecutor w) as [ex|] eqn:Hex;
    [|rewrite Hex; repeat split; reflexivity].
  destruct (MainWindow.variableInspector w) as [vi|];
    [|rewrite Hex; repeat split; reflexivity].
  destruct (negb (initialized ex));
    [rewrite Hex; repeat split; reflexivity|].
  destruct w; cbn in *. rewrite Hex. repeat split; reflexivity.
Qed.

(** What [onRefreshVariables] leaves in the inspector: the snapshot,
    whatever was stored before. *)
Lemma refresh_fold (vi : VariableInspector.t) (variables : gmap string VarInfo) :
  let vi' :=
    map_fold (fun name info vi => VariableInspector.setVariable vi name info)
             (VariableInspector.clear vi) variables in
  VariableInspector.m_variables vi' = variables
  /\ VariableInspector.m_treeWidget vi' = VariableInspector.item_of <$> variables
  /\ VariableInspector.m_countLabel vi'
     = VariableInspector.count_text (size variables)
  /\ VariableInspector.m_isConnected vi' = VariableInspector.m_isConnected vi
  /\ VariableInspector.m_kernelBusy vi' = VariableInspector.m_kernelBusy vi.
Proof.
  cbv zeta.
  apply (map_fold_weak_ind
           (fun (r : VariableInspector.t) (m : gmap string VarInfo) =>
              VariableInspector.m_variables r = m
              /\ VariableInspector.m_treeWidget r = VariableInspector.item_of <$> m
              /\ VariableInspector.m_countLabel r
                 = VariableInspector.count_text (size m)
              /\ VariableInspector.m_isConnected r
                 = VariableInspector.m_isConnected vi
              /\ VariableInspector.m_kernelBusy r
                 = VariableInspector.m_kernelBusy vi)).
  - cbn. rewrite fmap_empty. auto.
  - intros name info m r _ (Hm & _ & _ & Hc & Hb).
    unfold VariableInspector.setVariable, VariableInspector.updateTree. cbn.
    rewrite Hm. auto.
Qed.

Section Cells.

Variable host : Host.
Variable PyRun_StringFlags : string -> Interp -> Evaluation.
Variable fromJson : string -> option QJsonValue.
Variable fromBase64 : string -> QByteArray.

Local Abbreviation execute_ :=
  (execute host PyRun_StringFlags fromJson fromBase64).
Local Abbreviation executeCell_ :=
  (MainWindow.executeCell host PyRun_StringFlags fromJson fromBase64).
Local Abbreviation onActionRunAll_ :=
  (MainWindow.onActionRunAll host PyRun_StringFlags fromJson fromBase64).
Local Abbreviation run_turn_ :=
  (MainWindow.run_turn host PyRun_StringFlags fromJson fromBase64).

(** The window after a cell was run and its call returned. *)
Lemma executeCell_ran (w : MainWindow.t) (i : nat) (cell : CellWidget.t)
    (ex ex' : PythonExecutor) (r : ExecutionResult) :
  MainWindow.cells w !! i = Some cell ->
  MainWindow.runnable cell = true ->
  MainWindow.pythonExecutor w = Some ex ->
  execute_ ex (CellWidget.editor cell) = Some (r, ex') ->
  let shown :=
    MainWindow.show_result
      (CellWidget.setExecutionCount
         (CellWidget.setExecuting (CellWidget.setExecuting cell true) false)
         (MainWindow.executionCounter w + 1)) r in
  let w1 :=
    MainWindow.mk (<[i := shown]> (MainWindow.cells w)) (MainWindow.currentCell w)
      (MainWindow.executionCounter w + 1) false (Some ex')
      (MainWindow.variableInspector w) (MainWindow.statusMessage w) in
  executeCell_ w i
  = Some (if success r
             && match MainWindow.variableInspector w with
                | Some _ => true
                | None => false
                end
          then MainWindow.onRefreshVariables w1 else w1).
Proof.
  intros Hcell Hrun Hex Hcall. cbv zeta.
  unfold MainWindow.runnable in Hrun.
  unfold MainWindow.executeCell, CellWidget.getType, CellWidget.getCode.
  rewrite Hcell, Hex.
  destruct (CellWidget.cellType cell); [|discriminate].
  apply negb_true_iff in Hrun. rewrite Hrun, Hcall. cbv zeta.
  unfold MainWindow.set_cell, MainWindow.set_executionCounter,
    MainWindow.set_kernelBusy, MainWindow.set_pythonExecutor.
  cbn [MainWindow.cells MainWindow.currentCell MainWindow.executionCounter
       MainWindow.kernelBusy MainWindow.pythonExecutor
       MainWindow.variableInspector MainWindow.statusMessage].
  destruct (success r && _); reflexivity.
Qed.

(** X18.  A markdown cell, and a code cell whose text is empty or white
    space only, are not run: [executeCell] returns the window as it was,
    with the same counter, outputs, inspector and executor. *)
Theorem executeCell_skips_what_is_not_runnable (w : MainWindow.t) (i : nat)
    (cell : CellWidget.t) (ex : PythonExecutor) :
  MainWindow.cells w !! i = Some cell ->
  MainWindow.pythonExecutor w = Some ex ->
  MainWindow.runnable cell = false ->
  executeCell_ w i = Some w.
Proof.
  intros Hcell Hex Hrun. unfold MainWindow.runnable in Hrun.
  unfold MainWindow.executeCell, CellWidget.getType, CellWidget.getCode.
  rewrite Hcell, Hex. destruct (CellWidget.cellType cell); [|reflexivity].
  apply negb_false_iff in Hrun. now rewrite Hrun.
Qed.

(** X19.  Every run of a cell counts, whether the call succeeds or not:
    the counter of the window goes up by one, the cell is stamped with the
    new count and is no longer marked as running, its text is kept, the
    other cells are untouched and the window is not busy. *)
Theorem executeCell_counts_every_run (w : MainWindow.t) (i : nat)
    (cell : CellWidget.t) (ex ex' : PythonExecutor) (r : ExecutionResult) :
  MainWindow.cells w !! i = Some cell ->
  MainWindow.runnable cell = true ->
  MainWindow.pythonExecutor w = Some ex ->
  execute_ ex (CellWidget.editor cell) = Some (r, ex') ->
  exists w' cell',
    executeCell_ w i = Some w'
    /\ MainWindow.executionCounter w' = (MainWindow.executionCounter w + 1)%Z
    /\ MainWindow.kernelBusy w' = false
    /\ MainWindow.pythonExecutor w' = Some ex'
    /\ MainWindow.cells w' = <[i := cell']> (MainWindow.cells w)
    /\ CellWidget.executionCount cell' = (MainWindow.executionCounter w + 1)%Z
    /\ CellWidget.executing cell' = false
    /\ CellWidget.editor cell' = CellWidget.editor cell
    /\ CellWidget.cellType cell' = CellWidget.cellType cell.
Proof.
  intros Hcell Hrun Hex Hcall.
  pose proof (executeCell_ran w i cell ex ex' r Hcell Hrun Hex Hcall) as Hran.
  cbv zeta in Hran.
  match type of Hran with
  | _ = Some (if _ then MainWindow.onRefreshVariables ?w1 else _) =>
      destruct (onRefreshVariables_frame w1) as (Hc & Hn & Hb & He)
  end.
  eexists _, _. split; [exact Hran|].
  match goal with
  | |- context [MainWindow.show_result ?c r] =>
      destruct (show_result_frame c r) as (Ht & Hed & Hexg & Hcnt)
  end.
  destruct (success r && _);
    rewrite ?Hc, ?Hn, ?Hb, ?He; cbn [MainWindow.cells MainWindow.executionCounter
      MainWindow.kernelBusy MainWindow.pythonExecutor];
    rewrite Ht, Hed, Hexg, Hcnt; cbn; repeat split; reflexivity.
Qed.

(** X20.  A cell whose call failed shows the error text and nothing else:
    neither the text nor the rich outputs that the call captured are
    shown, and the inspector is not refreshed. *)
Theorem failed_cell_shows_only_the_error (w : MainWindow.t) (i : nat)
    (cell : CellWidget.t) (ex ex' : PythonExecutor) (r : ExecutionResult) :
  MainWindow.cells w !! i = Some cell ->
  MainWindow.runnable cell = true ->
  MainWindow.pythonExecutor w = Some ex ->
  execute_ ex (CellWidget.editor cell) = Some (r, ex') ->
  success r = false ->
  exists w' cell',
    executeCell_ w i = Some w'
    /\ MainWindow.cells w' !! i = Some cell'
    /\ CellWidget.outputWidgets cell'
       = [CellWidget.OutputLabel (error r) CellWidget.ErrorOutput]
    /\ MainWindow.variableInspector w' = MainWindow.variableInspector w.
Proof.
  intros Hcell Hrun Hex Hcall Hfail.
  pose proof (executeCell_ran w i cell ex ex' r Hcell Hrun Hex Hcall) as Hran.
  cbv zeta in Hran. rewrite Hfail in Hran. cbn [andb] in Hran.
  eexists _, _. split; [exact Hran|]. cbn [MainWindow.cells MainWindow.variableInspector].
  split; [apply list_lookup_insert_eq; eapply lookup_lt_Some; exact Hcell|].
  split; [|reflexivity].
  unfold MainWindow.show_result. rewrite Hfail. reflexivity.
Qed.

(** X21.  A cell whose call succeeded, with no table among the outputs,
    shows the text (when there is some), then one label for each output in
    their order, then the plot (when there is one).  The error text of the
    result, which is where standard error goes, is not shown. *)
Theorem successful_cell_shows_text_then_outputs (w : MainWindow.t) (i : nat)
    (cell : CellWidget.t) (ex ex' : PythonExecutor) (r : ExecutionResult) :
  MainWindow.cells w !! i = Some cell ->
  MainWindow.runnable cell = true ->
  MainWindow.pythonExecutor w = Some ex ->
  execute_ ex (CellWidget.editor cell) = Some (r, ex') ->
  success r = true ->
  Forall (fun o => MainWindow.is_table o = false) (outputs r) ->
  exists w' cell',
    executeCell_ w i = Some w'
    /\ MainWindow.cells w' !! i = Some cell'
    /\ CellWidget.outputWidgets cell'
       = ((if QString.isEmpty (textOutput r) then []
           else [CellWidget.OutputLabel (textOutput r) CellWidget.TextOutput])
          ++ map MainWindow.widget_of (outputs r)
          ++ (if QList_isEmpty (plotData r) then []
              else [CellWidget.PlotLabel (plotData r)]))%list.
Proof.
  intros Hcell Hrun Hex Hcall Hok Hplain.
  pose proof (executeCell_ran w i cell ex ex' r Hcell Hrun Hex Hcall) as Hran.
  cbv zeta in Hran.
  match type of Hran with
  | _ = Some (if _ then MainWindow.onRefreshVariables ?w1 else _) =>
      destruct (onRefreshVariables_frame w1) as (Hc & _)
  end.
  eexists _, _. split; [exact Hran|]. split.
  - destruct (success r && _); rewrite ?Hc; cbn [MainWindow.cells];
      apply list_lookup_insert_eq; eapply lookup_lt_Some; exact Hcell.
  - unfold MainWindow.show_result. rewrite Hok.
    destruct (QString.isEmpty (textOutput r)), (QList_isEmpty (plotData r));
      cbn [negb]; unfold CellWidget.addPlot, CellWidget.add;
      cbn [CellWidget.outputWidgets];
      rewrite fold_show_output_plain by exact Hplain; cbn;
      rewrite ?app_nil_r, <- ?app_assoc; reflexivity.
Qed.

(** X22.  A table output wipes what was shown before it.  When the
    outputs of a successful call hold a table, the cell shows the last
    table, the outputs after it and the plot; the text of the result and
    every output before that table are not shown. *)
Theorem table_output_wipes_what_came_before (w : MainWindow.t) (i : nat)
    (cell : CellWidget.t) (ex ex' : PythonExecutor) (r : ExecutionResult)
    (before after : list Output) (table : Output) :
  MainWindow.cells w !! i = Some cell ->
  MainWindow.runnable cell = true ->
  MainWindow.pythonExecutor w = Some ex ->
  execute_ ex (CellWidget.editor cell) = Some (r, ex') ->
  success r = true ->
  outputs r = (before ++ table :: after)%list ->
  MainWindow.is_table table = true ->
  Forall (fun o => MainWindow.is_table o = false) after ->
  exists w' cell',
    executeCell_ w i = Some w'
    /\ MainWindow.cells w' !! i = Some cell'
    /\ CellWidget.outputWidgets cell'
       = (CellWidget.TableLabel (content table)
          :: map MainWindow.widget_of after
          ++ (if QList_isEmpty (plotData r) then []
              else [CellWidget.PlotLabel (plotData r)]))%list.
Proof.
  intros Hcell Hrun Hex Hcall Hok Houts Htable Hafter.
  pose proof (executeCell_ran w i cell ex ex' r Hcell Hrun Hex Hcall) as Hran.
  cbv zeta in Hran.
  match type of Hran with
  | _ = Some (if _ then MainWindow.onRefreshVariables ?w1 else _) =>
      destruct (onRefreshVariables_frame w1) as (Hc & _)
  end.
  eexists _, _. split; [exact Hran|]. split.
  - destruct (success r && _); rewrite ?Hc; cbn [MainWindow.cells];
      apply list_lookup_insert_eq; eapply lookup_lt_Some; exact Hcell.
  - assert (Hw : MainWindow.widget_of table = CellWidget.TableLabel (content table)).
    { unfold MainWindow.widget_of, MainWindow.is_table in *.
      destruct (type table); try discriminate. reflexivity. }
    unfold MainWindow.show_result. rewrite Hok, Houts.
    destruct (QList_isEmpty (plotData r));
      cbn [negb]; unfold CellWidget.addPlot, CellWidget.add;
      cbn [CellWidget.outputWidgets];
      rewrite (fold_show_output_table before after table _ Htable Hafter), Hw;
      cbn; rewrite ?app_nil_r; reflexivity.
Qed.

(** X23.  After a cell whose call succeeded the inspector shows the
    snapshot of the session, and only that: the stored variables, the
    items of the tree and the count are those of [getVariables], whatever
    the inspector held before. *)
Theorem successful_cell_refreshes_the_inspector (w : MainWindow.t) (i : nat)
    (cell : CellWidget.t) (ex ex' : PythonExecutor) (r : ExecutionResult)
    (vi : VariableInspector.t) :
  MainWindow.cells w !! i = Some cell ->
  MainWindow.runnable cell = true ->
  MainWindow.pythonExecutor w = Some ex ->
  MainWindow.variableInspector w = Some vi ->
  execute_ ex (CellWidget.editor cell) = Some (r, ex') ->
  success r = true ->
  exists w' vi',
    executeCell_ w i = Some w'
    /\ MainWindow.variableInspector w' = Some vi'
    /\ VariableInspector.m_variables vi' = getVariables ex'
    /\ VariableInspector.m_treeWidget vi'
       = VariableInspector.item_of <$> getVariables ex'
    /\ VariableInspector.m_countLabel vi'
       = VariableInspector.count_text (size (getVariables ex')).
Proof.
  intros Hcell Hrun Hex Hvi Hcall Hok.
  pose proof (executeCell_ran w i cell ex ex' r Hcell Hrun Hex Hcall) as Hran.
  cbv zeta in Hran. rewrite Hok, Hvi in Hran. cbn [andb] in Hran.
  assert (Hinit : initialized ex' = true).
  { unfold execute in Hcall.
    destruct (attempt _ _ _ ex _) as [[r0 s0|r0 out err s0]|] eqn:Hat;
      [| |discriminate].
    - exfalso. injection Hcall as <- _. revert Hat. unfold attempt. cbv zeta.
      destruct (python (prologue host ex)).
      + destruct (executionInterrupted (prologue host ex)).
        * intros [= <- _]. discriminate.
        * destruct (guarded_run _ _ _ _) as [? [[? ?]|]|?|]; discriminate.
      + intros [= <- _]. discriminate.
    - injection Hcall as _ <-. revert Hat. unfold attempt. cbv zeta.
      destruct (python (prologue host ex)); [|discriminate].
      destruct (executionInterrupted (prologue host ex)); [discriminate|].
      destruct (guarded_run _ _ _ _) as [? [[? ?]|]|?|];
        intros [= _ _ _ <-]; reflexivity. }
  unfold MainWindow.onRefreshVariables in Hran.
  cbn [MainWindow.pythonExecutor MainWindow.variableInspector] in Hran.
  rewrite Hinit in Hran. cbn [negb] in Hran.
  destruct (refresh_fold vi (getVariables ex')) as (Hm & Ht & Hc & _).
  eexists _, _. split; [exact Hran|].
  cbn [MainWindow.variableInspector MainWindow.set_variableInspector].
  split; [reflexivity|]. auto.
Qed.

End Cells.

(** ** The window as a whole *)

Lemma fold_run_turn_none (host : Host) (PyRun_StringFlags : string -> Interp -> Evaluation)
    (fromJson : string -> option QJsonValue) (fromBase64 : string -> QByteArray)
    (l : list nat) :
  fold_left (MainWindow.run_turn host PyRun_StringFlags fromJson fromBase64) l None
  = None.
Proof. induction l as [|i l IH]; [reflexivity|exact IH]. Qed.

Lemma filter_seq_flags (flags : list bool) :
  length (List.filter (fun i => default false (flags !! i)) (seq 0 (length flags)))
  = length (List.filter (fun b : bool => b) flags).
Proof.
  induction flags as [|b flags IH]; [reflexivity|].
  cbn [length seq]. rewrite <- seq_shift. cbn [List.filter].
  assert (Hshift : forall l : list nat,
    length (List.filter (fun i => default false ((b :: flags) !! i)) (map S l))
    = length (List.filter (fun i => default false (flags !! i)) l)).
  { induction l as [|j l IHl]; [reflexivity|].
    cbn [map List.filter]. change ((b :: flags) !! S j) with (flags !! j).
    destruct (default false (flags !! j)); cbn [length]; now rewrite IHl. }
  change (default false ((b :: flags) !! 0)) with b.
  destruct b; cbn [length]; rewrite Hshift, IH; reflexivity.
Qed.

Lemma filter_fmap_length {A : Type} (f : A -> bool) (l : list A) :
  length (List.filter (fun b : bool => b) (f <$> l)) = length (List.filter f l).
Proof.
  induction l as [|x l IH]; [reflexivity|].
  cbn [fmap list_fmap List.filter]. change (list_fmap A bool f l) with (f <$> l).
  destruct (f x); cbn [length]; now rewrite IH.
Qed.

Section Window.

Variable host : Host.
Variable PyRun_StringFlags : string -> Interp -> Evaluation.
Variable fromJson : string -> option QJsonValue.
Variable fromBase64 : string -> QByteArray.

Local Abbreviation run_ :=
  (execute host PyRun_StringFlags fromJson fromBase64).
Local Abbreviation runCell_ :=
  (MainWindow.executeCell host PyRun_StringFlags fromJson fromBase64).
Local Abbreviation runAll_ :=
  (MainWindow.onActionRunAll host PyRun_StringFlags fromJson fromBase64).
Local Abbreviation turn_ :=
  (MainWindow.run_turn host PyRun_StringFlags fromJson fromBase64).

Lemma run_turn_executeCell (w : MainWindow.t) (i : nat) :
  turn_ (Some w) i = runCell_ w i.
Proof.
  unfold MainWindow.run_turn, MainWindow.executeCell.
  destruct (MainWindow.cells w !! i) as [cell|]; [|reflexivity].
  destruct (CellWidget.getType cell); reflexivity.
Qed.

(** What one run does to the counter, and what it leaves alone. *)
Lemma executeCell_step (w w' : MainWindow.t) (i : nat) (ex : PythonExecutor) :
  MainWindow.pythonExecutor w = Some ex ->
  runCell_ w i = Some w' ->
  (exists ex', MainWindow.pythonExecutor w' = Some ex')
  /\ MainWindow.runnable <$> MainWindow.cells w'
     = MainWindow.runnable <$> MainWindow.cells w
  /\ MainWindow.executionCounter w'
     = (MainWindow.executionCounter w
        + if default false ((MainWindow.runnable <$> MainWindow.cells w) !! i)
          then 1 else 0)%Z.
Proof.
  intros Hex Hrun. rewrite list_lookup_fmap.
  destruct (MainWindow.cells w !! i) as [cell|] eqn:Hcell.
  - cbn [fmap option_fmap option_map default].
    destruct (MainWindow.runnable cell) eqn:Hr.
    + destruct (run_ ex (CellWidget.editor cell)) as [[r ex']|] eqn:Hcall.
      * pose proof (executeCell_ran host PyRun_StringFlags fromJson fromBase64
                      w i cell ex ex' r Hcell Hr Hex Hcall) as Hran.
        cbv zeta in Hran. rewrite Hran in Hrun. injection Hrun as <-.
        match goal with
        | |- context [MainWindow.onRefreshVariables ?w1] =>
            destruct (onRefreshVariables_frame w1) as (Hc & Hn & _ & He)
        end.
        match goal with
        | |- context [MainWindow.show_result ?c r] =>
            destruct (show_result_frame c r) as (Ht & Hed & _ & _);
            assert (Hsame : MainWindow.runnable (MainWindow.show_result c r)
                            = MainWindow.runnable cell)
              by (unfold MainWindow.runnable; rewrite Ht, Hed; reflexivity)
        end.
        destruct (success r && _); rewrite ?Hc, ?Hn, ?He;
          cbn [MainWindow.cells MainWindow.executionCounter
               MainWindow.pythonExecutor];
          (split; [eauto|]); (split; [|reflexivity]);
          rewrite list_fmap_insert, Hsame; apply list_insert_id;
          rewrite list_lookup_fmap, Hcell; reflexivity.
      * exfalso. revert Hrun. unfold MainWindow.runnable in Hr.
        unfold MainWindow.executeCell, CellWidget.getType, CellWidget.getCode.
        rewrite Hcell, Hex. destruct (CellWidget.cellType cell); [|discriminate].
        apply negb_true_iff in Hr. rewrite Hr, Hcall. discriminate.
    + revert Hrun. unfold MainWindow.runnable in Hr.
      unfold MainWindow.executeCell, CellWidget.getType, CellWidget.getCode.
      rewrite Hcell, Hex.
      destruct (CellWidget.cellType cell);
        [apply negb_false_iff in Hr; rewrite Hr|];
        intros [= <-]; rewrite Z.add_0_r; eauto.
  - unfold MainWindow.executeCell in Hrun. rewrite Hcell in Hrun.
    injection Hrun as <-. cbn. rewrite Z.add_0_r. eauto.
Qed.

Lemma run_turns_count (l : list nat) (w w' : MainWindow.t) (ex : PythonExecutor) :
  MainWindow.pythonExecutor w = Some ex ->
  fold_left turn_ l (Some w) = Some w' ->
  MainWindow.runnable <$> MainWindow.cells w'
  = MainWindow.runnable <$> MainWindow.cells w
  /\ MainWindow.executionCounter w'
     = (MainWindow.executionCounter w
        + Z.of_nat
            (length
               (List.filter
                  (fun i =>
                     default false
                       ((MainWindow.runnable <$> MainWindow.cells w) !! i))
                  l)))%Z.
Proof.
  revert w ex. induction l as [|i l IH]; intros w ex Hex Hfold.
  - injection Hfold as <-. cbn. now rewrite Z.add_0_r.
  - cbn [fold_left] in Hfold. rewrite run_turn_executeCell in Hfold.
    destruct (runCell_ w i) as [w1|] eqn:Hstep;
      [|now rewrite fold_run_turn_none in Hfold].
    destruct (executeCell_step w w1 i ex Hex Hstep) as ((ex1 & Hex1) & Hflags & Hn).
    destruct (IH w1 ex1 Hex1 Hfold) as (Hflags' & Hn').
    rewrite Hflags', Hn', Hn, Hflags. split; [reflexivity|].
    cbn [List.filter].
    destruct (default false ((MainWindow.runnable <$> MainWindow.cells w) !! i));
      cbn [length]; lia.
Qed.

(** X24.  Run All counts the cells it runs: when it returns, the counter
    of the window has gone up by the number of code cells whose text is
    more than white space, whether their calls succeeded or not, and the
    cells are as many, of the same kinds and as runnable as before. *)
Theorem onActionRunAll_counts_the_runnable_cells (w w' : MainWindow.t)
    (ex : PythonExecutor) :
  MainWindow.pythonExecutor w = Some ex ->
  runAll_ w = Some w' ->
  MainWindow.executionCounter w'
  = (MainWindow.executionCounter w
     + Z.of_nat (length (List.filter MainWindow.runnable (MainWindow.cells w))))%Z
  /\ MainWindow.runnable <$> MainWindow.cells w'
     = MainWindow.runnable <$> MainWindow.cells w.
Proof.
  intros Hex Hall. unfold MainWindow.onActionRunAll in Hall.
  destruct (run_turns_count _ w w' ex Hex Hall) as (Hflags & Hn).
  split; [|exact Hflags]. rewrite Hn.
  pose proof (filter_seq_flags (MainWindow.runnable <$> MainWindow.cells w))
    as Hseq.
  rewrite length_fmap in Hseq. rewrite Hseq, filter_fmap_length. reflexivity.
Qed.

Lemma executeCell_idle (w w' : MainWindow.t) (i : nat) :
  MainWindow.idle w -> runCell_ w i = Some w' -> MainWindow.idle w'.
Proof.
  intros [Hbusy Hcells]. unfold MainWindow.executeCell.
  destruct (MainWindow.cells w !! i) as [cell|] eqn:Hcell;
    [|intros [= <-]; split; assumption].
  assert (Hexec : CellWidget.executing cell = false).
  { rewrite Forall_lookup in Hcells. exact (Hcells i cell Hcell). }
  destruct (CellWidget.getType cell); [|intros [= <-]; split; assumption].
  destruct (MainWindow.pythonExecutor w) as [ex|].
  - destruct (QString.isEmpty _); [intros [= <-]; split; assumption|].
    destruct (run_ ex _) as [[r ex']|]; [|discriminate]. cbv zeta.
    unfold MainWindow.set_cell, MainWindow.set_executionCounter,
      MainWindow.set_kernelBusy, MainWindow.set_pythonExecutor.
    cbn [MainWindow.cells MainWindow.currentCell MainWindow.executionCounter
         MainWindow.kernelBusy MainWindow.pythonExecutor
         MainWindow.variableInspector MainWindow.statusMessage].
    match goal with
    | |- context [MainWindow.onRefreshVariables ?w1] =>
        destruct (onRefreshVariables_frame w1) as (Hc & _ & Hb & _);
        assert (Hidle : MainWindow.idle w1)
    end.
    { split; [reflexivity|]. cbn [MainWindow.cells].
      apply Forall_insert; [exact Hcells|].
      match goal with
      | |- CellWidget.executing (MainWindow.show_result ?c r) = _ =>
          destruct (show_result_frame c r) as (_ & _ & -> & _)
      end. reflexivity. }
    destruct (success r && _); intros [= <-]; [|exact Hidle].
    destruct Hidle as [Hb1 Hc1]. split; [now rewrite Hb|now rewrite Hc].
  - intros [= <-]. split; [exact Hbusy|]. cbn [MainWindow.set_cell MainWindow.cells].
    apply Forall_insert; [exact Hcells|]. exact Hexec.
Qed.

Lemma run_turns_idle (l : list nat) (w w' : MainWindow.t) :
  MainWindow.idle w -> fold_left turn_ l (Some w) = Some w' -> MainWindow.idle w'.
Proof.
  revert w. induction l as [|i l IH]; intros w Hidle Hfold.
  - now injection Hfold as <-.
  - cbn [fold_left] in Hfold. rewrite run_turn_executeCell in Hfold.
    destruct (runCell_ w i) as [w1|] eqn:Hstep;
      [|now rewrite fold_run_turn_none in Hfold].
    exact (IH w1 (executeCell_idle w w1 i Hidle Hstep) Hfold).
Qed.

(** X25.  Between two actions nothing is marked as running.  The busy
    flag is raised and lowered inside one call of [executeCell] only: when
    the window is idle (not busy, no cell marked as executing) it is idle
    again after every cell run and every Run All that returns and after a
    restart, and the Interrupt action, which does something only when the
    window is busy, leaves the window as it is. *)
Theorem window_is_idle_between_actions (w : MainWindow.t) :
  MainWindow.idle w ->
  (forall i w', runCell_ w i = Some w' -> MainWindow.idle w')
  /\ (forall w', runAll_ w = Some w' -> MainWindow.idle w')
  /\ (forall confirmed,
        MainWindow.idle (MainWindow.onActionRestartKernel host w confirmed))
  /\ MainWindow.onActionInterruptKernel w = w.
Proof.
  intros Hidle. split; [|split; [|split]].
  - intros i w'. exact (executeCell_idle w w' i Hidle).
  - intros w'. exact (run_turns_idle _ w w' Hidle).
  - intros [|]; [|exact Hidle]. destruct Hidle as [Hbusy Hcells].
    unfold MainWindow.onActionRestartKernel.
    destruct (MainWindow.pythonExecutor w); (split; [exact Hbusy|]); cbn;
      apply List.Forall_map; exact Hcells.
  - destruct Hidle as [Hbusy _]. unfold MainWindow.onActionInterruptKernel.
    rewrite Hbusy. now destruct (MainWindow.pythonExecutor w).
Qed.

(** X26.  A confirmed restart empties the outputs of every cell and
    replaces the session, but leaves the inspector and the counter as they
    are: the inspector keeps listing what it listed, although the new
    session has no binding for any name outside the set-up names and the
    fresh [__main__]. *)
Theorem restart_action_leaves_the_inspector_stale (w : MainWindow.t)
    (ex : PythonExecutor) (name : string) :
  MainWindow.pythonExecutor w = Some ex ->
  ~ In name bootstrap_names ->
  main_dict host !! name = None ->
  let w' := MainWindow.onActionRestartKernel host w true in
  MainWindow.pythonExecutor w' = Some (restart host ex)
  /\ getVariables (restart host ex) !! name = None
  /\ MainWindow.variableInspector w' = MainWindow.variableInspector w
  /\ MainWindow.executionCounter w' = MainWindow.executionCounter w
  /\ Forall (fun cell => CellWidget.outputWidgets cell = []
                         /\ CellWidget.outputVisible cell = false)
            (MainWindow.cells w')
  /\ map CellWidget.executionCount (MainWindow.cells w')
     = map CellWidget.executionCount (MainWindow.cells w).
Proof.
  intros Hex Hname Hfresh. cbv zeta. unfold MainWindow.onActionRestartKernel.
  rewrite Hex. cbn. split; [reflexivity|]. split; [|split; [reflexivity|]].
  - destruct (python (restart host ex)) as [py|] eqn:Hpy.
    + rewrite (getVariables_lookup _ py name Hpy).
      destruct (skipped name); [reflexivity|].
      now rewrite (restart_globals host ex py name Hpy Hname), Hfresh.
    + now rewrite (getVariables_uninitialized _ Hpy).
  - split; [reflexivity|]. split.
    + apply List.Forall_map. apply List.Forall_forall. intros c _.
      split; reflexivity.
    + rewrite map_map. reflexivity.
Qed.

(** X27.  The Refresh button of the inspector never gets to the
    snapshot.  The inspector connects its signal [refreshRequested] to its
    own [fetchVariables], which does nothing but emit that signal again:
    whatever the depth of calls allowed, the click does not return, and the
    timer does the same whenever the inspector is not marked busy. *)
Theorem refresh_button_never_completes (depth : nat) (w : MainWindow.t) :
  MainWindow.onRefreshClicked depth w = None
  /\ MainWindow.onTimeout depth w
     = match MainWindow.variableInspector w with
       | Some vi => if VariableInspector.m_kernelBusy vi then Some w else None
       | None => Some w
       end.
Proof.
  assert (Hloop : forall d, MainWindow.refreshRequested d w = None).
  { induction d as [|d IH]; [reflexivity|].
    cbn [MainWindow.refreshRequested]. now rewrite IH. }
  split; [apply Hloop|]. unfold MainWindow.onTimeout, MainWindow.fetchVariables.
  destruct (MainWindow.variableInspector w) as [vi|]; [|reflexivity].
  destruct (VariableInspector.m_kernelBusy vi); [reflexivity|apply Hloop].
Qed.

End Window.

(** X28.  Every item of the tree that gets the child indicator also gets
    an icon, one of those for int, float, str, list, dict and tuple: the
    chain of icons tests the three container words before any test that
    could leave the item without an icon. *)
Theorem expandable_items_have_an_icon (type : string) :
  VariableInspector.expandable type = true ->
  In (VariableInspector.icon_of type)
     [Some VariableInspector.intIcon; Some VariableInspector.floatIcon;
      Some VariableInspector.strIcon; Some VariableInspector.listIcon;
      Some VariableInspector.dictIcon; Some VariableInspector.tupleIcon].
Proof.
  unfold VariableInspector.expandable, VariableInspector.icon_of. intros H.
  destruct (icontains type "int"); [cbn; tauto|].
  destruct (icontains type "float" || icontains type "double"); [cbn; tauto|].
  destruct (icontains type "str" || (type =? "bytes")%string); [cbn; tauto|].
  destruct (icontains type "list"); [cbn; tauto|].
  destruct (icontains type "dict"); [cbn; tauto|].
  destruct (icontains type "tuple"); [cbn; tauto|].
  discriminate.
Qed.

(** ** Settings that nothing reads *)

(** X29.  The memory limit and the plot format are stored and never
    consulted: a call on a session with another limit or another format
    returns the same result and leaves the same session but for that
    setting, and the snapshot is the same. *)
Theorem memory_limit_and_plot_format_are_not_enforced (host : Host)
    (PyRun_StringFlags : string -> Interp -> Evaluation)
    (fromJson : string -> option QJsonValue) (fromBase64 : string -> QByteArray)
    (s : PythonExecutor) (code : string) (bytes : Z) (format : string) :
  execute host PyRun_StringFlags fromJson fromBase64 (setMemoryLimit s bytes) code
  = match execute host PyRun_StringFlags fromJson fromBase64 s code with
    | Some (r, s') => Some (r, setMemoryLimit s' bytes)
    | None => None
    end
  /\ execute host PyRun_StringFlags fromJson fromBase64 (setPlotFormat s format) code
     = match execute host PyRun_StringFlags fromJson fromBase64 s code with
       | Some (r, s') => Some (r, setPlotFormat s' format)
       | None => None
       end
  /\ getVariables (setMemoryLimit s bytes) = getVariables s
  /\ getVariables (setPlotFormat s format) = getVariables s.
Proof.
  destruct s as [q m t l pc pf ei pm em].
  split; [|split; [|split; reflexivity]].
  - unfold execute, attempt, prologue, initialize, initialized, setMemoryLimit.
    cbn.
    destruct q as [py|]; cbn.
    + unfold guarded_run. cbn.
      destruct (run_steps _ _ _ _ _) as [py' [[value traceback]|]|py'|]; cbn;
        try reflexivity.
      destruct pc; cbn; [|reflexivity].
      unfold capturePlot; cbn. destruct pm; cbn; [|reflexivity].
      destruct (capture_current_plot host py'); reflexivity.
    + destruct (Py_IsInitialized host); cbn; [|reflexivity].
      destruct pc; cbn.
      * unfold guarded_run. cbn.
        destruct (run_steps _ _ _ _ _) as [py' [[value traceback]|]|py'|]; cbn;
          try reflexivity.
        unfold capturePlot; cbn.
        destruct (capture_current_plot host py'); reflexivity.
      * unfold guarded_run. cbn.
        destruct (run_steps _ _ _ _ _) as [py' [[value traceback]|]|py'|]; cbn;
          reflexivity.
  - unfold execute, attempt, prologue, initialize, initialized, setPlotFormat.
    cbn.
    destruct q as [py|]; cbn.
    + unfold guarded_run. cbn.
      destruct (run_steps _ _ _ _ _) as [py' [[value traceback]|]|py'|]; cbn;
        try reflexivity.
      destruct pc; cbn; [|reflexivity].
      unfold capturePlot; cbn. destruct pm; cbn; [|reflexivity].
      destruct (capture_current_plot host py'); reflexivity.
    + destruct (Py_IsInitialized host); cbn; [|reflexivity].
      destruct pc; cbn.
      * unfold guarded_run. cbn.
        destruct (run_steps _ _ _ _ _) as [py' [[value traceback]|]|py'|]; cbn;
          try reflexivity.
        unfold capturePlot; cbn.
        destruct (capture_current_plot host py'); reflexivity.
      * unfold guarded_run. cbn.
        destruct (run_steps _ _ _ _ _) as [py' [[value traceback]|]|py'|]; cbn;
          reflexivity.
Qed.

(** * The further properties on the reference machine *)

Section Reference.

Local Abbreviation run :=
  (execute Scenario.host Scenario.PyRun_StringFlags QJson.fromJson
     Base64.fromBase64).
Local Abbreviation evaluate :=
  (evaluation Scenario.host Scenario.PyRun_StringFlags).
Local Abbreviation run_in_notebook :=
  (execute Scenario.host Notebook.PyRun_StringFlags QJson.fromJson
     Base64.fromBase64).
Local Abbreviation run_cell :=
  (MainWindow.executeCell Scenario.host Notebook.PyRun_StringFlags
     QJson.fromJson Base64.fromBase64).
Local Abbreviation run_all :=
  (MainWindow.onActionRunAll Scenario.host Notebook.PyRun_StringFlags
     QJson.fromJson Base64.fromBase64).
Local Abbreviation no_interp := (mkInterp ∅ "" "" "" false).

Lemma execute_without_python_witness :
  exists s',
    execute Notebook.dead_host Scenario.PyRun_StringFlags QJson.fromJson
      Base64.fromBase64 PythonExecutor_new Scenario.assign_x
    = Some (mkResult false "" "Failed to initialize Python interpreter" [] [], s')
    /\ python s' = None
    /\ emitted s' = emitted PythonExecutor_new
    /\ lastErrorMessage s' = "Failed to initialize Python interpreter".
Proof.
  apply (execute_without_python Notebook.dead_host Scenario.PyRun_StringFlags
           QJson.fromJson Base64.fromBase64 PythonExecutor_new Scenario.assign_x);
    reflexivity.
Defined.

Lemma restart_leaves_fresh_namespace_witness :
  exists py,
    python (restart Scenario.host Notebook.after_assign_x) = Some py
    /\ pGlobals py !! "x" = main_dict Scenario.host !! "x"
    /\ pStdout py = ""
    /\ pStderr py = "".
Proof.
  assert (Hpy : python (restart Scenario.host Notebook.after_assign_x)
                = Some (default no_interp
                          (python (restart Scenario.host Notebook.after_assign_x))))
    by (apply Some_eta; vm_compute; reflexivity).
  eexists. split; [exact Hpy|].
  apply (restart_leaves_fresh_namespace Scenario.host Notebook.after_assign_x _
           "x" Hpy).
  intros Hin. cbv [In bootstrap_names] in Hin.
  repeat (destruct Hin as [Hin|Hin]; [discriminate Hin|]). exact Hin.
Defined.

Lemma execute_signals_witness :
  exists r s',
    run Scenario.s0 Scenario.plot = Some (r, s')
    /\ (emitted s'
        = (emitted Scenario.s0
           ++ [executionStarted; executionFinished (success r)])%list
        \/ exists data,
             success r = true
             /\ emitted s'
                = (emitted Scenario.s0
                   ++ [executionStarted; plotGenerated data;
                       executionFinished true])%list).
Proof.
  assert (Hex : match run Scenario.s0 Scenario.plot with
                | Some _ => true
                | None => false
                end = true)
    by (vm_compute; reflexivity).
  apply (Some_pair_eta _ result0 PythonExecutor_new) in Hex.
  eexists _, _. split; [exact Hex|].
  exact (execute_signals Scenario.host Scenario.PyRun_StringFlags QJson.fromJson
           Base64.fromBase64 Scenario.s0 Scenario.plot _ _ Hex).
Defined.

Lemma execute_keeps_configuration_witness :
  exists r s',
    run (setExecutionTimeout Scenario.s0 2500) Scenario.spin = Some (r, s')
    /\ executionTimeout s' = 2500%Z
    /\ memoryLimit s' = 0%Z
    /\ plotCaptureEnabled s' = true
    /\ plotFormat s' = "PNG"
    /\ (Py_IsInitialized Scenario.host = true -> initialized s' = true).
Proof.
  assert (Hex : match run (setExecutionTimeout Scenario.s0 2500) Scenario.spin with
                | Some _ => true
                | None => false
                end = true)
    by (vm_compute; reflexivity).
  apply (Some_pair_eta _ result0 PythonExecutor_new) in Hex.
  eexists _, _. split; [exact Hex|].
  exact (execute_keeps_configuration Scenario.host Scenario.PyRun_StringFlags
           QJson.fromJson Base64.fromBase64
           (setExecutionTimeout Scenario.s0 2500) Scenario.spin _ _ Hex).
Defined.

(** A sleep of 1.5 s under a timeout of 1999 ms is cut off after one
    second. *)
Lemma timeout_is_rounded_down_to_seconds_witness :
  exists r s',
    run (setExecutionTimeout Scenario.s0 1999) Scenario.sleep = Some (r, s')
    /\ success r = false
    /\ error r = timeout_message (setExecutionTimeout Scenario.s0 1999)
    /\ contains (error r) "timed out" = true.
Proof.
  assert (Hpy : match python (prologue Scenario.host
                                (setExecutionTimeout Scenario.s0 1999)) with
                | Some _ => true
                | None => false
                end = true)
    by (vm_compute; reflexivity).
  apply (Some_eta _ no_interp) in Hpy.
  assert (Hrange : (1000 <= executionTimeout (setExecutionTimeout Scenario.s0 1999)
                    < 2 ^ 31)%Z) by (cbn; lia).
  apply (proj2 (timeout_is_rounded_down_to_seconds Scenario.host
                  Scenario.PyRun_StringFlags QJson.fromJson Base64.fromBase64
                  (setExecutionTimeout Scenario.s0 1999) Scenario.sleep _
                  Hrange Hpy)).
  right. vm_compute. discriminate.
Defined.

(** The same sleep under a timeout of 100 ms runs to its end. *)
Lemma timeout_below_one_second_is_none_witness :
  exists r s',
    run (setExecutionTimeout Scenario.s0 100) Scenario.sleep = Some (r, s')
    /\ success r = true.
Proof.
  assert (Hpy : match python (prologue Scenario.host
                                (setExecutionTimeout Scenario.s0 100)) with
                | Some _ => true
                | None => false
                end = true)
    by (vm_compute; reflexivity).
  apply (Some_eta _ no_interp) in Hpy.
  assert (Hrange : (-1000 < executionTimeout (setExecutionTimeout Scenario.s0 100)
                    < 1000)%Z) by (cbn; lia).
  apply (proj1 (timeout_below_one_second_is_none Scenario.host
                  Scenario.PyRun_StringFlags QJson.fromJson Base64.fromBase64
                  (setExecutionTimeout Scenario.s0 100) Scenario.sleep _
                  Hrange Hpy)).
  vm_compute. discriminate.
Defined.

(** A call that warned and raised leaves nothing for the next one. *)
Lemma isolation_between_completed_calls_witness :
  exists r1 s1 r2 s2,
    run Scenario.s0 Scenario.warn_then_raise = Some (r1, s1)
    /\ run s1 Scenario.print_second = Some (r2, s2)
    /\ textOutput r2 = "second"
    /\ error r2 = "".
Proof.
  assert (H1 : match evaluate Scenario.s0 Scenario.warn_then_raise with
               | Some (Done _ _) => true
               | _ => false
               end = true)
    by (vm_compute; reflexivity).
  apply (Done_eta _ no_interp) in H1.
  assert (Hex : match run Scenario.s0 Scenario.warn_then_raise with
                | Some _ => true
                | None => false
                end = true)
    by (vm_compute; reflexivity).
  apply (Some_pair_eta _ result0 PythonExecutor_new) in Hex.
  match type of Hex with
  | _ = Some (?r1, ?s1) =>
      assert (H2 : match evaluate s1 Scenario.print_second with
                   | Some (Done _ _) => true
                   | _ => false
                   end = true)
        by (vm_compute; reflexivity);
      apply (Done_eta _ no_interp) in H2;
      destruct (isolation_between_completed_calls Scenario.host
                  Scenario.PyRun_StringFlags QJson.fromJson Base64.fromBase64
                  Scenario.s0 Scenario.warn_then_raise Scenario.print_second
                  _ _ _ _ r1 s1 H1 Hex H2)
        as (r2 & s2 & Hex2 & Htext & Herr);
      exists r1, s1, r2, s2
  end.
  split; [exact Hex|]. split; [exact Hex2|]. split.
  - rewrite Htext. vm_compute. reflexivity.
  - rewrite Herr. vm_compute. reflexivity.
Defined.

Lemma bindings_persist_witness :
  exists r s' py'',
    run Scenario.s0 Scenario.assign_x = Some (r, s')
    /\ python s' = Some py''
    /\ pGlobals py'' !! "x" = Some (mkValue "int" (Some "1")).
Proof.
  assert (Hpy : match python (prologue Scenario.host Scenario.s0) with
                | Some _ => true
                | None => false
                end = true)
    by (vm_compute; reflexivity).
  apply (Some_eta _ no_interp) in Hpy.
  assert (Hev : match evaluate Scenario.s0 Scenario.assign_x with
                | Some (Done _ _) => true
                | _ => false
                end = true)
    by (vm_compute; reflexivity).
  apply (Done_eta _ no_interp) in Hev.
  destruct (bindings_persist Scenario.host Scenario.PyRun_StringFlags
              QJson.fromJson Base64.fromBase64 Scenario.s0 Scenario.assign_x
              _ _ _ Hpy Hev)
    as (r & s' & py'' & Hex & Hpy' & Hg).
  exists r, s', py''. split; [exact Hex|]. split; [exact Hpy'|].
  rewrite Hg. vm_compute. reflexivity.
Defined.

Lemma snapshot_lists_what_is_not_skipped_witness :
  exists py,
    python Notebook.after_assign_x = Some py
    /\ getVariables Notebook.after_assign_x !! "x"
       = variable_info <$> pGlobals py !! "x"
    /\ getVariables Notebook.after_assign_x !! "x"
       = Some (mkVarInfo "int" "1").
Proof.
  assert (Hpy : match python Notebook.after_assign_x with
                | Some _ => true
                | None => false
                end = true)
    by (vm_compute; reflexivity).
  apply (Some_eta _ no_interp) in Hpy.
  destruct (snapshot_lists_what_is_not_skipped Notebook.after_assign_x _ "x" Hpy)
    as (_ & _ & _ & Hplain & _).
  eexists. split; [exact Hpy|].
  assert (Hnot : ~ In "x" internal_names).
  { intros Hin. cbv [In internal_names] in Hin.
    repeat (destruct Hin as [Hin|Hin]; [discriminate Hin|]). exact Hin. }
  pose proof (Hplain eq_refl Hnot) as Hx.
  split; [exact Hx|]. rewrite Hx. vm_compute. reflexivity.
Defined.

Lemma lookups_agree_with_snapshot_witness :
  exists py,
    python Notebook.after_assign_x = Some py
    /\ getVariableType Notebook.after_assign_x "x" = "int"
    /\ getVariableRepr Notebook.after_assign_x "x" = "1".
Proof.
  assert (Hpy : match python Notebook.after_assign_x with
                | Some _ => true
                | None => false
                end = true)
    by (vm_compute; reflexivity).
  apply (Some_eta _ no_interp) in Hpy.
  destruct (lookups_agree_with_snapshot Notebook.after_assign_x _ "x" Hpy)
    as (Hlisted & _ & _).
  eexists. split; [exact Hpy|].
  apply (Hlisted (mkVarInfo "int" "1")). vm_compute. reflexivity.
Defined.

Lemma plain_stream_is_text_witness :
  textOutput (combine QJson.fromJson Base64.fromBase64 result0
                ("hello" ++ nl) "")
  = QString.trimmed ("hello" ++ nl)
  /\ outputs (combine QJson.fromJson Base64.fromBase64 result0
                ("hello" ++ nl) "")
     = if QString.isEmpty ("hello" ++ nl) then []
       else if QString.isEmpty (QString.trimmed ("hello" ++ nl))
            then [mkOutput Text ("hello" ++ nl) []]
            else [].
Proof.
  apply (plain_stream_is_text QJson.fromJson Base64.fromBase64 result0
           ("hello" ++ nl) ""); [reflexivity|reflexivity|].
  vm_compute. repeat constructor.
Defined.

Lemma text_after_first_sentinel_is_lost_witness :
  combine QJson.fromJson Base64.fromBase64 result0
    ("a" ++ nl ++ Scenario.hi_line ++ nl ++ "lost") ""
  = combine QJson.fromJson Base64.fromBase64 result0
      ("a" ++ nl ++ Scenario.hi_line) "".
Proof.
  apply (text_after_first_sentinel_is_lost QJson.fromJson Base64.fromBase64
           result0 ("a" ++ nl ++ Scenario.hi_line ++ nl ++ "lost")
           ("a" ++ nl ++ Scenario.hi_line) "" Scenario.hi_line
           ["a"] ["lost"] []).
  - vm_compute. reflexivity.
  - vm_compute. reflexivity.
  - vm_compute. reflexivity.
  - vm_compute. reflexivity.
  - vm_compute. discriminate.
Defined.

Lemma parsePythonValue_bounded_and_idempotent_witness :
  parsePythonValue "None" = "None"
  /\ String.length (parsePythonValue Scenario.a120) <= 103
  /\ parsePythonValue (parsePythonValue Scenario.a120)
     = parsePythonValue Scenario.a120.
Proof.
  destruct (parsePythonValue_bounded_and_idempotent "None") as (_ & Hshort & _).
  destruct (parsePythonValue_bounded_and_idempotent Scenario.a120)
    as (Hbound & _ & Hsame).
  split; [apply Hshort; vm_compute; repeat constructor|].
  split; [exact Hbound|exact Hsame].
Defined.

Lemma executeCell_skips_what_is_not_runnable_witness :
  run_cell Notebook.window 2 = Some Notebook.window
  /\ run_cell Notebook.window 0 = Some Notebook.window.
Proof.
  split.
  - apply (executeCell_skips_what_is_not_runnable Scenario.host
             Notebook.PyRun_StringFlags QJson.fromJson Base64.fromBase64
             Notebook.window 2 (Notebook.code_cell ("   " ++ nl))
             PythonExecutor_new); vm_compute; reflexivity.
  - apply (executeCell_skips_what_is_not_runnable Scenario.host
             Notebook.PyRun_StringFlags QJson.fromJson Base64.fromBase64
             Notebook.window 0 (Notebook.markdown_cell "# Title")
             PythonExecutor_new); vm_compute; reflexivity.
Defined.

(** The cell that raises is counted like any other. *)
Lemma executeCell_counts_every_run_witness :
  exists w' cell',
    run_cell Notebook.window 3 = Some w'
    /\ MainWindow.executionCounter w' = 1%Z
    /\ MainWindow.cells w' !! 3 = Some cell'
    /\ CellWidget.executionCount cell' = 1%Z
    /\ CellWidget.executing cell' = false.
Proof.
  assert (Hcall : match run_in_notebook PythonExecutor_new
                          (CellWidget.editor
                             (Notebook.code_cell Scenario.warn_then_raise)) with
                  | Some _ => true
                  | None => false
                  end = true)
    by (vm_compute; reflexivity).
  apply (Some_pair_eta _ result0 PythonExecutor_new) in Hcall.
  destruct (executeCell_counts_every_run Scenario.host Notebook.PyRun_StringFlags
              QJson.fromJson Base64.fromBase64 Notebook.window 3
              (Notebook.code_cell Scenario.warn_then_raise) PythonExecutor_new
              _ _ eq_refl eq_refl eq_refl Hcall)
    as (w' & cell' & Hrun & Hn & _ & _ & Hcells & Hcount & Hexec & _).
  exists w', cell'. split; [exact Hrun|]. split; [exact Hn|].
  split; [rewrite Hcells; reflexivity|]. split; [exact Hcount|exact Hexec].
Defined.

Lemma failed_cell_shows_only_the_error_witness :
  exists w' cell',
    run_cell Notebook.window 3 = Some w'
    /\ MainWindow.cells w' !! 3 = Some cell'
    /\ CellWidget.outputWidgets cell'
       = [CellWidget.OutputLabel
            ("careful" ++ nl ++ nl ++ "  File " ++ dquote ++ "<string>"
             ++ dquote ++ ", line 3, in <module>" ++ nl ++ "bad")
            CellWidget.ErrorOutput]
    /\ MainWindow.variableInspector w'
       = MainWindow.variableInspector Notebook.window.
Proof.
  assert (Hcall : match run_in_notebook PythonExecutor_new
                          (CellWidget.editor
                             (Notebook.code_cell Scenario.warn_then_raise)) with
                  | Some _ => true
                  | None => false
                  end = true)
    by (vm_compute; reflexivity).
  apply (Some_pair_eta _ result0 PythonExecutor_new) in Hcall.
  match type of Hcall with
  | _ = Some (?r, _) =>
      assert (Hfail : success r = false) by (vm_compute; reflexivity)
  end.
  destruct (failed_cell_shows_only_the_error Scenario.host
              Notebook.PyRun_StringFlags QJson.fromJson Base64.fromBase64
              Notebook.window 3 (Notebook.code_cell Scenario.warn_then_raise)
              PythonExecutor_new _ _ eq_refl eq_refl eq_refl Hcall Hfail)
    as (w' & cell' & Hrun & Hcell & Hshown & Hvi).
  exists w', cell'. split; [exact Hrun|]. split; [exact Hcell|].
  split; [rewrite Hshown; vm_compute; reflexivity|exact Hvi].
Defined.

Lemma successful_cell_shows_text_then_outputs_witness :
  exists w' cell',
    run_cell Notebook.window 5 = Some w'
    /\ MainWindow.cells w' !! 5 = Some cell'
    /\ CellWidget.outputWidgets cell'
       = [CellWidget.OutputLabel "total" CellWidget.TextOutput;
          CellWidget.OutputLabel "hi" CellWidget.TextOutput].
Proof.
  assert (Hcall : match run_in_notebook PythonExecutor_new
                          (CellWidget.editor
                             (Notebook.code_cell Notebook.show_text)) with
                  | Some _ => true
                  | None => false
                  end = true)
    by (vm_compute; reflexivity).
  apply (Some_pair_eta _ result0 PythonExecutor_new) in Hcall.
  match type of Hcall with
  | _ = Some (?r, _) =>
      assert (Hok : success r = true) by (vm_compute; reflexivity);
      assert (Hplain : Forall (fun o => MainWindow.is_table o = false) (outputs r))
        by (vm_compute; repeat constructor)
  end.
  destruct (successful_cell_shows_text_then_outputs Scenario.host
              Notebook.PyRun_StringFlags QJson.fromJson Base64.fromBase64
              Notebook.window 5 (Notebook.code_cell Notebook.show_text)
              PythonExecutor_new _ _ eq_refl eq_refl eq_refl Hcall Hok Hplain)
    as (w' & cell' & Hrun & Hcell & Hshown).
  exists w', cell'. split; [exact Hrun|]. split; [exact Hcell|].
  rewrite Hshown. vm_compute. reflexivity.
Defined.

(** The line of text and the first output give way to the table. *)
Lemma table_output_wipes_what_came_before_witness :
  exists w' cell',
    run_cell Notebook.window 4 = Some w'
    /\ MainWindow.cells w' !! 4 = Some cell'
    /\ CellWidget.outputWidgets cell'
       = [CellWidget.TableLabel "<table></table>";
          CellWidget.OutputLabel "hi" CellWidget.TextOutput].
Proof.
  assert (Hcall : match run_in_notebook PythonExecutor_new
                          (CellWidget.editor
                             (Notebook.code_cell Notebook.show_table)) with
                  | Some _ => true
                  | None => false
                  end = true)
    by (vm_compute; reflexivity).
  apply (Some_pair_eta _ result0 PythonExecutor_new) in Hcall.
  match type of Hcall with
  | _ = Some (?r, _) =>
      assert (Hok : success r = true) by (vm_compute; reflexivity);
      assert (Houts : outputs r
                      = ([mkOutput Text "hi" []]
                         ++ mkOutput Table "<table></table>" []
                            :: [mkOutput Text "hi" []])%list)
        by (vm_compute; reflexivity);
      assert (Hplot : plotData r = []) by (vm_compute; reflexivity)
  end.
  destruct (table_output_wipes_what_came_before Scenario.host
              Notebook.PyRun_StringFlags QJson.fromJson Base64.fromBase64
              Notebook.window 4 (Notebook.code_cell Notebook.show_table)
              PythonExecutor_new _ _ _ _ _
              eq_refl eq_refl eq_refl Hcall Hok Houts eq_refl)
    as (w' & cell' & Hrun & Hcell & Hshown).
  { repeat constructor. }
  exists w', cell'. split; [exact Hrun|]. split; [exact Hcell|].
  rewrite Hshown, Hplot. reflexivity.
Defined.

Lemma successful_cell_refreshes_the_inspector_witness :
  exists w' vi',
    run_cell Notebook.window 1 = Some w'
    /\ MainWindow.variableInspector w' = Some vi'
    /\ VariableInspector.m_variables vi' !! "x" = Some (mkVarInfo "int" "1")
    /\ VariableInspector.m_countLabel vi' = "11 variables".
Proof.
  assert (Hcall : match run_in_notebook PythonExecutor_new
                          (CellWidget.editor
                             (Notebook.code_cell Scenario.assign_x)) with
                  | Some _ => true
                  | None => false
                  end = true)
    by (vm_compute; reflexivity).
  apply (Some_pair_eta _ result0 PythonExecutor_new) in Hcall.
  match type of Hcall with
  | _ = Some (?r, _) =>
      assert (Hok : success r = true) by (vm_compute; reflexivity)
  end.
  destruct (successful_cell_refreshes_the_inspector Scenario.host
              Notebook.PyRun_StringFlags QJson.fromJson Base64.fromBase64
              Notebook.window 1 (Notebook.code_cell Scenario.assign_x)
              PythonExecutor_new _ _ _ eq_refl eq_refl eq_refl eq_refl Hcall
              Hok)
    as (w' & vi' & Hrun & Hvi & Hvars & _ & Hcount).
  exists w', vi'. split; [exact Hrun|]. split; [exact Hvi|].
  split; [rewrite Hvars|rewrite Hcount]; vm_compute; reflexivity.
Defined.

(** Of the six cells of the notebook four are run. *)
Lemma onActionRunAll_counts_the_runnable_cells_witness :
  exists w',
    run_all Notebook.window = Some w'
    /\ MainWindow.executionCounter w' = 4%Z.
Proof.
  assert (Hall : match run_all Notebook.window with
                 | Some _ => true
                 | None => false
                 end = true)
    by (vm_compute; reflexivity).
  apply (Some_eta _ Notebook.window) in Hall.
  eexists. split; [exact Hall|].
  rewrite (proj1 (onActionRunAll_counts_the_runnable_cells Scenario.host
                    Notebook.PyRun_StringFlags QJson.fromJson Base64.fromBase64
                    Notebook.window _ PythonExecutor_new eq_refl Hall)).
  vm_compute. reflexivity.
Defined.

Lemma window_is_idle_between_actions_witness :
  MainWindow.idle Notebook.window
  /\ MainWindow.onActionInterruptKernel Notebook.window = Notebook.window
  /\ forall w', run_all Notebook.window = Some w' -> MainWindow.idle w'.
Proof.
  assert (Hidle : MainWindow.idle Notebook.window)
    by (split; [reflexivity|repeat constructor]).
  destruct (window_is_idle_between_actions Scenario.host
              Notebook.PyRun_StringFlags QJson.fromJson Base64.fromBase64
              Notebook.window Hidle)
    as (_ & Hall & _ & Hinterrupt).
  split; [exact Hidle|]. split; [exact Hinterrupt|exact Hall].
Defined.

(** After the restart the inspector still lists [x], which the session no
    longer has. *)
Lemma restart_action_leaves_the_inspector_stale_witness :
  getVariables Notebook.after_assign_x !! "x" = Some (mkVarInfo "int" "1")
  /\ getVariables (restart Scenario.host Notebook.after_assign_x) !! "x" = None
  /\ MainWindow.variableInspector
       (MainWindow.onActionRestartKernel Scenario.host Notebook.window_with_x true)
     = MainWindow.variableInspector Notebook.window_with_x.
Proof.
  split; [vm_compute; reflexivity|].
  destruct (restart_action_leaves_the_inspector_stale Scenario.host
              Notebook.window_with_x Notebook.after_assign_x "x" eq_refl)
    as (_ & Hgone & Hvi & _).
  - intros Hin. cbv [In bootstrap_names] in Hin.
    repeat (destruct Hin as [Hin|Hin]; [discriminate Hin|]). exact Hin.
  - reflexivity.
  - split; [exact Hgone|exact Hvi].
Defined.

Lemma expandable_items_have_an_icon_witness :
  VariableInspector.expandable "list" = true
  /\ VariableInspector.icon_of "list" = Some VariableInspector.listIcon
  /\ In (VariableInspector.icon_of "dict_keys")
        [Some VariableInspector.intIcon; Some VariableInspector.floatIcon;
         Some VariableInspector.strIcon; Some VariableInspector.listIcon;
         Some VariableInspector.dictIcon; Some VariableInspector.tupleIcon].
Proof.
  split; [reflexivity|]. split; [reflexivity|].
  apply (expandable_items_have_an_icon "dict_keys"). reflexivity.
Defined.

End Reference.
